(** * METER-1 telemetry: a shallow embedding of [code.py]

    The program is a CircuitPython script: a logger writing to the console,
    a UART and two files on a MicroSD card, two I2C sensors whose readings
    are encoded as InfluxDB lines and appended to a data file, and an endless
    loop that polls an HTTP server and the sensors.

    The embedding is a state-and-exception monad over a [World] (the files on
    the card, the trace of every externally visible operation and a counter of
    interactions with the environment).  Everything the program cannot decide
    by itself (pin levels, sensor readings, the clock, I/O faults, faults of
    the HTTP library) is read from an oracle [Env] indexed by that counter, so
    that two reads of the same sensor or two opens of the same file may
    differ.

    What is taken from the Python runtime and the libraries, not from the
    script:
    - [print] and [UART.write] are output sinks that do not raise;
    - [open(path, "a")] creates a missing file, and [open], [write] and
      [os.remove] raise when the oracle says so;
    - [os.remove] of a missing file raises [FileNotFoundError], with the text
      the runtime gives it ([enoent_text]);
    - [server.poll()] returns or raises; the request handlers it may run are
      embedded on their own, under "The web interface", not inside the poll;
    - an exception is an instance of [Exception] (what [except Exception]
      catches); interrupts are outside the model. *)

From Stdlib Require Import ZArith Ascii.
From stdpp Require Import base gmap strings list pretty.

Open Scope Z_scope.

(** ** Python exceptions

    [Exn] stands for instances of Python's [Exception]: the class decides
    which [except] clause matches, the text is what [str(e)] prints.
    [IOError] is an alias of [OSError]; [FileNotFoundError] is a subclass of
    it; [RuntimeError] stands for every other subclass of [Exception]. *)

Inductive ExnClass : Type :=
  | FileNotFoundError
  | OSError
  | NotImplementedError
  | RuntimeError.

Record Exn : Type := mkExn { exn_class : ExnClass; exn_text : string }.

Inductive Outcome (A : Type) : Type :=
  | Ok (a : A)
  | Raise (e : Exn).
Arguments Ok {A} a.
Arguments Raise {A} e.

(** ** Numbers as the program prints them

    The program never computes with a sensor value: it reads it from a driver
    and formats it with an f-string.  An [int] is a [Z].  A [float] is
    represented by the finite decimal [fmant * 10^-fscale] that [str] prints
    (positional notation, which is what Python uses for the magnitudes the
    sensors deliver). *)

Record PyFloat : Type := mkFloat { fmant : Z; fscale : nat }.

Inductive Num : Type :=
  | PyInt (z : Z)
  | PyFlt (f : PyFloat).

Fixpoint rstrip_zeros (s : string) : string :=
  match s with
  | EmptyString => EmptyString
  | String c r =>
      match rstrip_zeros r with
      | EmptyString => if Ascii.eqb c "0"%char then EmptyString else String c EmptyString
      | r' => String c r'
      end
  end.

Fixpoint zeros (n : nat) : string :=
  match n with
  | O => EmptyString
  | S k => String "0"%char (zeros k)
  end.

Definition pad_zeros (width : nat) (s : string) : string :=
  zeros (width - String.length s) +:+ s.

Definition str_float (f : PyFloat) : string :=
  let m := Z.abs (fmant f) in
  let p := 10 ^ Z.of_nat (fscale f) in
  let frac := rstrip_zeros (pad_zeros (fscale f) (pretty (m mod p))) in
  (if fmant f <? 0 then "-" else "")
    +:+ pretty (m / p) +:+ "."
    +:+ (if String.eqb frac "" then "0" else frac).

Example str_float_examples :
  str_float (mkFloat 101325 2) = "1013.25" /\ str_float (mkFloat 215 1) = "21.5" /\
  str_float (mkFloat 0 0) = "0.0" /\ str_float (mkFloat (-981) 2) = "-9.81" /\
  str_float (mkFloat 2150 2) = "21.5" /\ str_float (mkFloat (-5) 2) = "-0.05".
Proof. repeat split; reflexivity. Qed.

(** [f"{value}"] *)
Definition str_num (v : Num) : string :=
  match v with
  | PyInt z => pretty z
  | PyFlt f => str_float f
  end.

(** ** The world and the environment *)

Inductive Event : Type :=
  | EPrint (line : string)                        (* print(line) *)
  | EUart (data : string)                         (* UART.write(data) *)
  | EOpen (path : string) (ok : bool)             (* open(path, "a") *)
  | EWrite (path : string) (data : string) (ok : bool)
  | EClose (path : string)
  | ERemove (path : string) (ok : bool)           (* os.remove(path) *)
  | EPoll.                                        (* server.poll() *)

Record World : Type := mkWorld {
  fs : gmap string string;   (* the files on the card: path to contents *)
  trace : list Event;        (* oldest event first *)
  now : nat                  (* interactions with the environment so far *)
}.

Record Env : Type := mkEnv {
  uart_present : bool;                 (* the global UART is not None *)
  monotonic_ms : nat -> Z;             (* int(time.monotonic() * 1_000) *)
  cd_pin : nat -> bool;                (* MICROSD_CD_PIN.value *)
  del_pin : nat -> bool;               (* MICROSD_DEL_PIN.value *)
  bno_acceleration : nat -> Outcome (option (Num * Num * Num));
  dps_pressure : nat -> Outcome Num;
  dps_temperature : nat -> Outcome Num;
  open_fault : nat -> string -> option Exn;
  write_fault : nat -> string -> option Exn;
  remove_fault : nat -> string -> option Exn;
  poll_fault : nat -> option Exn;
  enoent_text : string -> string       (* str(e) of the error for a missing path *)
}.

(** ** The monad: state plus exceptions *)

Definition M (A : Type) : Type := World -> Outcome A * World.

Definition ret {A} (a : A) : M A := fun w => (Ok a, w).

Definition raise {A} (e : Exn) : M A := fun w => (Raise e, w).

Definition bind {A B} (m : M A) (k : A -> M B) : M B :=
  fun w =>
    match m w with
    | (Ok a, w') => k a w'
    | (Raise e, w') => (Raise e, w')
    end.

Notation "x <- m ;; k" := (bind m (fun x => k))
  (at level 100, m at next level, right associativity).
Notation "m ;; k" := (bind m (fun _ => k))
  (at level 100, right associativity).

(** [try: m  except Exception as e: h e] *)
Definition try_catch {A} (m : M A) (h : Exn -> M A) : M A :=
  fun w =>
    match m w with
    | (Ok a, w') => (Ok a, w')
    | (Raise e, w') => h e w'
    end.

(** [try: m  finally: f], with a [f] that does not raise *)
Definition finally {A} (m : M A) (f : World -> World) : M A :=
  fun w => let '(r, w') := m w in (r, f w').

Definition emit (ev : Event) : M unit :=
  fun w => (Ok tt, mkWorld (fs w) (trace w ++ [ev]) (now w)).

(** One interaction with the environment: its index, and the counter moves. *)
Definition step : M nat :=
  fun w => (Ok (now w), mkWorld (fs w) (trace w) (S (now w))).

Definition get_fs : M (gmap string string) := fun w => (Ok (fs w), w).

Definition put_fs (m : gmap string string) : M unit :=
  fun w => (Ok tt, mkWorld m (trace w) (now w)).

(** ** Constants of the script *)

Definition CRLF : string := String "013"%char (String "010"%char EmptyString).

Definition _SD_ROOT : string := "/sd".
Definition _DATA_FILE : string := "data.txt".
Definition _LOG_FILE : string := "run.log".
Definition _ERR_FILE : string := "error.log".

Definition DATAPATH : string := _SD_ROOT +:+ "/" +:+ _DATA_FILE.
Definition LOGPATH : string := _SD_ROOT +:+ "/" +:+ _LOG_FILE.
Definition ERRPATH : string := _SD_ROOT +:+ "/" +:+ _ERR_FILE.

Definition LogLevel_DEBUG : Z := 0.
Definition LogLevel_INFO : Z := 1.
Definition LogLevel_WARN : Z := 2.
Definition LogLevel_ERROR : Z := 3.

Definition SensorType_BNO08X : Z := 0.
Definition SensorType_DPS310 : Z := 1.

(** ** Python dictionaries, in insertion order *)

Fixpoint dict_set {V} (key : string) (v : V) (d : list (string * V)) : list (string * V) :=
  match d with
  | [] => [(key, v)]
  | (k, x) :: rest =>
      if String.eqb k key then (k, v) :: rest else (k, x) :: dict_set key v rest
  end.

(** A file that is opened for appending: created empty when missing. *)
Definition touch (path : string) (files : gmap string string) : gmap string string :=
  <[path := default "" (files !! path)]> files.

(** [for x in l: body x] *)
Fixpoint for_each {A} (l : list A) (body : A -> M unit) : M unit :=
  match l with
  | [] => ret tt
  | x :: rest => body x;; for_each rest body
  end.

(** ** The sensor interface

    [_SensorBase] is the duck-typed interface of the script: an object with a
    [get_data] method that yields a dictionary of named numbers. *)

Record _SensorBase : Type := mkSensor { get_data : M (list (string * Num)) }.

Record SensorData : Type := mkSensorData {
  sensor_type : Z;
  data : _SensorBase;
  timestamp : Z
}.

(** The formatting done by [to_influx_line] once the measurement name and
    the fields are known: the list comprehension, the join and the final
    f-string. *)
Definition influx_line (measurement : string) (_field_data : list (string * Num))
    (timestamp : Z) : string :=
  let _field_substrings :=
    map (fun kv : string * Num => fst kv +:+ "=" +:+ str_num (snd kv)) _field_data in
  let fields := String.concat "," _field_substrings in
  measurement +:+ " " +:+ fields +:+ " " +:+ pretty timestamp.

(** The method of the base class itself. *)
Definition _SensorBase_get_data : M (list (string * Num)) :=
  raise (mkExn NotImplementedError "Abstract function has to be implemented.").

Section Program.

Variable env : Env.

(** *** Primitives of the runtime *)

Definition print (line : string) : M unit := emit (EPrint line).

Definition UART_write (s : string) : M unit := emit (EUart s).

(** [int(time.monotonic() * 1_000)] *)
Definition time_monotonic_ms : M Z :=
  n <- step;; ret (monotonic_ms env n).

Definition pin_value (pin : nat -> bool) : M bool :=
  n <- step;; ret (pin n).

(** Reading a property of a driver object: a value, or the driver raises. *)
Definition driver_read {A} (reading : nat -> Outcome A) : M A :=
  n <- step;; fun w => (reading n, w).

(** [open(path, "a")]: the file exists afterwards, with the contents it had
    (none when it is new). *)
Definition open_append (path : string) : M unit :=
  n <- step;;
  match open_fault env n path with
  | Some e => emit (EOpen path false);; raise e
  | None =>
      emit (EOpen path true);;
      files <- get_fs;;
      put_fs (touch path files)
  end.

Definition file_write (path : string) (s : string) : M unit :=
  n <- step;;
  match write_fault env n path with
  | Some e => emit (EWrite path s false);; raise e
  | None =>
      emit (EWrite path s true);;
      files <- get_fs;;
      put_fs (<[path := default "" (files !! path) +:+ s]> files)
  end.

Definition file_close (path : string) (w : World) : World :=
  mkWorld (fs w) (trace w ++ [EClose path]) (now w).

(** [with open(path, "a") as f: body] *)
Definition with_open_append {A} (path : string) (body : M A) : M A :=
  open_append path;; finally body (file_close path).

(** [os.remove(path)] *)
Definition os_remove (path : string) : M unit :=
  n <- step;;
  match remove_fault env n path with
  | Some e => emit (ERemove path false);; raise e
  | None =>
      files <- get_fs;;
      match files !! path with
      | None =>
          emit (ERemove path false);;
          raise (mkExn FileNotFoundError (enoent_text env path))
      | Some _ => emit (ERemove path true);; put_fs (delete path files)
      end
  end.

(** [server.poll()] of the HTTP library: it returns or it raises.  The
    handlers the library runs for a pending request are embedded on their
    own, under "The web interface", and are not run from here: what is said
    about the files over iterations of [main] is about polls that serve no
    request. *)
Definition server_poll : M unit :=
  n <- step;;
  emit EPoll;;
  match poll_fault env n with
  | Some e => raise e
  | None => ret tt
  end.

(** *** The logger

    [log] and [LogLevel.get_name] call each other: [get_name] logs a warning
    about an unknown level.  The nested call is at [WARN], a known level, so
    the recursion stops there; [log_known] is that innermost call. *)

Definition LogLevel_get_name_with (log : Z -> list string -> M unit) (level : Z) : M string :=
  if level =? LogLevel_DEBUG then ret "DEBUG"
  else if level =? LogLevel_ERROR then ret "ERROR"
  else if level =? LogLevel_WARN then ret "WARN"
  else if level =? LogLevel_INFO then ret "INFO"
  else
    log LogLevel_WARN ["Log level " +:+ pretty level +:+ " is unknown."];;
    ret "UNKNOWN".

Definition log_with (get_name : Z -> M string) (level : Z) (message : list string) : M unit :=
  str_message <-
    match message with
    | [] => ret ""
    | _ =>
        let str_message := String.concat "" message in
        _timestamp <- time_monotonic_ms;;
        _level_name <- get_name level;;
        ret ("[" +:+ _level_name +:+ "] - [" +:+ pretty _timestamp +:+ "]: " +:+ str_message)
    end;;
  print str_message;;
  (if uart_present env then UART_write (str_message +:+ CRLF) else ret tt);;
  if level =? LogLevel_DEBUG then ret tt
  else
    let logfile_path := if level =? LogLevel_ERROR then ERRPATH else LOGPATH in
    try_catch
      (with_open_append logfile_path (file_write logfile_path (str_message +:+ CRLF)))
      (fun e =>
         match exn_class e with
         | FileNotFoundError =>
             print ("Could not open file " +:+ logfile_path +:+ ": File not found.")
         | OSError =>
             print ("Could not write to " +:+ logfile_path +:+ ":  " +:+ exn_text e)
         | _ =>
             print ("Writing to " +:+ logfile_path +:+ " failed:  " +:+ exn_text e)
         end).

Definition log_known : Z -> list string -> M unit :=
  log_with (LogLevel_get_name_with (fun _ _ => ret tt)).

Definition LogLevel_get_name : Z -> M string := LogLevel_get_name_with log_known.

Definition log : Z -> list string -> M unit := log_with LogLevel_get_name.

Definition SensorType_get_name (sensor_type : Z) : M string :=
  if sensor_type =? SensorType_BNO08X then ret "bno08x"
  else if sensor_type =? SensorType_DPS310 then ret "dps310"
  else
    log LogLevel_ERROR ["Sensor type " +:+ pretty sensor_type +:+ " is unknown."];;
    ret "unknown".

(** *** The sensors *)

Definition Bno08xData_get_data : M (list (string * Num)) :=
  let data_dict := [("accel_x", PyInt 0); ("accel_y", PyInt 0); ("accel_z", PyInt 0)] in
  acceleration <- driver_read (bno_acceleration env);;
  match acceleration with
  | Some (accel_x, accel_y, accel_z) =>
      ret (dict_set "accel_z" accel_z
             (dict_set "accel_y" accel_y
                (dict_set "accel_x" accel_x data_dict)))
  | None =>
      log LogLevel_ERROR ["Could not get acceleration data from bno08x."];;
      ret data_dict
  end.

Definition DPS310Data_get_data : M (list (string * Num)) :=
  pressure <- driver_read (dps_pressure env);;
  temp <- driver_read (dps_temperature env);;
  ret [("pressure", pressure); ("temp", temp)].

Definition Bno08xData : _SensorBase := mkSensor Bno08xData_get_data.
Definition DPS310Data : _SensorBase := mkSensor DPS310Data_get_data.

(** *** The line-protocol encoder *)

Definition to_influx_line (self : SensorData) : M (option string) :=
  measurement <- SensorType_get_name (sensor_type self);;
  _field_data <- get_data (data self);;
  ret (Some (influx_line measurement _field_data (timestamp self))).

(** Truth value of a [str | None]. *)
Definition truthy (r : option string) : bool :=
  match r with
  | Some s => negb (String.eqb s "")
  | None => false
  end.

(** [f"{r}"] of a [str | None]. *)
Definition str_opt (r : option string) : string :=
  match r with
  | Some s => s
  | None => "None"
  end.

(** *** Storage *)

(** The [log] statement inside [data2datafile]: its argument encodes the
    reading a second time. *)
Definition log_appending (sensor_data : SensorData) : M unit :=
  again <- to_influx_line sensor_data;;
  log LogLevel_DEBUG ["Appending '" +:+ str_opt again +:+ "' to " +:+ DATAPATH].

Definition data2datafile (sensor_data : SensorData) : M unit :=
  influx_line <- to_influx_line sensor_data;;
  if truthy influx_line then
    with_open_append DATAPATH
      (log_appending sensor_data;;
       file_write DATAPATH (str_opt influx_line +:+ CRLF))
  else ret tt.

Definition delete_files : list string := [LOGPATH; ERRPATH; DATAPATH].

(** The body of the deletion loop for one path. *)
Definition remove_one (path : string) : M unit :=
  try_catch
    (log LogLevel_DEBUG ["Removing file " +:+ path +:+ "."];;
     os_remove path)
    (fun e =>
       match exn_class e with
       | FileNotFoundError => log LogLevel_WARN ["File " +:+ path +:+ " does not exist."]
       | _ => raise e
       end).

(** The block under [if MICROSD_DEL_PIN.value:], the bulk deletion. *)
Definition delete_all : M unit :=
  log LogLevel_INFO ["MICROSD_DEL pressed. Deleting all files."];;
  for_each delete_files remove_one;;
  log LogLevel_INFO ["File deletion completed."].

Definition handle_sd : M unit :=
  cd <- pin_value (cd_pin env);;
  (if negb cd then log LogLevel_ERROR ["No MicroSD card inserted."] else ret tt);;
  del <- pin_value (del_pin env);;
  if del then delete_all else ret tt.

(** *** Sensor handlers and the loop *)

Definition _handle_sensor (sensor_type : Z) (data : _SensorBase) : M unit :=
  current_time <- time_monotonic_ms;;
  data2datafile (mkSensorData sensor_type data current_time).

Definition handle_bno08x : M unit := _handle_sensor SensorType_BNO08X Bno08xData.

Definition handle_dps310 : M unit := _handle_sensor SensorType_DPS310 DPS310Data.

Definition loop : M unit :=
  handle_sd;;
  handle_dps310;;
  handle_bno08x.

(** The body of the [try] in [main]'s [while True]. *)
Definition tick_body : M unit :=
  server_poll;;
  loop.

(** One iteration of [main]'s [while True]. *)
Definition tick : M unit :=
  try_catch tick_body
    (fun e => log LogLevel_ERROR ["Unexpected Error occured in main function: " +:+ exn_text e]).

(** The first [n] iterations of [while True].  An exception that leaves an
    iteration ends the run: that is the process terminating. *)
Fixpoint main_loop (n : nat) : M unit :=
  match n with
  | O => ret tt
  | S k => tick;; main_loop k
  end.

End Program.

(** ** Observations on traces *)

Fixpoint count (Q : Event -> bool) (tr : list Event) : nat :=
  match tr with
  | [] => 0%nat
  | ev :: rest => ((if Q ev then 1 else 0) + count Q rest)%nat
  end.

Definition is_poll (ev : Event) : bool :=
  match ev with EPoll => true | _ => false end.

Definition is_remove (ev : Event) : bool :=
  match ev with ERemove _ _ => true | _ => false end.

(** The paths [os.remove] was called on, in order. *)
Fixpoint removals (tr : list Event) : list string :=
  match tr with
  | [] => []
  | ERemove p _ :: rest => p :: removals rest
  | _ :: rest => removals rest
  end.


Definition is_open_of (path : string) (ev : Event) : bool :=
  match ev with EOpen p _ => String.eqb p path | _ => false end.

(** What was handed to [write] on [path], in order. *)
Fixpoint written (path : string) (tr : list Event) : list string :=
  match tr with
  | [] => []
  | EWrite p s _ :: rest =>
      if String.eqb p path then s :: written path rest else written path rest
  | _ :: rest => written path rest
  end.

Definition on_path (path : string) (ev : Event) : bool :=
  match ev with
  | EOpen p _ | EWrite p _ _ | EClose p | ERemove p _ => String.eqb p path
  | _ => false
  end.

Definition starts_with (p s : string) : bool :=
  String.eqb (String.substring 0 (String.length p) s) p.

(** A console line at level Error. *)
Definition is_error_line (ev : Event) : bool :=
  match ev with EPrint s => starts_with "[ERROR] - [" s | _ => false end.

Definition no_error_line (ev : Event) : bool := negb (is_error_line ev).

(** The rendering of a log record. *)
Definition log_line (name : string) (ts : Z) (text : string) : string :=
  "[" +:+ name +:+ "] - [" +:+ pretty ts +:+ "]: " +:+ text.

(** What the UART sink receives for a line. *)
Definition uart_echo (env : Env) (line : string) : list Event :=
  if uart_present env then [EUart (line +:+ CRLF)] else [].

(** The world after one interaction with the environment. *)
Definition bump (w : World) : World := mkWorld (fs w) (trace w) (S (now w)).


(** [m] returns normally from every world. *)
Definition returns {A} (m : M A) : Prop :=
  forall w, exists a w', m w = (Ok a, w').

(** [m] only adds events, and every event it adds satisfies [P]. *)
Definition emits {A} (P : Event -> bool) (m : M A) : Prop :=
  forall w, exists new, trace (snd (m w)) = trace w ++ new /\ forallb P new = true.

(** ** Further observations *)

(** The predicates the trace lemmas are used with hold of everything the
    logger can emit: console and UART lines, and operations on the two log
    files. *)
Definition log_safe (P : Event -> bool) : Prop :=
  (forall s, P (EPrint s) = true) /\
  (forall s, P (EUart s) = true) /\
  (forall p ok, p = LOGPATH \/ p = ERRPATH -> P (EOpen p ok) = true) /\
  (forall p s ok, p = LOGPATH \/ p = ERRPATH -> P (EWrite p s ok) = true) /\
  (forall p, p = LOGPATH \/ p = ERRPATH -> P (EClose p) = true).

(** The specification's names of the four levels (anything else is
    rendered as UNKNOWN). *)
Definition spec_level_name (level : Z) : string :=
  if level =? LogLevel_DEBUG then "DEBUG"
  else if level =? LogLevel_INFO then "INFO"
  else if level =? LogLevel_WARN then "WARN"
  else if level =? LogLevel_ERROR then "ERROR"
  else "UNKNOWN".

(** The specification's routing of a level to a file: none for Debug, the
    error log for Error, the run log otherwise. *)
Definition spec_log_file (level : Z) : option string :=
  if level =? LogLevel_DEBUG then None
  else if level =? LogLevel_ERROR then Some ERRPATH
  else Some LOGPATH.

Definition known_level (level : Z) : Prop :=
  level = LogLevel_DEBUG \/ level = LogLevel_INFO \/
  level = LogLevel_WARN \/ level = LogLevel_ERROR.

(** The specification's enum-to-string table of measurement names. *)
Definition spec_measurement_name (sensor_type : Z) : string :=
  if sensor_type =? SensorType_BNO08X then "bno08x"
  else if sensor_type =? SensorType_DPS310 then "dps310"
  else "unknown".

Definition data_safe (P : Event -> bool) : Prop :=
  (forall ok, P (EOpen DATAPATH ok) = true) /\
  (forall s ok, P (EWrite DATAPATH s ok) = true) /\
  P (EClose DATAPATH) = true.

Definition remove_safe (P : Event -> bool) : Prop :=
  forall p ok, P (ERemove p ok) = true.

(** Predicates on events for the trace lemmas. *)
Definition not_poll (ev : Event) : bool := negb (is_poll ev).

Definition not_remove (ev : Event) : bool := negb (is_remove ev).

Definition off_data (ev : Event) : bool := negb (on_path DATAPATH ev).


Definition bno_fallback : list (string * Num) :=
  [("accel_x", PyInt 0); ("accel_y", PyInt 0); ("accel_z", PyInt 0)].

(** The world right after a successful [open(DATAPATH, "a")]. *)
Definition opened (w : World) : World :=
  mkWorld (touch DATAPATH (fs w)) (trace w ++ [EOpen DATAPATH true]) (S (now w)).

(** The notice logged for a file that is not there. *)
Definition missing_notice (ts : Z) (path : string) : Event :=
  EPrint (log_line "WARN" ts ("File " +:+ path +:+ " does not exist.")).

(** The removals with their outcome, in order. *)
Fixpoint removal_log (tr : list Event) : list (string * bool) :=
  match tr with
  | [] => []
  | ERemove p ok :: rest => (p, ok) :: removal_log rest
  | _ :: rest => removal_log rest
  end.

(** The console lines at level Warn, in order. *)
Fixpoint warn_lines (tr : list Event) : list string :=
  match tr with
  | [] => []
  | EPrint s :: rest =>
      if starts_with "[WARN] - [" s then s :: warn_lines rest else warn_lines rest
  | _ :: rest => warn_lines rest
  end.

(** ** Scenarios *)

Definition io_error : Exn := mkExn OSError "[Errno 5] Input/output error".

(** What the board prints for the error of a missing path. *)
Definition errno2 (path : string) : string := "[Errno 2] No such file/directory".

(** A sensor object without fields. *)
Definition no_fields : _SensorBase := mkSensor (ret []).

(** A nominal environment: card inserted, delete button released, UART
    present, both sensors deliver, no fault anywhere. *)
Definition env_ok : Env :=
  mkEnv true (fun n => 120000 + Z.of_nat n) (fun _ => true) (fun _ => false)
    (fun _ => Ok (Some (PyFlt (mkFloat 12 1), PyFlt (mkFloat (-981) 2), PyFlt (mkFloat 0 0))))
    (fun _ => Ok (PyFlt (mkFloat 101325 2)))
    (fun _ => Ok (PyFlt (mkFloat 215 1)))
    (fun _ _ => None) (fun _ _ => None) (fun _ _ => None) (fun _ => None)
    errno2.

(** An empty card, nothing observed yet. *)
Definition world0 : World := mkWorld ∅ [] 0.

(** The pressure sensor does not answer on the bus; everything else works. *)
Definition env_dps_fault : Env :=
  mkEnv true (fun n => 120000 + Z.of_nat n) (fun _ => true) (fun _ => false)
    (fun _ => Ok (Some (PyFlt (mkFloat 12 1), PyFlt (mkFloat (-981) 2), PyFlt (mkFloat 0 0))))
    (fun _ => Raise io_error)
    (fun _ => Ok (PyFlt (mkFloat 215 1)))
    (fun _ _ => None) (fun _ _ => None) (fun _ _ => None) (fun _ => None)
    errno2.

(** The data file cannot be opened; everything else works. *)
Definition env_data_open_fault : Env :=
  mkEnv true (fun n => 120000 + Z.of_nat n) (fun _ => true) (fun _ => false)
    (fun _ => Ok (Some (PyFlt (mkFloat 12 1), PyFlt (mkFloat (-981) 2), PyFlt (mkFloat 0 0))))
    (fun _ => Ok (PyFlt (mkFloat 101325 2)))
    (fun _ => Ok (PyFlt (mkFloat 215 1)))
    (fun _ p => if String.eqb p DATAPATH then Some io_error else None)
    (fun _ _ => None) (fun _ _ => None) (fun _ => None)
    errno2.

(** The button is held down; everything else is nominal. *)
Definition env_del_held : Env :=
  mkEnv true (fun n => 120000 + Z.of_nat n) (fun _ => true) (fun _ => true)
    (fun _ => Ok (Some (PyFlt (mkFloat 12 1), PyFlt (mkFloat (-981) 2), PyFlt (mkFloat 0 0))))
    (fun _ => Ok (PyFlt (mkFloat 101325 2)))
    (fun _ => Ok (PyFlt (mkFloat 215 1)))
    (fun _ _ => None) (fun _ _ => None) (fun _ _ => None) (fun _ => None)
    errno2.



(** The HTTP library raises from [poll]; everything else works. *)
Definition env_poll_fault : Env :=
  mkEnv true (fun n => 120000 + Z.of_nat n) (fun _ => true) (fun _ => false)
    (fun _ => Ok (Some (PyFlt (mkFloat 12 1), PyFlt (mkFloat (-981) 2), PyFlt (mkFloat 0 0))))
    (fun _ => Ok (PyFlt (mkFloat 101325 2)))
    (fun _ => Ok (PyFlt (mkFloat 215 1)))
    (fun _ _ => None) (fun _ _ => None) (fun _ _ => None)
    (fun _ => Some (mkExn RuntimeError "socket closed"))
    errno2.

(** ** Invariants on the files *)

(** [m] leaves every file outside [S] as it is. *)
Definition keeps_outside {A} (S : list string) (m : M A) : Prop :=
  forall w q, ~ In q S -> fs (snd (m w)) !! q = fs w !! q.

(** [m] only extends the files that exist: none is removed, none loses what it
    held. *)
Definition grows {A} (m : M A) : Prop :=
  forall w p old,
    fs w !! p = Some old -> exists suf, fs (snd (m w)) !! p = Some (old +:+ suf).

(** The three well-known files. *)
Definition known_files : list string := [LOGPATH; ERRPATH; DATAPATH].

(** The file a record of a level other than Debug goes to, as [log] picks
    it. *)
Definition target_file (level : Z) : string :=
  if level =? LogLevel_ERROR then ERRPATH else LOGPATH.

(** What the console shows when the file write of a record failed with [e]:
    the three [except] clauses of [log]. *)
Definition failure_note (path : string) (e : Exn) : string :=
  match exn_class e with
  | FileNotFoundError => "Could not open file " +:+ path +:+ ": File not found."
  | OSError => "Could not write to " +:+ path +:+ ":  " +:+ exn_text e
  | _ => "Writing to " +:+ path +:+ " failed:  " +:+ exn_text e
  end.

(** The card is out and the file system says so by a missing mount point. *)
Definition env_no_mount : Env :=
  mkEnv false (fun n => 120000 + Z.of_nat n) (fun _ => false) (fun _ => false)
    (fun _ => Ok None) (fun _ => Ok (PyFlt (mkFloat 101325 2)))
    (fun _ => Ok (PyFlt (mkFloat 215 1)))
    (fun _ _ => Some (mkExn FileNotFoundError "[Errno 2] No such file/directory"))
    (fun _ _ => None) (fun _ _ => None) (fun _ => None)
    errno2.

(** The pressure reading moves between the two reads of one append. *)
Definition env_drifting : Env :=
  mkEnv false (fun n => 120000 + Z.of_nat n) (fun _ => true) (fun _ => false)
    (fun _ => Ok None)
    (fun n => if (n <? 3)%nat then Ok (PyFlt (mkFloat 101325 2))
              else Ok (PyFlt (mkFloat 101330 2)))
    (fun _ => Ok (PyFlt (mkFloat 215 1)))
    (fun _ _ => None) (fun _ _ => None) (fun _ _ => None) (fun _ => None)
    errno2.

(** The removal of the error log fails with an I/O error; everything else
    works. *)
Definition env_remove_fault : Env :=
  mkEnv false (fun n => 120000 + Z.of_nat n) (fun _ => true) (fun _ => true)
    (fun _ => Ok None) (fun _ => Ok (PyFlt (mkFloat 101325 2)))
    (fun _ => Ok (PyFlt (mkFloat 215 1)))
    (fun _ _ => None) (fun _ _ => None)
    (fun _ p => if String.eqb p ERRPATH then Some io_error else None)
    (fun _ => None)
    errno2.

(** [loop] run [n] times in a row, as [main] does between two polls when
    nothing raises. *)
Fixpoint loop_runs (env : Env) (n : nat) : M unit :=
  match n with
  | O => ret tt
  | S k => loop env;; loop_runs env k
  end.

(** The notice left in the run log for a file the deletion did not find. *)
Definition notice_if_missing (found : option string) (path : string) (ts : Z) : string :=
  match found with
  | Some _ => ""
  | None => log_line "WARN" ts ("File " +:+ path +:+ " does not exist.") +:+ CRLF
  end.

(** ** The web interface

    The handlers that the HTTP library runs for a request.  A handler works
    on the card and on the connection of its request, so its state is a
    [Session]: the world, and the [wire], what the handler did to the
    connection, oldest first.  Faults of the connection and of reads are
    drawn from a second oracle, [Net], indexed by the same counter as [Env].

    Taken from the runtime: [open(path, "rb")] raises [FileNotFoundError] for
    a missing file, with the text the runtime gives it, and never creates one; [file.read(n)] returns the next at
    most [n] bytes of what the file held when it was opened, or raises;
    [connection.send] delivers the payload or raises;
    [connection.close] does not raise. *)

Inductive NetEvent : Type :=
  | NSend (payload : string) (ok : bool)   (* request.connection.send(payload) *)
  | NClose.                                (* request.connection.close() *)

Record Net : Type := mkNet {
  send_fault : nat -> option Exn;
  read_fault : nat -> option Exn
}.

Record Session : Type := mkSession { wire : list NetEvent; card : World }.

Definition Handler (A : Type) : Type := Session -> Outcome A * Session.

Definition hret {A} (a : A) : Handler A := fun s => (Ok a, s).

Definition hraise {A} (e : Exn) : Handler A := fun s => (Raise e, s).

Definition hbind {A B} (m : Handler A) (k : A -> Handler B) : Handler B :=
  fun s =>
    match m s with
    | (Ok a, s') => k a s'
    | (Raise e, s') => (Raise e, s')
    end.

(** [try: m  except Exception as e: h e] *)
Definition htry {A} (m : Handler A) (h : Exn -> Handler A) : Handler A :=
  fun s =>
    match m s with
    | (Ok a, s') => (Ok a, s')
    | (Raise e, s') => h e s'
    end.

(** [try: m  finally: f], with a [f] that does not raise *)
Definition hfinally {A} (m : Handler A) (f : Session -> Session) : Handler A :=
  fun s => let '(r, s') := m s in (r, f s').

(** A computation on the card, run within a session. *)
Definition on_card {A} (m : M A) : Handler A :=
  fun s => let '(r, w) := m (card s) in (r, mkSession (wire s) w).

Definition on_wire (ev : NetEvent) : Handler unit :=
  fun s => (Ok tt, mkSession (wire s ++ [ev]) (card s)).

Declare Scope web_scope.
Delimit Scope web_scope with web.
Notation "x <- m ;; k" := (hbind m (fun x => k))
  (at level 100, m at next level, right associativity) : web_scope.
Notation "m ;; k" := (hbind m (fun _ => k))
  (at level 100, right associativity) : web_scope.

(** The first [n] characters of a string, and the rest. *)
Fixpoint str_take (n : nat) (s : string) : string :=
  match n, s with
  | S k, String c r => String c (str_take k r)
  | _, _ => EmptyString
  end.

Fixpoint str_drop (n : nat) (s : string) : string :=
  match n, s with
  | S k, String c r => str_drop k r
  | _, _ => s
  end.

Definition DQUOTE : string := String "034"%char EmptyString.

Section Web.

Variable env : Env.
Variable net : Net.

Local Open Scope web_scope.

(** [request.connection.send(payload)] *)
Definition connection_send (payload : string) : Handler unit :=
  n <- on_card step;;
  match send_fault net n with
  | Some e => on_wire (NSend payload false);; hraise e
  | None => on_wire (NSend payload true)
  end.

(** [request.connection.close()] *)
Definition connection_close (s : Session) : Session :=
  mkSession (wire s ++ [NClose]) (card s).

(** [open(path, "rb")]: what is left to read of the file. *)
Definition open_read (path : string) : Handler string :=
  n <- on_card step;;
  match open_fault env n path with
  | Some e => on_card (emit (EOpen path false));; hraise e
  | None =>
      files <- on_card get_fs;;
      match files !! path with
      | None =>
          on_card (emit (EOpen path false));;
          hraise (mkExn FileNotFoundError (enoent_text env path))
      | Some content => on_card (emit (EOpen path true));; hret content
      end
  end.

Definition file_close_session (path : string) (s : Session) : Session :=
  mkSession (wire s) (file_close path (card s)).

(** [file.read(size)]: the chunk and what is left after it. *)
Definition file_read (size : nat) (rest : string) : Handler (string * string) :=
  n <- on_card step;;
  match read_fault net n with
  | Some e => hraise e
  | None => hret (str_take size rest, str_drop size rest)
  end.

(** The [while True] of [handle_file_stream].  A chunk that is not empty
    shortens what is left, so [fuel] beyond the length of the file is never
    used up. *)
Fixpoint stream_loop (fuel : nat) (rest : string) : Handler unit :=
  match fuel with
  | O => hret tt
  | S k =>
      r <- file_read 512 rest;;
      let '(chunk, rest') := r in
      match chunk with
      | EmptyString => hret tt
      | _ => connection_send chunk;; stream_loop k rest'
      end
  end.

Definition stream_header (file_name : string) : string :=
  "HTTP/1.1 200 OK" +:+ CRLF
  +:+ "Content-Type: application/octet-stream" +:+ CRLF
  +:+ "Content-Disposition: attachment; filename=" +:+ DQUOTE +:+ file_name +:+ DQUOTE +:+ CRLF
  +:+ "Connection: close" +:+ CRLF +:+ CRLF.

Definition error_response (text : string) : string :=
  "HTTP/1.1 500 Internal Server Error" +:+ CRLF
  +:+ "Content-Type: text/plain" +:+ CRLF
  +:+ "Connection: close" +:+ CRLF +:+ CRLF
  +:+ text.

Definition ok_response (text : string) : string :=
  "HTTP/1.1 200 OK" +:+ CRLF
  +:+ "Content-Type: text/plain" +:+ CRLF
  +:+ "Connection: close" +:+ CRLF +:+ CRLF
  +:+ text.

Definition handle_file_stream (file_name : string) : Handler unit :=
  let file_path := _SD_ROOT +:+ "/" +:+ file_name in
  hfinally
    (htry
       (file <- open_read file_path;;
        hfinally
          (connection_send (stream_header file_name);;
           stream_loop (S (String.length file)) file)
          (file_close_session file_path))
       (fun e => connection_send (error_response ("Error: " +:+ exn_text e))))
    connection_close.

(** The route [/sd/<filename>]. *)
Definition download_file (filename : string) : Handler unit :=
  on_card (log env LogLevel_DEBUG ["Requesting " +:+ filename +:+ " for download"]);;
  handle_file_stream filename.

(** The route [/delete/<filename>]. *)
Definition handle_file_delete (filename : string) : Handler unit :=
  let file_path := _SD_ROOT +:+ "/" +:+ filename in
  hfinally
    (htry
       (on_card (os_remove env file_path);;
        on_card (log env LogLevel_INFO ["File " +:+ file_path +:+ " deleted."]);;
        connection_send (ok_response ("File '" +:+ filename +:+ "' deleted successfully.")))
       (fun e =>
          connection_send
            (error_response ("Error deleting file '" +:+ filename +:+ "': " +:+ exn_text e))))
    connection_close.

End Web.

(** *** Observations on the wire *)

Definition is_close (ev : NetEvent) : bool :=
  match ev with NClose => true | _ => false end.

(** A connection that delivers everything, and reads that succeed. *)
Definition net_ok : Net := mkNet (fun _ => None) (fun _ => None).

(** The first [send] of a session fails, later ones are delivered. *)
Definition net_first_send_fails (first : nat) : Net :=
  mkNet (fun n => if (n <=? first)%nat then Some io_error else None) (fun _ => None).

Definition session0 (files : gmap string string) : Session :=
  mkSession [] (mkWorld files [] 0).

(** A fresh session on a card whose run log holds earlier records. *)
Definition session_old_log : Session := session0 {[ LOGPATH := "old records" ]}.

(** A fresh session on a card that holds one record in the data file. *)
Definition session_data : Session :=
  session0 {[ DATAPATH := "dps310 pressure=1013.25,temp=21.5 4711" +:+ CRLF ]}.

(** The two responses of the deletion route. *)
Definition delete_ok_response (filename : string) : string :=
  ok_response ("File '" +:+ filename +:+ "' deleted successfully.").

Definition delete_error_response (filename : string) (e : Exn) : string :=
  error_response ("Error deleting file '" +:+ filename +:+ "': " +:+ exn_text e).

(** A handler whose last [send] was delivered or not: it returns normally in
    the first case and raises in the second. *)
Definition ends_as (r : Outcome unit) (delivered : bool) : Prop :=
  match r with
  | Ok _ => delivered = true
  | Raise _ => delivered = false
  end.

(** The read at interaction [i] fails, everything else works. *)
Definition net_read_fails_at (i : nat) : Net :=
  mkNet (fun _ => None) (fun n => if (n =? i)%nat then Some io_error else None).

(** What a handler may hand to [send] before it closes: no close. *)
Definition no_close (ev : NetEvent) : bool := negb (is_close ev).

Definition delivered (chunk : string) : NetEvent := NSend chunk true.

(** A chunk of a streamed file: not empty, at most 512 bytes. *)
Definition is_chunk (c : string) : Prop := c <> "" /\ (String.length c <= 512)%nat.

(** ** The directory listing

    [_print_directory] walks the card with [os.listdir] and [os.stat].  What
    these return for a path is taken from two oracles; so is the text that
    Python prints for [round(a / b, 2)], which depends on the float format of
    the board.  The recursion follows the directories of the card; [depth]
    bounds how far down it may go. *)

Fixpoint spaces (n : nat) : string :=
  match n with
  | O => EmptyString
  | S k => String " "%char (spaces k)
  end.

(** [{0:<width}] and [{0:>width}] of [str.format]: padding, no truncation. *)
Definition ljust (width : nat) (s : string) : string :=
  s +:+ spaces (width - String.length s).

Definition rjust (width : nat) (s : string) : string :=
  spaces (width - String.length s) +:+ s.

Section Listing.

Variable env : Env.
Variable listdir : string -> Outcome (list string).   (* os.listdir(path) *)
Variable stat : string -> Outcome (Z * Z).            (* os.stat(path): st_mode, st_size *)
Variable str_round2 : Z -> Z -> string.               (* f"{round(a / b, 2)}" *)

Definition os_listdir (path : string) : M (list string) := fun w => (listdir path, w).

Definition os_stat (path : string) : M (Z * Z) := fun w => (stat path, w).

Definition size_str (filesize : Z) : string :=
  if filesize <? 1000 then pretty filesize +:+ " by"
  else if filesize <? 1000000 then str_round2 filesize 1000 +:+ " KB"
  else str_round2 filesize 1000000 +:+ " MB".

(** [for _ in range(tabs): prettyprintname += "   "] *)
Fixpoint indent (tabs : nat) : string :=
  match tabs with
  | O => EmptyString
  | S k => indent k +:+ "   "
  end.

Definition entry_line (tabs : nat) (file : string) (isdir : bool) (filesize : Z) : string :=
  let prettyprintname := (indent tabs +:+ file) +:+ (if isdir then "/" else "") in
  ljust 40 prettyprintname +:+ " Size: " +:+ rjust 10 (size_str filesize).

Fixpoint _print_directory (depth : nat) (path : string) (tabs : nat) (use_logger : bool)
    : M unit :=
  files <- os_listdir path;;
  for_each files
    (fun file =>
       if String.eqb file "?" then ret tt
       else
         stats <- os_stat (path +:+ "/" +:+ file);;
         let filesize := snd stats in
         let isdir := negb (Z.land (fst stats) 16384 =? 0) in
         let file_str := entry_line tabs file isdir filesize in
         (if use_logger then log env LogLevel_INFO [file_str] else print file_str);;
         if isdir then
           match depth with
           | O => ret tt
           | S d => _print_directory d (path +:+ "/" +:+ file) (S tabs) false
           end
         else ret tt).

(** The directories below [path] go at most [depth] levels down. *)
Fixpoint within_depth (depth : nat) (path : string) : Prop :=
  match listdir path with
  | Raise _ => True
  | Ok files =>
      forall file, In file files -> file <> "?" ->
        match stat (path +:+ "/" +:+ file) with
        | Raise _ => True
        | Ok stats =>
            Z.land (fst stats) 16384 <> 0 ->
            match depth with
            | O => False
            | S d => within_depth d (path +:+ "/" +:+ file)
            end
        end
  end.

End Listing.

Definition is_print (ev : Event) : bool :=
  match ev with EPrint _ => true | _ => false end.

(** The names of a listing that get a line. *)
Definition listed (files : list string) : list string :=
  filter (fun file => file <> "?") files.

(** [rec] is the record the logger writes for the entry [file] of [path]: its
    line at the indentation [tabs], built from what [os.stat] says of it. *)
Definition entry_record (stat : string -> Outcome (Z * Z)) (str_round2 : Z -> Z -> string)
    (path : string) (tabs : nat) (rec file : string) : Prop :=
  exists ts stats,
    stat (path +:+ "/" +:+ file) = Ok stats /\
    rec = log_line "INFO" ts
            (entry_line str_round2 tabs file (negb (Z.land (fst stats) 16384 =? 0)) (snd stats))
          +:+ CRLF.

(** A card with a file and a directory of two files at the top. *)
Definition listdir_demo (path : string) : Outcome (list string) :=
  if String.eqb path "/sd" then Ok ["?"; "data.txt"; "logs"]
  else if String.eqb path "/sd/logs" then Ok ["run.log"; "error.log"]
  else Raise (mkExn OSError "[Errno 20] Not a directory").

Definition stat_demo (path : string) : Outcome (Z * Z) :=
  if String.eqb path "/sd/logs" then Ok (16384, 0) else Ok (32768, 120).

Definition str_round2_demo (a b : Z) : string := pretty (a / b) +:+ ".0".

(** * Proofs *)

Section MonadLaws.

Context {A B : Type}.

Lemma returns_ret (a : A) : returns (ret a).
Proof. intros w. by exists a, w. Qed.

Lemma returns_bind (m : M A) (k : A -> M B) :
  returns m -> (forall a, returns (k a)) -> returns (bind m k).
Proof.
  intros Hm Hk w. unfold bind.
  destruct (Hm w) as (a & w1 & ->). apply Hk.
Qed.

Lemma returns_try_catch (m : M A) (h : Exn -> M A) :
  (forall e, returns (h e)) -> returns (try_catch m h).
Proof.
  intros Hh w. unfold try_catch.
  destruct (m w) as [[a|e] w1]; [by exists a, w1 | apply Hh].
Qed.

Lemma emits_ret P (a : A) : emits P (ret a).
Proof. intros w. exists []. by rewrite app_nil_r. Qed.

Lemma emits_raise P (e : Exn) : emits P (@raise A e).
Proof. intros w. exists []. by rewrite app_nil_r. Qed.

Lemma emits_bind P (m : M A) (k : A -> M B) :
  emits P m -> (forall a, emits P (k a)) -> emits P (bind m k).
Proof.
  intros Hm Hk w. unfold bind.
  destruct (Hm w) as (n1 & E1 & F1).
  destruct (m w) as [[a|e] w1]; simpl in *.
  - destruct (Hk a w1) as (n2 & E2 & F2).
    exists (n1 ++ n2). rewrite E2, E1, app_assoc, forallb_app, F1, F2. done.
  - by exists n1.
Qed.

Lemma emits_try_catch P (m : M A) (h : Exn -> M A) :
  emits P m -> (forall e, emits P (h e)) -> emits P (try_catch m h).
Proof.
  intros Hm Hh w. unfold try_catch.
  destruct (Hm w) as (n1 & E1 & F1).
  destruct (m w) as [[a|e] w1]; simpl in *.
  - by exists n1.
  - destruct (Hh e w1) as (n2 & E2 & F2).
    exists (n1 ++ n2). rewrite E2, E1, app_assoc, forallb_app, F1, F2. done.
Qed.

Lemma emits_finally_close P (m : M A) (path : string) :
  emits P m -> P (EClose path) = true -> emits P (finally m (file_close path)).
Proof.
  intros Hm Hc w. unfold finally.
  destruct (Hm w) as (n1 & E1 & F1).
  destruct (m w) as [r w1]; simpl in *.
  exists (n1 ++ [EClose path]).
  rewrite E1, app_assoc, forallb_app, F1. simpl. by rewrite Hc.
Qed.

End MonadLaws.

Lemma emits_emit P ev : P ev = true -> emits P (emit ev).
Proof. intros H w. exists [ev]. simpl. by rewrite H. Qed.

Lemma emits_step P : emits P step.
Proof. intros w. exists []. by rewrite app_nil_r. Qed.

Lemma emits_get_fs P : emits P get_fs.
Proof. intros w. exists []. by rewrite app_nil_r. Qed.

Lemma emits_put_fs P m : emits P (put_fs m).
Proof. intros w. exists []. by rewrite app_nil_r. Qed.

Lemma emits_pure P {A} (f : Outcome A) : emits P (fun w => (f, w)).
Proof. intros w. exists []. by rewrite app_nil_r. Qed.

Lemma emits_for_each P {A} (l : list A) (body : A -> M unit) :
  (forall x, emits P (body x)) -> emits P (for_each l body).
Proof.
  intros H. induction l as [|x l IH]; simpl.
  - apply emits_ret.
  - apply emits_bind; auto.
Qed.

Lemma count_app Q l1 l2 : count Q (l1 ++ l2) = (count Q l1 + count Q l2)%nat.
Proof. induction l1 as [|x l1 IH]; simpl; [done | rewrite IH; lia]. Qed.

Lemma count_none Q l : forallb (fun ev => negb (Q ev)) l = true -> count Q l = 0%nat.
Proof.
  induction l as [|x l IH]; simpl; [done|].
  intros [Hx Hl]%andb_prop. destruct (Q x); [done | auto].
Qed.

Ltac emits_step :=
  first
    [ apply emits_ret | apply emits_raise | apply emits_step | apply emits_get_fs
    | apply emits_put_fs | apply emits_pure
    | apply emits_bind; [| intros ?]
    | apply emits_try_catch; [| intros ?]
    | apply emits_finally_close
    | apply emits_for_each; intros ?
    | apply emits_emit
    | case_match ].

Section LogFacts.

Variable env : Env.

Lemma emits_log_with P get_name level message :
  log_safe P -> (forall l, emits P (get_name l)) -> emits P (log_with env get_name level message).
Proof.
  intros (Hp & Hu & Ho & Hw & Hc) Hg.
  unfold log_with, print, UART_write, time_monotonic_ms, with_open_append, open_append, file_write.
  repeat emits_step; auto.
  all: try (first [apply Ho | apply Hw | apply Hc]; case_match; auto).
Qed.

End LogFacts.

Lemma returns_emit ev : returns (emit ev).
Proof. intros w. by eexists _, _. Qed.

Lemma returns_step : returns step.
Proof. intros w. by eexists _, _. Qed.

Ltac returns_tac :=
  repeat first
    [ apply returns_ret | apply returns_emit | apply returns_step
    | apply returns_bind; [| intros ?]
    | apply returns_try_catch; intros ?
    | case_match ].

Section LoggerTotal.

Variable env : Env.

Lemma returns_log_with get_name level message :
  (forall l, returns (get_name l)) -> returns (log_with env get_name level message).
Proof.
  intros Hg. unfold log_with, print, UART_write, time_monotonic_ms.
  returns_tac; auto.
Qed.

Lemma returns_LogLevel_get_name_with lg level :
  (forall l m, returns (lg l m)) -> returns (LogLevel_get_name_with lg level).
Proof. intros H. unfold LogLevel_get_name_with. returns_tac; auto. Qed.

Lemma returns_LogLevel_get_name level : returns (LogLevel_get_name env level).
Proof.
  apply returns_LogLevel_get_name_with. intros l m.
  apply returns_log_with. intros l'.
  apply returns_LogLevel_get_name_with. intros ? ?. apply returns_ret.
Qed.

(** The logger never raises, whatever the files do. *)
Lemma returns_log level message : returns (log env level message).
Proof. apply returns_log_with, returns_LogLevel_get_name. Qed.

(** The two mutually recursive functions satisfy the equations of the
    script: [get_name] calls the very [log] of the script. *)
Lemma LogLevel_get_name_unfold level :
  LogLevel_get_name env level = LogLevel_get_name_with (log env) level.
Proof.
  unfold LogLevel_get_name, LogLevel_get_name_with.
  repeat case_match; reflexivity.
Qed.

Lemma emits_LogLevel_get_name P level : log_safe P -> emits P (LogLevel_get_name env level).
Proof.
  intros HP. unfold LogLevel_get_name, LogLevel_get_name_with, log_known.
  repeat case_match; try apply emits_ret.
  apply emits_bind; [| intros; apply emits_ret].
  apply emits_log_with; [done|]. intros l.
  unfold LogLevel_get_name_with. repeat emits_step.
Qed.

Lemma emits_log P level message : log_safe P -> emits P (log env level message).
Proof. intros HP. apply emits_log_with; [done|]. intros; by apply emits_LogLevel_get_name. Qed.

End LoggerTotal.

(** ** The logger, line by line *)

(** Symbolic execution of the monad: unfold the program and the plumbing,
    leave strings, maps and the oracle alone. *)
Ltac run :=
  cbv [bind ret raise try_catch finally emit step get_fs put_fs
       print UART_write time_monotonic_ms pin_value driver_read
       open_append file_write file_close with_open_append os_remove server_poll
       log log_with log_known LogLevel_get_name LogLevel_get_name_with
       SensorType_get_name
       LogLevel_DEBUG LogLevel_INFO LogLevel_WARN LogLevel_ERROR
       SensorType_BNO08X SensorType_DPS310
       Z.eqb Pos.eqb negb];
  cbn [fs trace now fst snd].

(** The same for the plumbing alone: calls stay folded. *)
Ltac plumb :=
  cbv [bind ret raise try_catch finally emit step get_fs put_fs];
  cbn [fs trace now fst snd exn_class exn_text].

(** Traces as one list: reassociate and merge the pieces. *)
Ltac flat := repeat first [rewrite <- app_assoc | progress cbn [app]].

Lemma append_touch (files : gmap string string) (path s : string) :
  <[path := default "" (touch path files !! path) +:+ s]> (touch path files)
  = <[path := default "" (files !! path) +:+ s]> files.
Proof. unfold touch. by rewrite lookup_insert_eq, insert_insert_eq. Qed.

(** C6. A log call with a non-empty message at one of the four levels, when
    the card takes the write: the line is [[LEVEL] - [timestamp_ms]: text]
    with the text the concatenation of the message parts; it goes to the
    console and the UART; at Debug nothing else happens and the files are
    untouched; at Info and Warn the line and CRLF are appended to the run log,
    at Error to the error log, by one open, one write and one close. *)
Theorem log_formats_and_routes env level message w :
  message <> [] ->
  known_level level ->
  (forall p, open_fault env (S (now w)) p = None) ->
  (forall p, write_fault env (S (S (now w))) p = None) ->
  log env level message w =
    (Ok tt,
     let line := log_line (spec_level_name level) (monotonic_ms env (now w))
                   (String.concat "" message) in
     match spec_log_file level with
     | None => mkWorld (fs w) (trace w ++ EPrint line :: uart_echo env line) (S (now w))
     | Some path =>
         mkWorld (<[path := default "" (fs w !! path) +:+ line +:+ CRLF]> (fs w))
           (trace w ++ EPrint line :: uart_echo env line
              ++ [EOpen path true; EWrite path (line +:+ CRLF) true; EClose path])
           (S (S (S (now w))))
     end).
Proof.
  intros Hm Hl Ho Hw. cbv zeta.
  destruct message as [|m ms]; [done|].
  unfold uart_echo, log_line.
  destruct Hl as [-> | [-> | [-> | ->]]];
    cbv [spec_level_name spec_log_file Z.eqb Pos.eqb LogLevel_DEBUG LogLevel_INFO LogLevel_WARN LogLevel_ERROR];
    run; destruct (uart_present env); run;
    rewrite ?Ho; run; rewrite ?Hw; run; flat; try reflexivity.
  all: rewrite append_touch; reflexivity.
Qed.

Lemma log_formats_and_routes_witness :
  ["Access point "; "created."] <> [] /\
  known_level LogLevel_INFO /\
  (forall p, open_fault env_ok (S (now world0)) p = None) /\
  (forall p, write_fault env_ok (S (S (now world0))) p = None) /\
  log env_ok LogLevel_INFO ["Access point "; "created."] world0 =
    (Ok tt,
     mkWorld {[ "/sd/run.log" := "[INFO] - [120000]: Access point created." +:+ CRLF ]}
       [EPrint "[INFO] - [120000]: Access point created.";
        EUart ("[INFO] - [120000]: Access point created." +:+ CRLF);
        EOpen "/sd/run.log" true;
        EWrite "/sd/run.log" ("[INFO] - [120000]: Access point created." +:+ CRLF) true;
        EClose "/sd/run.log"]
       3).
Proof.
  assert (H1 : ["Access point "; "created."] <> @nil string) by discriminate.
  assert (H2 : known_level LogLevel_INFO) by (right; left; reflexivity).
  assert (H3 : forall p, open_fault env_ok (S (now world0)) p = None) by reflexivity.
  assert (H4 : forall p, write_fault env_ok (S (S (now world0))) p = None) by reflexivity.
  split; [exact H1|]. split; [exact H2|]. split; [exact H3|]. split; [exact H4|].
  rewrite (log_formats_and_routes env_ok LogLevel_INFO _ world0 H1 H2 H3 H4).
  vm_compute. reflexivity.
Defined.

Lemma SensorType_get_name_value env sensor_type w :
  fst (SensorType_get_name env sensor_type w) = Ok (spec_measurement_name sensor_type).
Proof.
  unfold SensorType_get_name, spec_measurement_name.
  repeat case_match; try reflexivity.
  unfold bind.
  destruct (returns_log env LogLevel_ERROR
              ["Sensor type " +:+ pretty sensor_type +:+ " is unknown."] w) as ([] & w1 & ->).
  reflexivity.
Qed.

(** C5. A DPS310 reading whose fields are pressure 1013.25 and temp 21.5,
    taken at 120000 ms, is encoded as exactly
    [dps310 pressure=1013.25,temp=21.5 120000]: the measurement name of the
    table, the fields joined by commas without spaces, the timestamp last and
    no newline after it. *)
Theorem dps310_example_line env (sensor : _SensorBase) w w' :
  get_data sensor w =
    (Ok [("pressure", PyFlt (mkFloat 101325 2)); ("temp", PyFlt (mkFloat 215 1))], w') ->
  to_influx_line env (mkSensorData SensorType_DPS310 sensor 120000) w =
    (Ok (Some "dps310 pressure=1013.25,temp=21.5 120000"), w').
Proof.
  intros H. unfold to_influx_line, bind. cbn [sensor_type data timestamp].
  change (SensorType_get_name env SensorType_DPS310 w) with (Ok "dps310", w).
  cbv beta iota. rewrite H. vm_compute. reflexivity.
Qed.

Lemma dps310_example_line_witness :
  get_data (DPS310Data env_ok) world0 =
    (Ok [("pressure", PyFlt (mkFloat 101325 2)); ("temp", PyFlt (mkFloat 215 1))],
     mkWorld ∅ [] 2) /\
  to_influx_line env_ok (mkSensorData SensorType_DPS310 (DPS310Data env_ok) 120000) world0 =
    (Ok (Some "dps310 pressure=1013.25,temp=21.5 120000"), mkWorld ∅ [] 2).
Proof.
  assert (H : get_data (DPS310Data env_ok) world0 =
    (Ok [("pressure", PyFlt (mkFloat 101325 2)); ("temp", PyFlt (mkFloat 215 1))],
     mkWorld ∅ [] 2)) by reflexivity.
  split; [exact H | exact (dps310_example_line env_ok _ _ _ H)].
Defined.

(** C7. When the sensor object yields an empty mapping, the encoder still
    returns a line: the measurement name, two spaces with nothing between
    them, the timestamp. *)
Theorem empty_fields_line env (sd : SensorData) w w' :
  get_data (data sd) (snd (SensorType_get_name env (sensor_type sd) w)) = (Ok [], w') ->
  to_influx_line env sd w =
    (Ok (Some (spec_measurement_name (sensor_type sd) +:+ "  " +:+ pretty (timestamp sd))), w').
Proof.
  intros H. unfold to_influx_line, bind.
  pose proof (SensorType_get_name_value env (sensor_type sd) w) as Hn.
  destruct (SensorType_get_name env (sensor_type sd) w) as [r w1].
  simpl in Hn, H. subst r. rewrite H. reflexivity.
Qed.

Lemma empty_fields_line_witness :
  get_data (data (mkSensorData SensorType_BNO08X no_fields 42))
    (snd (SensorType_get_name env_ok (sensor_type (mkSensorData SensorType_BNO08X no_fields 42)) world0))
    = (Ok [], world0) /\
  to_influx_line env_ok (mkSensorData SensorType_BNO08X no_fields 42) world0 =
    (Ok (Some "bno08x  42"), world0).
Proof.
  assert (H : get_data (data (mkSensorData SensorType_BNO08X no_fields 42))
    (snd (SensorType_get_name env_ok (sensor_type (mkSensorData SensorType_BNO08X no_fields 42)) world0))
    = (Ok [], world0)) by reflexivity.
  split; [exact H|].
  rewrite (empty_fields_line env_ok _ world0 world0 H). vm_compute. reflexivity.
Defined.

Section LoggerFaults.

Variable env : Env.

(** Whatever the card does, a record that is routed to a file is printed
    first, then the file is opened; what follows (the write and the close, or
    a console note about the failure) holds no further Error line. *)
Lemma log_events level message w path :
  message <> [] ->
  known_level level ->
  spec_log_file level = Some path ->
  let line := log_line (spec_level_name level) (monotonic_ms env (now w))
                (String.concat "" message) in
  exists ok rest w',
    log env level message w = (Ok tt, w') /\
    trace w' = trace w ++ EPrint line :: uart_echo env line ++ EOpen path ok :: rest /\
    forallb no_error_line rest = true /\
    removals rest = [] /\
    (forall q, q <> path -> fs w' !! q = fs w !! q).
Proof.
  intros Hm Hl Hf line. subst line.
  destruct message as [|m ms]; [done|].
  unfold uart_echo, log_line.
  destruct Hl as [-> | [-> | [-> | ->]]]; [done| | |];
    injection Hf as <-;
    cbv [spec_level_name Z.eqb Pos.eqb LogLevel_DEBUG LogLevel_INFO LogLevel_WARN LogLevel_ERROR];
    run; destruct (uart_present env); run.
  all: destruct (open_fault env (S (now w)) _) as [e|]; run;
    [ destruct (exn_class e); run
    | destruct (write_fault env (S (S (now w))) _) as [e|]; run;
      [ destruct (exn_class e); run |] ].
  all: do 3 eexists; split; [reflexivity|]; split; [flat; reflexivity|];
    split; [reflexivity|]; split; [reflexivity|].
  all: intros q Hq; cbn [fs]; unfold touch; by rewrite ?lookup_insert_ne.
Qed.

End LoggerFaults.

(** ** What each function can emit *)

Section Emits.

Variable env : Env.
Variable P : Event -> bool.
Hypothesis HL : log_safe P.

Lemma emits_SensorType_get_name sensor_type : emits P (SensorType_get_name env sensor_type).
Proof.
  unfold SensorType_get_name. repeat case_match; try apply emits_ret.
  apply emits_bind; [by apply emits_log | intros; apply emits_ret].
Qed.

Lemma emits_Bno08xData_get_data : emits P (Bno08xData_get_data env).
Proof.
  unfold Bno08xData_get_data, driver_read.
  apply emits_bind; [repeat emits_step | intros [[[x y] z]|]].
  - apply emits_ret.
  - apply emits_bind; [by apply emits_log | intros; apply emits_ret].
Qed.

Lemma emits_DPS310Data_get_data : emits P (DPS310Data_get_data env).
Proof. unfold DPS310Data_get_data, driver_read. repeat emits_step. Qed.

Lemma emits_to_influx_line sd :
  emits P (get_data (data sd)) -> emits P (to_influx_line env sd).
Proof.
  intros Hd. unfold to_influx_line.
  apply emits_bind; [apply emits_SensorType_get_name | intros name].
  apply emits_bind; [done | intros; apply emits_ret].
Qed.

Lemma emits_log_appending sd :
  emits P (get_data (data sd)) -> emits P (log_appending env sd).
Proof.
  intros Hd. unfold log_appending.
  apply emits_bind; [by apply emits_to_influx_line | intros again].
  by apply emits_log.
Qed.

Lemma emits_data2datafile sd :
  data_safe P -> emits P (get_data (data sd)) -> emits P (data2datafile env sd).
Proof.
  intros (Ho & Hw & Hc) Hd. unfold data2datafile.
  apply emits_bind; [by apply emits_to_influx_line | intros line].
  case_match; [| apply emits_ret].
  unfold with_open_append, open_append, file_write.
  apply emits_bind.
  { repeat emits_step; auto. }
  intros _. apply emits_finally_close; [| done].
  apply emits_bind; [by apply emits_log_appending | intros _].
  repeat emits_step; auto.
Qed.

Lemma emits__handle_sensor sensor_type sensor :
  data_safe P -> emits P (get_data sensor) -> emits P (_handle_sensor env sensor_type sensor).
Proof.
  intros HD Hs. unfold _handle_sensor, time_monotonic_ms.
  apply emits_bind; [repeat emits_step | intros ts].
  by apply emits_data2datafile.
Qed.

Lemma emits_handle_dps310 : data_safe P -> emits P (handle_dps310 env).
Proof. intros. apply emits__handle_sensor; [done | apply emits_DPS310Data_get_data]. Qed.

Lemma emits_handle_bno08x : data_safe P -> emits P (handle_bno08x env).
Proof. intros. apply emits__handle_sensor; [done | apply emits_Bno08xData_get_data]. Qed.

Lemma emits_remove_one path : remove_safe P -> emits P (remove_one env path).
Proof.
  intros HR. unfold remove_one, os_remove.
  apply emits_try_catch.
  - apply emits_bind; [by apply emits_log | intros _].
    repeat emits_step; auto.
  - intros e. case_match; try apply emits_raise. by apply emits_log.
Qed.

Lemma emits_delete_all : remove_safe P -> emits P (delete_all env).
Proof.
  intros HR. unfold delete_all.
  apply emits_bind; [by apply emits_log | intros _].
  apply emits_bind; [| intros _; by apply emits_log].
  apply emits_for_each. intros p. by apply emits_remove_one.
Qed.

Lemma emits_handle_sd : remove_safe P -> emits P (handle_sd env).
Proof.
  intros HR. unfold handle_sd, pin_value.
  apply emits_bind; [repeat emits_step | intros cd].
  apply emits_bind; [case_match; [by apply emits_log | apply emits_ret] | intros _].
  apply emits_bind; [repeat emits_step | intros del].
  case_match; [by apply emits_delete_all | apply emits_ret].
Qed.

Lemma emits_loop : data_safe P -> remove_safe P -> emits P (loop env).
Proof.
  intros HD HR. unfold loop.
  apply emits_bind; [by apply emits_handle_sd | intros _].
  apply emits_bind; [by apply emits_handle_dps310 | intros _].
  by apply emits_handle_bno08x.
Qed.

End Emits.

Lemma log_safe_not_poll : log_safe not_poll.
Proof. by repeat split. Qed.

Lemma log_safe_not_remove : log_safe not_remove.
Proof. by repeat split. Qed.

Lemma log_safe_off_data : log_safe off_data.
Proof. repeat split; try done; intros; destruct H as [-> | ->]; reflexivity. Qed.

Lemma data_safe_not_poll : data_safe not_poll.
Proof. by repeat split. Qed.

Lemma data_safe_not_remove : data_safe not_remove.
Proof. by repeat split. Qed.

Lemma remove_safe_not_poll : remove_safe not_poll.
Proof. by intros ? ?. Qed.

Section FaultIsolation.

Variable env : Env.

Lemma returns_tick : returns (tick env).
Proof. unfold tick. apply returns_try_catch. intros e. apply returns_log. Qed.

Lemma returns_main_loop n : returns (main_loop env n).
Proof.
  induction n as [|n IH]; simpl.
  - apply returns_ret.
  - apply returns_bind; [apply returns_tick | intros; apply IH].
Qed.

(** Every iteration polls the server exactly once. *)
Lemma tick_polls_once w :
  count is_poll (trace (snd (tick env w))) = S (count is_poll (trace w)).
Proof.
  assert (emits not_poll (loop env)) as HL
    by (apply emits_loop; auto using log_safe_not_poll, data_safe_not_poll, remove_safe_not_poll).
  assert (forall e, emits not_poll
            (log env LogLevel_ERROR ["Unexpected Error occured in main function: " +:+ exn_text e]))
    as HH by (intros; apply emits_log, log_safe_not_poll).
  unfold tick, tick_body, server_poll. plumb.
  destruct (poll_fault env (now w)) as [e|]; plumb.
  - destruct (HH e (mkWorld (fs w) (trace w ++ [EPoll]) (S (now w)))) as (new & E & F).
    rewrite E. cbn [trace]. rewrite !count_app, (count_none _ _ F). simpl. lia.
  - destruct (HL (mkWorld (fs w) (trace w ++ [EPoll]) (S (now w)))) as (new & E & F).
    destruct (loop env _) as [[[]|e] w1]; cbn [snd trace] in *.
    + rewrite E, !count_app, (count_none _ _ F). simpl. lia.
    + destruct (HH e w1) as (new2 & E2 & F2).
      rewrite E2, E, !count_app, (count_none _ _ F), (count_none _ _ F2). simpl. lia.
Qed.

Lemma main_loop_polls n w :
  count is_poll (trace (snd (main_loop env n w))) = (count is_poll (trace w) + n)%nat.
Proof.
  revert w. induction n as [|n IH]; intros w; simpl.
  - lia.
  - unfold bind. pose proof (tick_polls_once w) as Ht.
    destruct (returns_tick w) as ([] & w1 & E). rewrite E in *. simpl in Ht.
    rewrite IH, Ht. lia.
Qed.

(** C1. One iteration of the loop never lets an exception out: the iteration
    returns normally from every world and under every environment; when its
    body (poll, card check, sensor reads, encoding, appends) raises, an
    Error record naming the exception is printed and sent to the error log;
    and the loop goes on, so that [n] iterations run to the end and poll the
    server [n] times. *)
Theorem tick_isolates_faults w :
  (exists w', tick env w = (Ok tt, w')) /\
  (forall e wb, tick_body env w = (Raise e, wb) ->
     let line := log_line "ERROR" (monotonic_ms env (now wb))
                   ("Unexpected Error occured in main function: " +:+ exn_text e) in
     exists ok rest w',
       tick env w = (Ok tt, w') /\
       trace w' = trace wb ++ EPrint line :: uart_echo env line ++ EOpen ERRPATH ok :: rest) /\
  (forall n, exists w',
     main_loop env n w = (Ok tt, w') /\
     count is_poll (trace w') = (count is_poll (trace w) + n)%nat).
Proof.
  split; [| split].
  - destruct (returns_tick w) as ([] & w' & E). eauto.
  - intros e wb Hb line. unfold tick, try_catch. rewrite Hb.
    destruct (log_events env LogLevel_ERROR
                ["Unexpected Error occured in main function: " +:+ exn_text e] wb ERRPATH)
      as (ok & rest & w' & E & T & _); [done | by repeat right | done |].
    exists ok, rest, w'. split; [exact E|]. rewrite T. subst line.
    reflexivity.
  - intros n. destruct (returns_main_loop n w) as ([] & w' & E).
    exists w'. split; [exact E|].
    pose proof (main_loop_polls n w) as Hp. by rewrite E in Hp.
Qed.

End FaultIsolation.

(** A fault of the HTTP library, of a sensor and of an append, each inside
    one iteration: the body raises, the iteration returns, one Error line is
    printed, and three iterations in a row poll three times. *)
Example tick_survives_poll_fault :
  fst (tick_body env_poll_fault world0) = Raise (mkExn RuntimeError "socket closed") /\
  fst (tick env_poll_fault world0) = Ok tt /\
  count is_error_line (trace (snd (tick env_poll_fault world0))) = 1%nat /\
  count is_poll (trace (snd (main_loop env_poll_fault 3 world0))) = 3%nat.
Proof. repeat split; vm_compute; reflexivity. Qed.

Example tick_survives_sensor_fault :
  fst (tick_body env_dps_fault world0) = Raise io_error /\
  fst (tick env_dps_fault world0) = Ok tt /\
  count is_error_line (trace (snd (tick env_dps_fault world0))) = 1%nat /\
  count is_poll (trace (snd (main_loop env_dps_fault 3 world0))) = 3%nat.
Proof. repeat split; vm_compute; reflexivity. Qed.

Example tick_survives_append_fault :
  fst (tick_body env_data_open_fault world0) = Raise io_error /\
  fst (tick env_data_open_fault world0) = Ok tt /\
  count is_error_line (trace (snd (tick env_data_open_fault world0))) = 1%nat /\
  count is_poll (trace (snd (main_loop env_data_open_fault 3 world0))) = 3%nat.
Proof. repeat split; vm_compute; reflexivity. Qed.

(** ** Sensor reads *)

(** C2, as stated, fails: when the DPS310 driver raises, [get_data] raises
    the same exception; no mapping is returned and nothing is logged. *)
Lemma dps310_fault_escapes_get_data :
  get_data (DPS310Data env_dps_fault) world0 = (Raise io_error, mkWorld ∅ [] 1).
Proof. reflexivity. Qed.

(** C2, amended. The accelerometer's [get_data] returns the three readings
    when the driver has them, and the all-zero mapping after an Error record
    when the driver has none; the pressure sensor's [get_data] returns the
    two readings; an exception raised by either driver is not caught and
    leaves [get_data] as it is. *)
Theorem get_data_outcomes env w :
  Bno08xData_get_data env w =
    match bno_acceleration env (now w) with
    | Ok (Some (x, y, z)) => (Ok [("accel_x", x); ("accel_y", y); ("accel_z", z)], bump w)
    | Ok None =>
        (Ok bno_fallback,
         snd (log env LogLevel_ERROR ["Could not get acceleration data from bno08x."] (bump w)))
    | Raise e => (Raise e, bump w)
    end /\
  (bno_acceleration env (now w) = Ok None ->
   let line := log_line "ERROR" (monotonic_ms env (S (now w)))
                 "Could not get acceleration data from bno08x." in
   exists ok rest,
     trace (snd (Bno08xData_get_data env w)) =
       trace w ++ EPrint line :: uart_echo env line ++ EOpen ERRPATH ok :: rest) /\
  DPS310Data_get_data env w =
    match dps_pressure env (now w) with
    | Ok pressure =>
        match dps_temperature env (S (now w)) with
        | Ok temp => (Ok [("pressure", pressure); ("temp", temp)], bump (bump w))
        | Raise e => (Raise e, bump (bump w))
        end
    | Raise e => (Raise e, bump w)
    end.
Proof.
  split; [| split].
  - unfold Bno08xData_get_data, driver_read, bump. plumb.
    destruct (bno_acceleration env (now w)) as [[[[x y] z]|]|e]; try reflexivity.
    destruct (returns_log env LogLevel_ERROR
                ["Could not get acceleration data from bno08x."]
                (mkWorld (fs w) (trace w) (S (now w)))) as ([] & w1 & ->).
    reflexivity.
  - intros H line.
    destruct (log_events env LogLevel_ERROR
                ["Could not get acceleration data from bno08x."] (bump w) ERRPATH)
      as (ok & rest & w' & E & T & _); [done | by repeat right | done |].
    exists ok, rest.
    unfold Bno08xData_get_data, driver_read. plumb. rewrite H.
    unfold bump in E. rewrite E. exact T.
  - unfold DPS310Data_get_data, driver_read, bump. plumb.
    destruct (dps_pressure env (now w)); [| reflexivity].
    destruct (dps_temperature env (S (now w))); reflexivity.
Qed.

(** ** The append path *)

Lemma append_not_empty (s1 s2 : string) : s2 <> "" -> s1 +:+ s2 <> "".
Proof. destruct s1; simpl; [done | discriminate]. Qed.

Lemma written_app path l1 l2 : written path (l1 ++ l2) = written path l1 ++ written path l2.
Proof.
  induction l1 as [|ev l1 IH]; simpl; [done|].
  destruct ev; try done. destruct (String.eqb path0 path); simpl; by rewrite IH.
Qed.

Lemma removals_app l1 l2 : removals (l1 ++ l2) = removals l1 ++ removals l2.
Proof.
  induction l1 as [|ev l1 IH]; simpl; [done|].
  destruct ev; simpl; by rewrite ?IH.
Qed.

Lemma off_data_written l : forallb off_data l = true -> written DATAPATH l = [].
Proof.
  induction l as [|ev l IH]; simpl; [done|].
  intros [Hx Hl]%andb_prop. destruct ev; auto.
  unfold off_data in Hx. simpl in Hx.
  destruct (String.eqb path DATAPATH); [done | auto].
Qed.

Lemma off_data_opens l : forallb off_data l = true -> count (is_open_of DATAPATH) l = 0%nat.
Proof.
  induction l as [|ev l IH]; simpl; [done|].
  intros [Hx Hl]%andb_prop. destruct ev; simpl; auto.
  unfold off_data in Hx. simpl in Hx.
  destruct (String.eqb path DATAPATH); [done | auto].
Qed.

Lemma not_remove_removals l : forallb not_remove l = true -> removals l = [].
Proof.
  induction l as [|ev l IH]; simpl; [done|].
  intros [Hx Hl]%andb_prop. destruct ev; auto. done.
Qed.

Section AppendPath.

Variable env : Env.

(** The encoder returns a string with a space in it, never [None]. *)
Lemma to_influx_line_value sd w r w1 :
  to_influx_line env sd w = (Ok r, w1) ->
  exists s, r = Some s /\ s <> "".
Proof.
  unfold to_influx_line, bind. intros H.
  destruct (SensorType_get_name env (sensor_type sd) w) as [[name|e] w0]; [| done].
  destruct (get_data (data sd) w0) as [[d|e] w2]; [| done].
  injection H as <- <-. eexists. split; [reflexivity|].
  apply append_not_empty. discriminate.
Qed.

Lemma to_influx_line_truthy sd w r w1 :
  to_influx_line env sd w = (Ok r, w1) -> truthy r = true.
Proof.
  intros (s & -> & Hs)%to_influx_line_value. simpl.
  apply negb_true_iff, String.eqb_neq, Hs.
Qed.

(** Once the line is encoded, [data2datafile] opens the data file. *)
Lemma data2datafile_opens sd w r w1 :
  to_influx_line env sd w = (Ok r, w1) ->
  data2datafile env sd w =
    with_open_append env DATAPATH
      (log_appending env sd;; file_write env DATAPATH (str_opt r +:+ CRLF)) w1.
Proof.
  intros H. unfold data2datafile. unfold bind at 1.
  rewrite H, (to_influx_line_truthy _ _ _ _ H). reflexivity.
Qed.



Lemma data2datafile_ok sd w r w1 w2 :
  to_influx_line env sd w = (Ok r, w1) ->
  open_fault env (now w1) DATAPATH = None ->
  log_appending env sd (opened w1) = (Ok tt, w2) ->
  write_fault env (now w2) DATAPATH = None ->
  data2datafile env sd w =
    (Ok tt,
     mkWorld (<[DATAPATH := default "" (fs w2 !! DATAPATH) +:+ str_opt r +:+ CRLF]> (fs w2))
       (trace w2 ++ [EWrite DATAPATH (str_opt r +:+ CRLF) true; EClose DATAPATH])
       (S (now w2))).
Proof.
  intros H Ho Hl Hw. rewrite (data2datafile_opens _ _ _ _ H).
  unfold with_open_append, open_append, file_write, file_close. plumb. rewrite Ho. plumb.
  unfold opened in Hl. rewrite Hl. plumb. rewrite Hw. plumb.
  flat. reflexivity.
Qed.

Lemma returns_to_influx_line sd :
  returns (get_data (data sd)) -> returns (to_influx_line env sd).
Proof.
  intros Hd. unfold to_influx_line, SensorType_get_name.
  apply returns_bind.
  - repeat case_match; try apply returns_ret.
    apply returns_bind; [apply returns_log | intros; apply returns_ret].
  - intros name. apply returns_bind; [done | intros; apply returns_ret].
Qed.

Lemma returns_log_appending sd :
  returns (get_data (data sd)) -> returns (log_appending env sd).
Proof.
  intros Hd. unfold log_appending.
  apply returns_bind; [by apply returns_to_influx_line | intros; apply returns_log].
Qed.


(** The same with the outcome of the open spelled out: it is the one the
    card gives. *)
Lemma data2datafile_opens_once sd w r w1 :
  to_influx_line env sd w = (Ok r, w1) ->
  emits off_data (get_data (data sd)) ->
  exists new,
    trace (snd (data2datafile env sd w)) =
      trace w1 ++ EOpen DATAPATH (match open_fault env (now w1) DATAPATH with
                                  | None => true
                                  | Some _ => false
                                  end) :: new /\
    count (is_open_of DATAPATH) new = 0%nat /\
    (written DATAPATH new = [] \/ written DATAPATH new = [str_opt r +:+ CRLF]) /\
    (open_fault env (now w1) DATAPATH = None -> returns (get_data (data sd)) ->
     written DATAPATH new = [str_opt r +:+ CRLF]).
Proof.
  intros H Hq.
  rewrite (data2datafile_opens _ _ _ _ H).
  unfold with_open_append, open_append, file_write, file_close. plumb.
  destruct (open_fault env (now w1) DATAPATH) as [e|]; plumb.
  { exists []. repeat split; auto. discriminate. }
  pose proof (emits_log_appending env off_data log_safe_off_data sd Hq
                (mkWorld (touch DATAPATH (fs w1)) (trace w1 ++ [EOpen DATAPATH true])
                   (S (now w1)))) as (n1 & E1 & F1).
  destruct (log_appending env sd _) as [[[]|e] w2] eqn:El; cbn [snd trace] in E1; plumb.
  - destruct (write_fault env (now w2) DATAPATH) as [e|]; plumb.
    all: eexists; split; [rewrite E1; flat; reflexivity|].
    all: rewrite count_app, written_app, (off_data_opens _ F1), (off_data_written _ F1).
    all: simpl; auto.
  - exists (n1 ++ [EClose DATAPATH]).
    split; [rewrite E1; flat; reflexivity|].
    rewrite count_app, written_app, (off_data_opens _ F1), (off_data_written _ F1).
    simpl. repeat split; auto.
    intros _ Hr. destruct (returns_log_appending sd Hr
      (mkWorld (touch DATAPATH (fs w1)) (trace w1 ++ [EOpen DATAPATH true]) (S (now w1))))
      as (a & w' & E'). rewrite E' in El. discriminate.
Qed.

(** When the driver raises, so does the encoder. *)
Lemma to_influx_line_raises sd w e w0 w1 name :
  SensorType_get_name env (sensor_type sd) w = (Ok name, w0) ->
  get_data (data sd) w0 = (Raise e, w1) ->
  to_influx_line env sd w = (Raise e, w1) /\ data2datafile env sd w = (Raise e, w1).
Proof.
  intros Hn Hd. unfold data2datafile, to_influx_line, bind. by rewrite Hn, Hd.
Qed.

End AppendPath.

(** C10, as stated, fails: the encoder does not return for every reading, and
    not every call of [data2datafile] attempts an append.  When the driver of
    the pressure sensor raises, [to_influx_line] raises with it, and
    [data2datafile] ends with that exception before it opens the data file:
    no event at all. *)
Lemma raising_driver_attempts_no_append :
  to_influx_line env_dps_fault
    (mkSensorData SensorType_DPS310 (DPS310Data env_dps_fault) 120000) world0
    = (Raise io_error, mkWorld ∅ [] 1) /\
  data2datafile env_dps_fault
    (mkSensorData SensorType_DPS310 (DPS310Data env_dps_fault) 120000) world0
    = (Raise io_error, mkWorld ∅ [] 1).
Proof. split; reflexivity. Qed.

(** C10, amended.  [to_influx_line] never returns [None] or an empty string:
    it returns whenever the sensor object's [get_data] does, and what it
    returns is a string that is not empty, so the guard in [data2datafile]
    is taken in every call that gets that far.  Such a call opens the data
    file exactly once, with the outcome the card gives; it hands [write] at
    most one string, the encoded line followed by CRLF, and exactly that one
    when the open succeeds and the sensor object does not raise.  When the
    open succeeds, the second encoding and its Debug record return and the
    write succeeds, the call returns normally and the data file holds what it
    held followed by that line and CRLF.  (The sensor object is one that
    leaves the data file alone, as both sensors of the script do.)  When the
    sensor object raises in the first encoding, the encoder and the call end
    with that exception where the sensor object left the world: the data
    file is not opened. *)
Theorem guard_never_suppresses env sd w r w1 :
  to_influx_line env sd w = (Ok r, w1) ->
  emits off_data (get_data (data sd)) ->
  (returns (get_data (data sd)) -> returns (to_influx_line env sd)) /\
  (exists s, r = Some s /\ s <> "") /\
  truthy r = true /\
  (exists new,
     trace (snd (data2datafile env sd w)) =
       trace w1 ++ EOpen DATAPATH (match open_fault env (now w1) DATAPATH with
                                   | None => true
                                   | Some _ => false
                                   end) :: new /\
     count (is_open_of DATAPATH) new = 0%nat /\
     (written DATAPATH new = [] \/ written DATAPATH new = [str_opt r +:+ CRLF]) /\
     (open_fault env (now w1) DATAPATH = None -> returns (get_data (data sd)) ->
      written DATAPATH new = [str_opt r +:+ CRLF])) /\
  (forall w2,
     open_fault env (now w1) DATAPATH = None ->
     log_appending env sd (opened w1) = (Ok tt, w2) ->
     write_fault env (now w2) DATAPATH = None ->
     data2datafile env sd w =
       (Ok tt,
        mkWorld (<[DATAPATH := default "" (fs w2 !! DATAPATH) +:+ str_opt r +:+ CRLF]> (fs w2))
          (trace w2 ++ [EWrite DATAPATH (str_opt r +:+ CRLF) true; EClose DATAPATH])
          (S (now w2)))) /\
  (forall v e name v0 v1,
     SensorType_get_name env (sensor_type sd) v = (Ok name, v0) ->
     get_data (data sd) v0 = (Raise e, v1) ->
     to_influx_line env sd v = (Raise e, v1) /\ data2datafile env sd v = (Raise e, v1)).
Proof.
  intros H Hq.
  split; [apply returns_to_influx_line|].
  destruct (to_influx_line_value _ _ _ _ _ H) as (s & -> & Hs).
  split; [by exists s|].
  split; [simpl; apply negb_true_iff, String.eqb_neq, Hs|].
  split; [by apply data2datafile_opens_once|].
  split.
  - intros w2 Ho Hl Hw. exact (data2datafile_ok env sd w _ w1 w2 H Ho Hl Hw).
  - intros v e name v0 v1 Hn Hd. exact (to_influx_line_raises env sd v e v0 v1 name Hn Hd).
Qed.

Lemma guard_never_suppresses_witness :
  to_influx_line env_ok (mkSensorData SensorType_DPS310 (DPS310Data env_ok) 120000) world0
    = (Ok (Some "dps310 pressure=1013.25,temp=21.5 120000"), mkWorld ∅ [] 2) /\
  emits off_data (get_data (data (mkSensorData SensorType_DPS310 (DPS310Data env_ok) 120000))) /\
  data2datafile env_ok (mkSensorData SensorType_DPS310 (DPS310Data env_ok) 120000) world0 =
    (Ok tt,
     mkWorld {[ DATAPATH := "dps310 pressure=1013.25,temp=21.5 120000" +:+ CRLF ]}
       [EOpen DATAPATH true;
        EPrint ("[DEBUG] - [120005]: Appending 'dps310 pressure=1013.25,temp=21.5 120000' to "
                  +:+ DATAPATH);
        EUart (("[DEBUG] - [120005]: Appending 'dps310 pressure=1013.25,temp=21.5 120000' to "
                  +:+ DATAPATH) +:+ CRLF);
        EWrite DATAPATH ("dps310 pressure=1013.25,temp=21.5 120000" +:+ CRLF) true;
        EClose DATAPATH]
       7).
Proof.
  set (sd := mkSensorData SensorType_DPS310 (DPS310Data env_ok) 120000).
  assert (H1 : to_influx_line env_ok sd world0
               = (Ok (Some "dps310 pressure=1013.25,temp=21.5 120000"), mkWorld ∅ [] 2))
    by reflexivity.
  assert (H2 : emits off_data (get_data (data sd)))
    by exact (emits_DPS310Data_get_data env_ok off_data).
  split; [exact H1|]. split; [exact H2|].
  destruct (guard_never_suppresses env_ok sd world0 _ _ H1 H2) as (_ & _ & _ & _ & Happ & _).
  rewrite (Happ (snd (log_appending env_ok sd (opened (mkWorld ∅ [] 2)))));
    [| reflexivity | reflexivity | reflexivity].
  vm_compute. reflexivity.
Defined.




(** ** Bulk deletion *)

Lemma In_removals p b l : In (ERemove p b) l -> In p (removals l).
Proof.
  induction l as [|ev l IH]; simpl; [done|].
  intros [-> | H]; [by left|]. destruct ev; auto. by right; auto.
Qed.

Section DebugRecords.

Variable env : Env.

(** A Debug record touches no file, whatever the card does. *)
Lemma log_debug message w :
  message <> [] ->
  let line := log_line "DEBUG" (monotonic_ms env (now w)) (String.concat "" message) in
  log env LogLevel_DEBUG message w =
    (Ok tt, mkWorld (fs w) (trace w ++ EPrint line :: uart_echo env line) (S (now w))).
Proof.
  intros Hm line. subst line. destruct message as [|m ms]; [done|].
  unfold uart_echo, log_line. run. destruct (uart_present env); run; flat; reflexivity.
Qed.

Lemma no_error_uart_echo line : forallb no_error_line (uart_echo env line) = true.
Proof. unfold uart_echo. by destruct (uart_present env). Qed.

Lemma removals_uart_echo line : removals (uart_echo env line) = [].
Proof. unfold uart_echo. by destruct (uart_present env). Qed.

End DebugRecords.

Ltac tr_simpl :=
  repeat first
    [ progress cbn [removals forallb app]
    | rewrite removals_app | rewrite forallb_app
    | rewrite removals_uart_echo | rewrite no_error_uart_echo ].

Section Deletion.

Variable env : Env.
Hypothesis no_remove_fault : forall n p, remove_fault env n p = None.

(** One round of the deletion loop: the removal is attempted; a file that
    is there is removed; for one that is not, the notice is logged and the
    round ends normally.  Logging may touch the run log only. *)
Lemma remove_one_spec path w :
  exists w' new,
    remove_one env path w = (Ok tt, w') /\
    trace w' = trace w ++ new /\
    removals new = [path] /\
    forallb no_error_line new = true /\
    (In (ERemove path false) new ->
     exists ts, In (missing_notice ts path) new) /\
    (fs w !! path = None -> In (ERemove path false) new) /\
    (forall q, q <> LOGPATH -> fs w' !! q = delete path (fs w) !! q).
Proof.
  unfold remove_one, try_catch. unfold bind at 1.
  rewrite log_debug by done. unfold os_remove. plumb.
  rewrite no_remove_fault. plumb.
  destruct (fs w !! path) as [old|] eqn:Ef; plumb.
  - eexists _, _. split; [reflexivity|]. split; [flat; reflexivity|].
    tr_simpl.
    repeat split; try done.
    intros [H|H]; [done|]. apply in_app_or in H as [H|H].
    + unfold uart_echo in H.
      destruct (uart_present env); simpl in H; [destruct H as [H|[]]; discriminate | done].
    + simpl in H. destruct H as [H|[]]; discriminate.
  - match goal with |- context [log env LogLevel_WARN ?m ?w0] =>
      destruct (log_events env LogLevel_WARN m w0 LOGPATH)
        as (ok & rest & w' & E & T & F & R & Hfs); [done | by right; right; left | done |]
    end.
    rewrite E. eexists _, _. split; [reflexivity|].
    rewrite T. cbn [trace now]. split; [flat; reflexivity|].
    tr_simpl. rewrite R, F.
    repeat split; try done.
    + intros _. eexists. right. apply in_or_app. right. right. left. reflexivity.
    + intros _. right. apply in_or_app. right. left. reflexivity.
    + intros q Hq. rewrite (Hfs q Hq). cbn [fs].
      destruct (decide (q = path)) as [->|Hne];
        [by rewrite lookup_delete_eq | by rewrite lookup_delete_ne].
Qed.

(** The deletion returns normally and attempts the three removals. *)
Lemma delete_all_removals w :
  exists w' new,
    delete_all env w = (Ok tt, w') /\
    trace w' = trace w ++ new /\
    removals new = delete_files.
Proof.
  unfold delete_all, delete_files, for_each.
  destruct (log_events env LogLevel_INFO ["MICROSD_DEL pressed. Deleting all files."] w LOGPATH)
    as (ok1 & r1 & w1 & E1 & T1 & F1 & R1 & S1); [done | by right; left | done |].
  destruct (remove_one_spec LOGPATH w1) as (w2 & n2 & E2 & T2 & R2 & _).
  destruct (remove_one_spec ERRPATH w2) as (w3 & n3 & E3 & T3 & R3 & _).
  destruct (remove_one_spec DATAPATH w3) as (w4 & n4 & E4 & T4 & R4 & _).
  destruct (log_events env LogLevel_INFO ["File deletion completed."] w4 LOGPATH)
    as (ok5 & r5 & w5 & E5 & T5 & F5 & R5 & S5); [done | by right; left | done |].
  unfold bind, ret. rewrite E1, E2, E3, E4, E5.
  eexists _, _. split; [reflexivity|].
  split; [rewrite T5, T4, T3, T2, T1; rewrite <- !app_assoc; reflexivity|].
  tr_simpl. by rewrite R1, R2, R3, R4, R5.
Qed.

End Deletion.

(** C8, as stated, fails for the run log.  On an empty card all three files
    are absent, yet the run log gets no notice: the record that announces the
    deletion has just created it, so its removal succeeds.  The two notices
    printed are those of the error log and of the data file. *)
Lemma run_log_absence_gets_no_notice :
  fs world0 !! LOGPATH = None /\
  fs world0 !! ERRPATH = None /\
  fs world0 !! DATAPATH = None /\
  removal_log (trace (snd (delete_all env_ok world0))) =
    [(LOGPATH, true); (ERRPATH, false); (DATAPATH, false)] /\
  warn_lines (trace (snd (delete_all env_ok world0))) =
    ["[WARN] - [120007]: File /sd/error.log does not exist.";
     "[WARN] - [120012]: File /sd/data.txt does not exist."].
Proof. repeat split; vm_compute; reflexivity. Qed.

(** C8, amended.  The bulk deletion, when removals fail only because a file
    is not there: it returns normally; it attempts the three removals in
    order; it prints no Error line; for every file whose removal found
    nothing the not-found notice is logged at Warn, which is the case of an
    error log or data file absent at the start; and neither of these two
    files remains. *)
Theorem delete_all_tolerates_missing_files env w :
  (forall n p, remove_fault env n p = None) ->
  exists w' new,
    delete_all env w = (Ok tt, w') /\
    trace w' = trace w ++ new /\
    removals new = [LOGPATH; ERRPATH; DATAPATH] /\
    forallb no_error_line new = true /\
    (forall p, In (ERemove p false) new -> exists ts, In (missing_notice ts p) new) /\
    (forall p, p = ERRPATH \/ p = DATAPATH -> fs w !! p = None -> In (ERemove p false) new) /\
    fs w' !! ERRPATH = None /\
    fs w' !! DATAPATH = None.
Proof.
  intros no_remove_fault.
  unfold delete_all, delete_files, for_each.
  destruct (log_events env LogLevel_INFO ["MICROSD_DEL pressed. Deleting all files."] w LOGPATH)
    as (ok1 & r1 & w1 & E1 & T1 & F1 & R1 & S1); [done | by right; left | done |].
  destruct (remove_one_spec env no_remove_fault LOGPATH w1) as (w2 & n2 & E2 & T2 & R2 & F2 & N2 & M2 & S2).
  destruct (remove_one_spec env no_remove_fault ERRPATH w2) as (w3 & n3 & E3 & T3 & R3 & F3 & N3 & M3 & S3).
  destruct (remove_one_spec env no_remove_fault DATAPATH w3) as (w4 & n4 & E4 & T4 & R4 & F4 & N4 & M4 & S4).
  destruct (log_events env LogLevel_INFO ["File deletion completed."] w4 LOGPATH)
    as (ok5 & r5 & w5 & E5 & T5 & F5 & R5 & S5); [done | by right; left | done |].
  unfold bind, ret. rewrite E1, E2, E3, E4, E5.
  match type of T1 with _ = _ ++ ?l => set (log1 := l) in * end.
  match type of T5 with _ = _ ++ ?l => set (log5 := l) in * end.
  assert (removals log1 = []) as RL1 by (subst log1; tr_simpl; exact R1).
  assert (removals log5 = []) as RL5 by (subst log5; tr_simpl; exact R5).
  assert (forallb no_error_line log1 = true) as FL1
    by (subst log1; tr_simpl; rewrite F1; reflexivity).
  assert (forallb no_error_line log5 = true) as FL5
    by (subst log5; tr_simpl; rewrite F5; reflexivity).
  exists w5, (log1 ++ n2 ++ n3 ++ n4 ++ log5).
  split; [reflexivity|].
  split; [rewrite T5, T4, T3, T2, T1; by rewrite <- !app_assoc|].
  split; [by rewrite !removals_app, RL1, R2, R3, R4, RL5|].
  split; [by rewrite !forallb_app, FL1, F2, F3, F4, FL5|].
  assert (fs w2 !! ERRPATH = fs w !! ERRPATH) as K2
    by (rewrite S2, lookup_delete_ne, S1 by done; reflexivity).
  assert (fs w3 !! DATAPATH = fs w !! DATAPATH) as K3
    by (rewrite S3, lookup_delete_ne, S2, lookup_delete_ne, S1 by done; reflexivity).
  split; [| split; [| split]].
  - intros p Hp. rewrite !in_app_iff in Hp.
    destruct Hp as [Hp | [Hp | [Hp | [Hp | Hp]]]].
    + apply In_removals in Hp. rewrite RL1 in Hp. destruct Hp.
    + assert (p = LOGPATH) as -> by (apply In_removals in Hp; rewrite R2 in Hp; by destruct Hp as [|[]]).
      destruct (N2 Hp) as (ts & Hts). exists ts. rewrite !in_app_iff. auto 10.
    + assert (p = ERRPATH) as -> by (apply In_removals in Hp; rewrite R3 in Hp; by destruct Hp as [|[]]).
      destruct (N3 Hp) as (ts & Hts). exists ts. rewrite !in_app_iff. auto 10.
    + assert (p = DATAPATH) as -> by (apply In_removals in Hp; rewrite R4 in Hp; by destruct Hp as [|[]]).
      destruct (N4 Hp) as (ts & Hts). exists ts. rewrite !in_app_iff. auto 10.
    + apply In_removals in Hp. rewrite RL5 in Hp. destruct Hp.
  - intros p [-> | ->] Hp; rewrite !in_app_iff.
    + right. right. left. apply M3. by rewrite K2.
    + right. right. right. left. apply M4. by rewrite K3.
  - rewrite S5, S4, lookup_delete_ne, S3, lookup_delete_eq by done. reflexivity.
  - rewrite S5, S4, lookup_delete_eq by done. reflexivity.
Qed.

Lemma delete_all_tolerates_missing_files_witness :
  (forall n p, remove_fault env_ok n p = None) /\
  exists w' new,
    delete_all env_ok world0 = (Ok tt, w') /\
    trace w' = trace world0 ++ new /\
    removals new = [LOGPATH; ERRPATH; DATAPATH] /\
    forallb no_error_line new = true /\
    (forall p, In (ERemove p false) new -> exists ts, In (missing_notice ts p) new) /\
    (forall p, p = ERRPATH \/ p = DATAPATH -> fs world0 !! p = None ->
               In (ERemove p false) new) /\
    fs w' !! ERRPATH = None /\
    fs w' !! DATAPATH = None.
Proof.
  assert (H : forall n p, remove_fault env_ok n p = None) by reflexivity.
  split; [exact H|].
  exact (delete_all_tolerates_missing_files env_ok world0 H).
Defined.

(** The deletion on an empty card, event by event.  The run log is created by
    the first record, so its removal succeeds; the other two removals find
    nothing, and each is followed by its notice. *)
Example delete_all_on_empty_card :
  trace (snd (delete_all env_ok world0)) =
    [EPrint "[INFO] - [120000]: MICROSD_DEL pressed. Deleting all files.";
     EUart ("[INFO] - [120000]: MICROSD_DEL pressed. Deleting all files." +:+ CRLF);
     EOpen "/sd/run.log" true;
     EWrite "/sd/run.log"
       ("[INFO] - [120000]: MICROSD_DEL pressed. Deleting all files." +:+ CRLF) true;
     EClose "/sd/run.log";
     EPrint "[DEBUG] - [120003]: Removing file /sd/run.log.";
     EUart ("[DEBUG] - [120003]: Removing file /sd/run.log." +:+ CRLF);
     ERemove "/sd/run.log" true;
     EPrint "[DEBUG] - [120005]: Removing file /sd/error.log.";
     EUart ("[DEBUG] - [120005]: Removing file /sd/error.log." +:+ CRLF);
     ERemove "/sd/error.log" false;
     EPrint "[WARN] - [120007]: File /sd/error.log does not exist.";
     EUart ("[WARN] - [120007]: File /sd/error.log does not exist." +:+ CRLF);
     EOpen "/sd/run.log" true;
     EWrite "/sd/run.log" ("[WARN] - [120007]: File /sd/error.log does not exist." +:+ CRLF) true;
     EClose "/sd/run.log";
     EPrint "[DEBUG] - [120010]: Removing file /sd/data.txt.";
     EUart ("[DEBUG] - [120010]: Removing file /sd/data.txt." +:+ CRLF);
     ERemove "/sd/data.txt" false;
     EPrint "[WARN] - [120012]: File /sd/data.txt does not exist.";
     EUart ("[WARN] - [120012]: File /sd/data.txt does not exist." +:+ CRLF);
     EOpen "/sd/run.log" true;
     EWrite "/sd/run.log" ("[WARN] - [120012]: File /sd/data.txt does not exist." +:+ CRLF) true;
     EClose "/sd/run.log";
     EPrint "[INFO] - [120015]: File deletion completed.";
     EUart ("[INFO] - [120015]: File deletion completed." +:+ CRLF);
     EOpen "/sd/run.log" true;
     EWrite "/sd/run.log" ("[INFO] - [120015]: File deletion completed." +:+ CRLF) true;
     EClose "/sd/run.log"].
Proof. vm_compute. reflexivity. Qed.

(** ** The delete signal over several iterations *)

Lemma bind_ok {A B} (m : M A) (k : A -> M B) w a w' :
  m w = (Ok a, w') -> bind m k w = k a w'.
Proof. intros H. unfold bind. by rewrite H. Qed.

(** C9, as stated, fails: with the button held over three iterations the
    deletion runs three times; the second and third rounds remove the data
    file the sensors wrote in between. *)
Lemma held_signal_deletes_every_tick :
  removal_log (trace (snd (main_loop env_del_held 3 world0))) =
    [(LOGPATH, true); (ERRPATH, false); (DATAPATH, false);
     (LOGPATH, true); (ERRPATH, false); (DATAPATH, true);
     (LOGPATH, true); (ERRPATH, false); (DATAPATH, true)].
Proof. vm_compute. reflexivity. Qed.

Section HeldSignal.

Variable env : Env.
Hypothesis del_held : forall n, del_pin env n = true.
Hypothesis poll_ok : forall n, poll_fault env n = None.
Hypothesis no_remove_fault : forall n p, remove_fault env n p = None.

Lemma handle_sd_removals w :
  exists w' new,
    handle_sd env w = (Ok tt, w') /\
    trace w' = trace w ++ new /\
    removals new = delete_files.
Proof.
  unfold handle_sd, pin_value. plumb.
  destruct (cd_pin env (now w)); cbn [negb]; plumb.
  - rewrite del_held.
    destruct (delete_all_removals env no_remove_fault
                (mkWorld (fs w) (trace w) (S (S (now w)))))
      as (w' & new & E & T & R).
    rewrite E. by exists w', new.
  - match goal with |- context [log env LogLevel_ERROR ?m ?w0] =>
      destruct (log_events env LogLevel_ERROR m w0 ERRPATH)
        as (ok & rest & w1 & E1 & T1 & F1 & R1 & _); [done | by repeat right | done |]
    end.
    rewrite E1. plumb. rewrite del_held.
    destruct (delete_all_removals env no_remove_fault
                (mkWorld (fs w1) (trace w1) (S (now w1))))
      as (w' & new & E & T & R).
    rewrite E. eexists _, _. split; [reflexivity|].
    rewrite T. cbn [trace]. rewrite T1. cbn [trace].
    split; [rewrite <- !app_assoc; reflexivity|].
    tr_simpl. by rewrite R1, R.
Qed.

Lemma tick_removals w :
  removals (trace (snd (tick env w))) = removals (trace w) ++ delete_files.
Proof.
  assert (emits not_remove (handle_dps310 env;; handle_bno08x env)) as HS.
  { apply emits_bind; [| intros _].
    - apply emits_handle_dps310; auto using log_safe_not_remove, data_safe_not_remove.
    - apply emits_handle_bno08x; auto using log_safe_not_remove, data_safe_not_remove. }
  assert (forall e, emits not_remove
            (log env LogLevel_ERROR ["Unexpected Error occured in main function: " +:+ exn_text e]))
    as HH by (intros; apply emits_log, log_safe_not_remove).
  unfold tick, tick_body, loop, try_catch.
  assert (server_poll env w = (Ok tt, mkWorld (fs w) (trace w ++ [EPoll]) (S (now w)))) as EP
    by (unfold server_poll; plumb; by rewrite poll_ok).
  rewrite (bind_ok _ _ _ _ _ EP).
  destruct (handle_sd_removals (mkWorld (fs w) (trace w ++ [EPoll]) (S (now w))))
    as (w1 & n1 & E1 & T1 & R1).
  rewrite (bind_ok _ _ _ _ _ E1).
  destruct (HS w1) as (n2 & T2 & F2).
  destruct ((handle_dps310 env;; handle_bno08x env) w1) as [[[]|e] w2]; cbn [snd] in *.
  - rewrite T2, T1. cbn [trace]. tr_simpl.
    rewrite R1, (not_remove_removals _ F2). by rewrite !app_nil_r.
  - destruct (HH e w2) as (n3 & T3 & F3).
    rewrite T3, T2, T1. cbn [trace]. tr_simpl.
    rewrite R1, (not_remove_removals _ F2), (not_remove_removals _ F3). by rewrite !app_nil_r.
Qed.

Lemma loop_removals w :
  removals (trace (snd (loop env w))) = removals (trace w) ++ delete_files.
Proof.
  assert (emits not_remove (handle_dps310 env;; handle_bno08x env)) as HS.
  { apply emits_bind; [| intros _].
    - apply emits_handle_dps310; auto using log_safe_not_remove, data_safe_not_remove.
    - apply emits_handle_bno08x; auto using log_safe_not_remove, data_safe_not_remove. }
  unfold loop.
  destruct (handle_sd_removals w) as (w1 & n1 & E1 & T1 & R1).
  rewrite (bind_ok _ _ _ _ _ E1).
  destruct (HS w1) as (n2 & T2 & F2).
  rewrite T2, T1, !removals_app, R1, (not_remove_removals _ F2). by rewrite app_nil_r.
Qed.

Lemma rounds_snoc {A} (l : list A) n :
  concat (replicate n l) ++ l = l ++ concat (replicate n l).
Proof.
  induction n as [|n IH]; cbn [replicate concat]; [by rewrite app_nil_r|].
  by rewrite <- app_assoc, IH.
Qed.

Lemma loops_removals n w :
  removals (trace (Nat.iter n (fun w0 => snd (loop env w0)) w)) =
    removals (trace w) ++ concat (replicate n delete_files).
Proof.
  induction n as [|n IH].
  - cbn [Nat.iter replicate concat]. by rewrite app_nil_r.
  - assert (Nat.iter (S n) (fun w0 => snd (loop env w0)) w
            = snd (loop env (Nat.iter n (fun w0 => snd (loop env w0)) w))) as -> by reflexivity.
    cbn [replicate concat].
    rewrite loop_removals, IH, <- app_assoc, rounds_snoc. reflexivity.
Qed.

Lemma main_loop_removals n w :
  removals (trace (snd (main_loop env n w))) =
    removals (trace w) ++ concat (replicate n delete_files).
Proof.
  revert w. induction n as [|n IH]; intros w; simpl.
  - by rewrite app_nil_r.
  - pose proof (tick_removals w) as Ht.
    destruct (returns_tick env w) as ([] & w1 & E). rewrite E in Ht. simpl in Ht.
    rewrite (bind_ok _ _ _ _ _ E), IH, Ht. by rewrite <- !app_assoc.
Qed.

End HeldSignal.

(** C9, amended. The delete signal is read as a level, once per run of
    [loop], and nothing remembers the last reading.  While it stays asserted
    and no removal fails but for a missing file, every run of [loop] attempts
    the three removals again, whatever the sensors and the card do
    otherwise: [n] runs make [n] rounds.  So do [n] iterations of [main],
    provided every poll returns and serves no request: a poll that raises
    skips the [loop] of its iteration. *)
Theorem held_delete_signal_repeats env n w :
  (forall k, del_pin env k = true) ->
  (forall k p, remove_fault env k p = None) ->
  removals (trace (Nat.iter n (fun w0 => snd (loop env w0)) w))
    = removals (trace w) ++ concat (replicate n delete_files) /\
  ((forall k, poll_fault env k = None) ->
   exists w',
     main_loop env n w = (Ok tt, w') /\
     removals (trace w') = removals (trace w) ++ concat (replicate n delete_files)).
Proof.
  intros Hd Hr. split; [by apply loops_removals|]. intros Hp.
  destruct (returns_main_loop env n w) as ([] & w' & E).
  exists w'. split; [exact E|].
  pose proof (main_loop_removals env Hd Hp Hr n w) as H. by rewrite E in H.
Qed.

Lemma held_delete_signal_repeats_witness :
  (forall k, del_pin env_del_held k = true) /\
  (forall k p, remove_fault env_del_held k p = None) /\
  removals (trace (Nat.iter 2 (fun w0 => snd (loop env_del_held w0)) world0))
    = removals (trace world0) ++ concat (replicate 2 delete_files) /\
  ((forall k, poll_fault env_del_held k = None) ->
   exists w',
     main_loop env_del_held 2 world0 = (Ok tt, w') /\
     removals (trace w') =
       removals (trace world0) ++ concat (replicate 2 delete_files)).
Proof.
  assert (H1 : forall k, del_pin env_del_held k = true) by reflexivity.
  assert (H2 : forall k p, remove_fault env_del_held k p = None) by reflexivity.
  split; [exact H1|]. split; [exact H2|].
  exact (held_delete_signal_repeats env_del_held 2 world0 H1 H2).
Defined.

(** ** The presence signal *)




Lemma written_uart_echo env path line : written path (uart_echo env line) = [].
Proof. unfold uart_echo. by destruct (uart_present env). Qed.

Section Presence.

Variable env : Env.
Hypothesis del_low : forall n, del_pin env n = false.
Hypothesis poll_ok : forall n, poll_fault env n = None.
Hypothesis pressure_ok : forall n, exists v, dps_pressure env n = Ok v.
Hypothesis temperature_ok : forall n, exists v, dps_temperature env n = Ok v.


Lemma to_influx_line_dps ts w :
  exists fields w1,
    to_influx_line env (mkSensorData SensorType_DPS310 (DPS310Data env) ts) w =
      (Ok (Some (influx_line "dps310" fields ts)), w1) /\
    fs w1 = fs w /\ trace w1 = trace w.
Proof.
  destruct (pressure_ok (now w)) as [p Hp].
  destruct (temperature_ok (S (now w))) as [t Ht].
  exists [("pressure", p); ("temp", t)], (bump (bump w)).
  unfold to_influx_line, DPS310Data, DPS310Data_get_data, driver_read.
  run. cbn [sensor_type data timestamp get_data]. plumb. rewrite Hp, Ht. done.
Qed.


Lemma handle_sd_nominal w :
  cd_pin env (now w) = true -> handle_sd env w = (Ok tt, bump (bump w)).
Proof.
  intros Hcd. unfold handle_sd, pin_value. plumb. rewrite Hcd. cbn [negb]. plumb.
  by rewrite del_low.
Qed.


End Presence.

Section Nominal.

Variable env : Env.
Hypothesis del_low : forall n, del_pin env n = false.
Hypothesis poll_ok : forall n, poll_fault env n = None.
Hypothesis pressure_ok : forall n, exists v, dps_pressure env n = Ok v.
Hypothesis temperature_ok : forall n, exists v, dps_temperature env n = Ok v.
Hypothesis acceleration_ok :
  forall n, exists x y z, bno_acceleration env n = Ok (Some (x, y, z)).
Hypothesis open_ok : forall n p, open_fault env n p = None.
Hypothesis write_ok : forall n p, write_fault env n p = None.

Lemma to_influx_line_bno ts w :
  exists fields w1,
    to_influx_line env (mkSensorData SensorType_BNO08X (Bno08xData env) ts) w =
      (Ok (Some (influx_line "bno08x" fields ts)), w1) /\
    fs w1 = fs w /\ trace w1 = trace w.
Proof.
  destruct (acceleration_ok (now w)) as (x & y & z & Ha).
  exists [("accel_x", x); ("accel_y", y); ("accel_z", z)], (bump w).
  unfold to_influx_line, Bno08xData, Bno08xData_get_data, driver_read.
  run. cbn [sensor_type data timestamp get_data]. plumb. rewrite Ha. done.
Qed.

(** A sensor step on a working card appends its line to the data file. *)
Lemma _handle_sensor_appends sensor_type sensor name w :
  (forall ts w0, exists fields w1,
     to_influx_line env (mkSensorData sensor_type sensor ts) w0 =
       (Ok (Some (influx_line name fields ts)), w1) /\
     fs w1 = fs w0 /\ trace w1 = trace w0) ->
  exists fields ts new w',
    _handle_sensor env sensor_type sensor w = (Ok tt, w') /\
    fs w' = <[DATAPATH := default "" (fs w !! DATAPATH)
                            +:+ influx_line name fields ts +:+ CRLF]> (fs w) /\
    trace w' = trace w ++ new /\
    written DATAPATH new = [influx_line name fields ts +:+ CRLF].
Proof.
  intros H. unfold _handle_sensor, time_monotonic_ms. plumb.
  set (ts := monotonic_ms env (now w)). set (sd := mkSensorData sensor_type sensor ts).
  destruct (H ts (mkWorld (fs w) (trace w) (S (now w)))) as (f1 & w1 & E1 & F1 & T1).
  destruct (H ts (opened w1)) as (f2 & w2 & E2 & F2 & T2).
  cbn [fs trace] in F1, T1.
  assert (log_appending env sd (opened w1) =
            (Ok tt,
             let line := log_line "DEBUG" (monotonic_ms env (now w2))
                 (String.concat ""
                    ["Appending '" +:+ str_opt (Some (influx_line name f2 ts))
                       +:+ "' to " +:+ DATAPATH]) in
             mkWorld (fs w2) (trace w2 ++ EPrint line :: uart_echo env line) (S (now w2))))
    as El.
  { unfold log_appending. rewrite (bind_ok _ _ _ _ _ E2). by rewrite log_debug. }
  rewrite (data2datafile_ok env sd _ _ _ _ E1 (open_ok _ _) El (write_ok _ _)).
  exists f1, ts. eexists _, _. split; [reflexivity|]. cbn [fs trace str_opt].
  split; [| split].
  - rewrite F2. unfold opened. cbn [fs]. rewrite F1. apply append_touch.
  - rewrite T2. unfold opened. cbn [trace]. rewrite T1. flat. reflexivity.
  - cbn [written]. rewrite written_app, written_uart_echo. reflexivity.
Qed.


End Nominal.



(** * Further properties of the script *)

(** ** Strings *)

Lemma str_app_cons c (s1 s2 : string) : String c s1 +:+ s2 = String c (s1 +:+ s2).
Proof. reflexivity. Qed.

Lemma str_app_nil_r (s : string) : s +:+ "" = s.
Proof. induction s as [|c s IH]; [done | by rewrite str_app_cons, IH]. Qed.

Lemma str_app_assoc (s1 s2 s3 : string) : (s1 +:+ s2) +:+ s3 = s1 +:+ s2 +:+ s3.
Proof. induction s1 as [|c s1 IH]; [done | by rewrite !str_app_cons, IH]. Qed.

Lemma str_app_length (s1 s2 : string) :
  String.length (s1 +:+ s2) = (String.length s1 + String.length s2)%nat.
Proof. induction s1 as [|c s1 IH]; [done | by rewrite str_app_cons; cbn [String.length]; rewrite IH]. Qed.

(** ** Which files an operation can touch, and how *)

Section FileLaws.

Context {A B : Type}.

Lemma keeps_ret S (a : A) : keeps_outside S (ret a).
Proof. by intros w q _. Qed.

Lemma keeps_raise S (e : Exn) : keeps_outside S (@raise A e).
Proof. by intros w q _. Qed.

Lemma keeps_bind S (m : M A) (k : A -> M B) :
  keeps_outside S m -> (forall a, keeps_outside S (k a)) -> keeps_outside S (bind m k).
Proof.
  intros Hm Hk w q Hq. unfold bind. specialize (Hm w q Hq).
  destruct (m w) as [[a|e] w1]; simpl in *; [| done].
  by rewrite (Hk a w1 q Hq).
Qed.

Lemma keeps_try_catch S (m : M A) (h : Exn -> M A) :
  keeps_outside S m -> (forall e, keeps_outside S (h e)) -> keeps_outside S (try_catch m h).
Proof.
  intros Hm Hh w q Hq. unfold try_catch. specialize (Hm w q Hq).
  destruct (m w) as [[a|e] w1]; simpl in *; [done|].
  by rewrite (Hh e w1 q Hq).
Qed.

Lemma keeps_finally_close S (m : M A) path :
  keeps_outside S m -> keeps_outside S (finally m (file_close path)).
Proof.
  intros Hm w q Hq. unfold finally. specialize (Hm w q Hq).
  by destruct (m w) as [r w1].
Qed.

Lemma grows_ret (a : A) : grows (ret a).
Proof. intros w p old H. exists ""%string. rewrite str_app_nil_r. exact H. Qed.

Lemma grows_raise (e : Exn) : grows (@raise A e).
Proof. intros w p old H. exists ""%string. rewrite str_app_nil_r. exact H. Qed.

Lemma grows_bind (m : M A) (k : A -> M B) :
  grows m -> (forall a, grows (k a)) -> grows (bind m k).
Proof.
  intros Hm Hk w p old H. unfold bind. destruct (Hm w p old H) as (s1 & H1).
  destruct (m w) as [[a|e] w1]; simpl in *; [| by exists s1].
  destruct (Hk a w1 p _ H1) as (s2 & H2).
  exists (s1 +:+ s2). by rewrite <- str_app_assoc.
Qed.

Lemma grows_try_catch (m : M A) (h : Exn -> M A) :
  grows m -> (forall e, grows (h e)) -> grows (try_catch m h).
Proof.
  intros Hm Hh w p old H. unfold try_catch. destruct (Hm w p old H) as (s1 & H1).
  destruct (m w) as [[a|e] w1]; simpl in *; [by exists s1|].
  destruct (Hh e w1 p _ H1) as (s2 & H2).
  exists (s1 +:+ s2). by rewrite <- str_app_assoc.
Qed.

Lemma grows_finally_close (m : M A) path :
  grows m -> grows (finally m (file_close path)).
Proof.
  intros Hm w p old H. unfold finally. destruct (Hm w p old H) as (s1 & H1).
  destruct (m w) as [r w1]. by exists s1.
Qed.

End FileLaws.

Lemma keeps_emit S ev : keeps_outside S (emit ev).
Proof. by intros w q _. Qed.

Lemma keeps_step S : keeps_outside S step.
Proof. by intros w q _. Qed.

Lemma keeps_pure S {A} (f : Outcome A) : keeps_outside S (fun w => (f, w)).
Proof. by intros w q _. Qed.

Lemma keeps_for_each S {A} (l : list A) (body : A -> M unit) :
  (forall x, In x l -> keeps_outside S (body x)) -> keeps_outside S (for_each l body).
Proof.
  induction l as [|x l IH]; intros H; simpl.
  - apply keeps_ret.
  - apply keeps_bind; [apply H; by left | intros _; apply IH; intros; apply H; by right].
Qed.

Lemma grows_emit ev : grows (emit ev).
Proof. intros w p old H. exists ""%string. rewrite str_app_nil_r. exact H. Qed.

Lemma grows_step : grows step.
Proof. intros w p old H. exists ""%string. rewrite str_app_nil_r. exact H. Qed.

Lemma grows_pure {A} (f : Outcome A) : grows (fun w => (f, w)).
Proof. intros w p old H. exists ""%string. rewrite str_app_nil_r. exact H. Qed.

Section FilePrimitives.

Variable env : Env.

Lemma keeps_open_append S path : In path S -> keeps_outside S (open_append env path).
Proof.
  intros Hp w q Hq. unfold open_append. plumb.
  destruct (open_fault env (now w) path); plumb; [done|].
  unfold touch. rewrite lookup_insert_ne; [done | by intros ->].
Qed.

Lemma keeps_file_write S path s : In path S -> keeps_outside S (file_write env path s).
Proof.
  intros Hp w q Hq. unfold file_write. plumb.
  destruct (write_fault env (now w) path); plumb; [done|].
  rewrite lookup_insert_ne; [done | by intros ->].
Qed.

Lemma keeps_os_remove S path : In path S -> keeps_outside S (os_remove env path).
Proof.
  intros Hp w q Hq. unfold os_remove. plumb.
  destruct (remove_fault env (now w) path); plumb; [done|].
  destruct (fs w !! path); plumb; [| done].
  rewrite lookup_delete_ne; [done | by intros ->].
Qed.

Lemma grows_open_append path : grows (open_append env path).
Proof.
  intros w p old H. unfold open_append. plumb. exists "". rewrite str_app_nil_r.
  destruct (open_fault env (now w) path); plumb; [done|].
  unfold touch. destruct (decide (path = p)) as [->|Hne].
  - by rewrite lookup_insert_eq, H.
  - by rewrite lookup_insert_ne.
Qed.

Lemma grows_file_write path s : grows (file_write env path s).
Proof.
  intros w p old H. unfold file_write. plumb.
  destruct (write_fault env (now w) path); plumb.
  - exists "". by rewrite str_app_nil_r.
  - destruct (decide (path = p)) as [->|Hne].
    + exists s. by rewrite lookup_insert_eq, H.
    + exists "". by rewrite lookup_insert_ne, str_app_nil_r.
Qed.

End FilePrimitives.

Ltac keeps_step :=
  first
    [ apply keeps_ret | apply keeps_raise | apply keeps_emit | apply keeps_step
    | apply keeps_pure | apply keeps_open_append | apply keeps_file_write
    | apply keeps_os_remove
    | apply keeps_bind; [| intros ?]
    | apply keeps_try_catch; [| intros ?]
    | apply keeps_finally_close
    | case_match ].

Ltac grows_step :=
  first
    [ apply grows_ret | apply grows_raise | apply grows_emit | apply grows_step
    | apply grows_pure | apply grows_open_append | apply grows_file_write
    | apply grows_bind; [| intros ?]
    | apply grows_try_catch; [| intros ?]
    | apply grows_finally_close
    | case_match ].

Section LoggerFiles.

Variable env : Env.

Lemma keeps_log_with S get_name level message :
  ((level =? LogLevel_DEBUG) = false ->
   In (if level =? LogLevel_ERROR then ERRPATH else LOGPATH) S) ->
  keeps_outside S (get_name level) ->
  keeps_outside S (log_with env get_name level message).
Proof.
  intros Hp Hg.
  unfold log_with, print, UART_write, time_monotonic_ms, with_open_append.
  repeat keeps_step; auto.
Qed.

Lemma keeps_LogLevel_get_name S level :
  ((level =? LogLevel_DEBUG) = false -> (level =? LogLevel_ERROR) = false ->
   (level =? LogLevel_WARN) = false -> (level =? LogLevel_INFO) = false -> In LOGPATH S) ->
  keeps_outside S (LogLevel_get_name env level).
Proof.
  intros Hp. unfold LogLevel_get_name, LogLevel_get_name_with, log_known.
  repeat case_match; try apply keeps_ret.
  apply keeps_bind; [| intros; apply keeps_ret].
  apply keeps_log_with; [intros _; by apply Hp|].
  unfold LogLevel_get_name_with. repeat keeps_step.
Qed.

(** A record changes at most the file its level is routed to. *)
Lemma keeps_log level message :
  keeps_outside [if level =? LogLevel_ERROR then ERRPATH else LOGPATH]
    (log env level message).
Proof.
  apply keeps_log_with; [intros _; by left|].
  apply keeps_LogLevel_get_name. intros _ He _ _. rewrite He. by left.
Qed.

Lemma keeps_log_debug message : keeps_outside [] (log env LogLevel_DEBUG message).
Proof.
  apply keeps_log_with; [done|].
  apply keeps_LogLevel_get_name. done.
Qed.

Lemma keeps_weaken {A} S S' (m : M A) :
  (forall q, In q S -> In q S') -> keeps_outside S m -> keeps_outside S' m.
Proof. intros H Hm w q Hq. apply Hm. intros Hin. by apply Hq, H. Qed.

Lemma keeps_log_known_files level message :
  keeps_outside known_files (log env level message).
Proof.
  eapply keeps_weaken; [| apply keeps_log].
  intros q [<-|[]]. unfold known_files. case_match; simpl; auto.
Qed.

Lemma grows_log_with get_name level message :
  (forall l, grows (get_name l)) -> grows (log_with env get_name level message).
Proof.
  intros Hg.
  unfold log_with, print, UART_write, time_monotonic_ms, with_open_append.
  repeat grows_step; auto.
Qed.

Lemma grows_LogLevel_get_name level : grows (LogLevel_get_name env level).
Proof.
  unfold LogLevel_get_name, LogLevel_get_name_with, log_known.
  repeat case_match; try apply grows_ret.
  apply grows_bind; [| intros; apply grows_ret].
  apply grows_log_with. intros l. unfold LogLevel_get_name_with. repeat grows_step.
Qed.

Lemma grows_log level message : grows (log env level message).
Proof. apply grows_log_with. intros; apply grows_LogLevel_get_name. Qed.

End LoggerFiles.

(** X1. The logger never raises and changes at most one file: the error log
    at Error, the run log at any other level, and no file at all at Debug.
    This holds whatever the card does and for any level, known or not. *)
Theorem log_never_raises_one_file env level message w :
  exists w',
    log env level message w = (Ok tt, w') /\
    (forall q, q <> (if level =? LogLevel_ERROR then ERRPATH else LOGPATH) ->
               fs w' !! q = fs w !! q) /\
    (level = LogLevel_DEBUG -> fs w' = fs w).
Proof.
  destruct (returns_log env level message w) as ([] & w' & E).
  exists w'. split; [exact E|]. split.
  - intros q Hq. pose proof (keeps_log env level message w q) as K.
    rewrite E in K. cbn [snd] in K. apply K. intros H. destruct H as [H|[]]. by apply Hq.
  - intros ->. apply map_eq. intros q.
    pose proof (keeps_log_debug env message w q) as K.
    rewrite E in K. cbn [snd] in K. apply K. intros H. destruct H.
Qed.

(** X2. The logger only appends: whatever the card does, a file that exists
    before a log call still exists after it and starts with what it held. *)
Theorem log_only_appends env level message w path old :
  fs w !! path = Some old ->
  exists suffix, fs (snd (log env level message w)) !! path = Some (old +:+ suffix).
Proof. intros H. by apply grows_log. Qed.

Lemma log_only_appends_witness :
  fs (mkWorld {[ LOGPATH := "boot" +:+ CRLF ]} [] 0) !! LOGPATH = Some ("boot" +:+ CRLF) /\
  exists suffix,
    fs (snd (log env_ok LogLevel_WARN ["low battery"]
               (mkWorld {[ LOGPATH := "boot" +:+ CRLF ]} [] 0))) !! LOGPATH
      = Some (("boot" +:+ CRLF) +:+ suffix).
Proof.
  assert (H : fs (mkWorld {[ LOGPATH := "boot" +:+ CRLF ]} [] 0) !! LOGPATH
              = Some ("boot" +:+ CRLF)) by reflexivity.
  split; [exact H|].
  exact (log_only_appends env_ok LogLevel_WARN ["low battery"] _ LOGPATH _ H).
Defined.

(** ** Edge cases of the logger *)

(** Maps after several opens and writes of one file. *)
Ltac fs_norm :=
  unfold touch;
  repeat first
    [ rewrite lookup_insert_eq | rewrite insert_insert_eq
    | progress cbn [default from_option id] ].

Ltac plumb_in H :=
  cbv [bind ret raise try_catch finally emit step get_fs put_fs] in H;
  cbn [fs trace now fst snd exn_class exn_text] in H.

Ltac run_log :=
  unfold log, log_with, print, UART_write, time_monotonic_ms,
    with_open_append, open_append, file_write, file_close; plumb.

(** X3. A log call without message parts skips the format: it prints an
    empty line and, at a level other than Debug, appends a bare CRLF to the
    file of that level; it reads no clock and names no level. *)
Theorem log_without_message env level w :
  level <> LogLevel_DEBUG ->
  open_fault env (now w) (target_file level) = None ->
  write_fault env (S (now w)) (target_file level) = None ->
  log env level [] w =
    (Ok tt,
     mkWorld (<[target_file level := default "" (fs w !! target_file level) +:+ CRLF]> (fs w))
       (trace w ++ EPrint "" :: uart_echo env ""
          ++ [EOpen (target_file level) true; EWrite (target_file level) CRLF true;
              EClose (target_file level)])
       (S (S (now w)))).
Proof.
  intros Hd Ho Hw. apply Z.eqb_neq in Hd.
  unfold target_file in *. run_log. rewrite Hd. unfold uart_echo.
  destruct (uart_present env); plumb; rewrite Ho; plumb; rewrite Hw; plumb; flat.
  all: by rewrite append_touch.
Qed.

Lemma log_without_message_witness :
  LogLevel_INFO <> LogLevel_DEBUG /\
  open_fault env_ok (now world0) (target_file LogLevel_INFO) = None /\
  write_fault env_ok (S (now world0)) (target_file LogLevel_INFO) = None /\
  log env_ok LogLevel_INFO [] world0 =
    (Ok tt,
     mkWorld {[ "/sd/run.log" := CRLF ]}
       [EPrint ""; EUart CRLF; EOpen "/sd/run.log" true; EWrite "/sd/run.log" CRLF true;
        EClose "/sd/run.log"] 2).
Proof.
  assert (H1 : LogLevel_INFO <> LogLevel_DEBUG) by discriminate.
  assert (H2 : open_fault env_ok (now world0) (target_file LogLevel_INFO) = None)
    by reflexivity.
  assert (H3 : write_fault env_ok (S (now world0)) (target_file LogLevel_INFO) = None)
    by reflexivity.
  split; [exact H1|]. split; [exact H2|]. split; [exact H3|].
  rewrite (log_without_message env_ok LogLevel_INFO world0 H1 H2 H3).
  vm_compute. reflexivity.
Defined.

(** X4. A record at a level that is none of the four: [get_name] first logs
    the warning "Log level N is unknown." to the run log, and the record
    itself follows, rendered as UNKNOWN and routed to the run log too.  The
    record carries the earlier timestamp although it is written second. *)
Theorem log_unknown_level env level message w :
  message <> [] ->
  ~ known_level level ->
  (forall n p, open_fault env n p = None) ->
  (forall n p, write_fault env n p = None) ->
  let warning := log_line "WARN" (monotonic_ms env (S (now w)))
                   ("Log level " +:+ pretty level +:+ " is unknown.") in
  let line := log_line "UNKNOWN" (monotonic_ms env (now w)) (String.concat "" message) in
  log env level message w =
    (Ok tt,
     mkWorld
       (<[LOGPATH := (default "" (fs w !! LOGPATH) +:+ warning +:+ CRLF) +:+ line +:+ CRLF]>
          (fs w))
       (trace w ++ EPrint warning :: uart_echo env warning
          ++ [EOpen LOGPATH true; EWrite LOGPATH (warning +:+ CRLF) true; EClose LOGPATH]
          ++ EPrint line :: uart_echo env line
          ++ [EOpen LOGPATH true; EWrite LOGPATH (line +:+ CRLF) true; EClose LOGPATH])
       (6 + now w)%nat).
Proof.
  intros Hm Hk Ho Hw warning line. subst warning line.
  destruct message as [|m ms]; [done|].
  assert ((level =? LogLevel_DEBUG) = false /\ (level =? LogLevel_ERROR) = false /\
          (level =? LogLevel_WARN) = false /\ (level =? LogLevel_INFO) = false)
    as (H0 & H3 & H2 & H1).
  { unfold known_level in Hk. repeat split; apply Z.eqb_neq; intros ->; apply Hk; auto. }
  unfold log at 1, log_with. unfold time_monotonic_ms, print, UART_write. plumb.
  unfold LogLevel_get_name, LogLevel_get_name_with. rewrite H0, H3, H2, H1. plumb.
  unfold log_known, log_with, LogLevel_get_name_with, time_monotonic_ms, print, UART_write,
    with_open_append, open_append, file_write, file_close.
  change (LogLevel_WARN =? LogLevel_DEBUG) with false.
  change (LogLevel_WARN =? LogLevel_ERROR) with false.
  change (LogLevel_WARN =? LogLevel_WARN) with true.
  plumb. rewrite ?H0, ?H3. unfold uart_echo, log_line.
  destruct (uart_present env); plumb; rewrite !Ho; plumb; rewrite !Hw; plumb;
    rewrite !Ho; plumb; rewrite !Hw; plumb; flat.
  all: fs_norm; reflexivity.
Qed.

Lemma log_unknown_level_witness :
  ["battery"] <> [] /\
  ~ known_level 7 /\
  (forall n p, open_fault env_ok n p = None) /\
  (forall n p, write_fault env_ok n p = None) /\
  log env_ok 7 ["battery"] world0 =
    (Ok tt,
     mkWorld
       {[ "/sd/run.log" := ("[WARN] - [120001]: Log level 7 is unknown." +:+ CRLF)
                             +:+ "[UNKNOWN] - [120000]: battery" +:+ CRLF ]}
       [EPrint "[WARN] - [120001]: Log level 7 is unknown.";
        EUart ("[WARN] - [120001]: Log level 7 is unknown." +:+ CRLF);
        EOpen "/sd/run.log" true;
        EWrite "/sd/run.log" ("[WARN] - [120001]: Log level 7 is unknown." +:+ CRLF) true;
        EClose "/sd/run.log";
        EPrint "[UNKNOWN] - [120000]: battery";
        EUart ("[UNKNOWN] - [120000]: battery" +:+ CRLF);
        EOpen "/sd/run.log" true;
        EWrite "/sd/run.log" ("[UNKNOWN] - [120000]: battery" +:+ CRLF) true;
        EClose "/sd/run.log"]
       6).
Proof.
  assert (H1 : ["battery"] <> @nil string) by discriminate.
  assert (H2 : ~ known_level 7)
    by (intros [H|[H|[H|H]]]; discriminate H).
  assert (H3 : forall n p, open_fault env_ok n p = None) by reflexivity.
  assert (H4 : forall n p, write_fault env_ok n p = None) by reflexivity.
  split; [exact H1|]. split; [exact H2|]. split; [exact H3|]. split; [exact H4|].
  rewrite (log_unknown_level env_ok 7 ["battery"] world0 H1 H2 H3 H4).
  vm_compute. reflexivity.
Defined.

(** X5. A failure of the file write of a record stays on the console.  When
    the open fails, the record is still printed and echoed, the note for the
    class of the exception is printed (not echoed, not written), no file
    changes and [log] returns normally.  When the write fails after a
    successful open, the same holds except that the file now exists (empty
    if it was new), the record being lost. *)
Theorem log_file_failure_is_console_only env level message w path e :
  message <> [] ->
  known_level level ->
  spec_log_file level = Some path ->
  let line := log_line (spec_level_name level) (monotonic_ms env (now w))
                (String.concat "" message) in
  (open_fault env (S (now w)) path = Some e ->
   log env level message w =
     (Ok tt,
      mkWorld (fs w)
        (trace w ++ EPrint line :: uart_echo env line
           ++ [EOpen path false; EPrint (failure_note path e)])
        (S (S (now w))))) /\
  (open_fault env (S (now w)) path = None ->
   write_fault env (S (S (now w))) path = Some e ->
   log env level message w =
     (Ok tt,
      mkWorld (touch path (fs w))
        (trace w ++ EPrint line :: uart_echo env line
           ++ [EOpen path true; EWrite path (line +:+ CRLF) false; EClose path;
               EPrint (failure_note path e)])
        (S (S (S (now w)))))).
Proof.
  intros Hm Hl Hf line. subst line.
  destruct message as [|m ms]; [done|].
  unfold uart_echo, log_line, failure_note.
  destruct Hl as [-> | [-> | [-> | ->]]]; [done| | |];
    injection Hf as <-;
    cbv [spec_level_name Z.eqb Pos.eqb LogLevel_DEBUG LogLevel_INFO LogLevel_WARN LogLevel_ERROR].
  all: split; [intros Ho | intros Ho Hw].
  all: run; destruct (uart_present env); run; rewrite Ho; run; rewrite ?Hw; run.
  all: destruct (exn_class e); run; flat; reflexivity.
Qed.

Lemma log_file_failure_is_console_only_witness :
  ["No MicroSD card inserted."] <> [] /\
  known_level LogLevel_ERROR /\
  spec_log_file LogLevel_ERROR = Some ERRPATH /\
  open_fault env_no_mount (S (now world0)) ERRPATH
    = Some (mkExn FileNotFoundError "[Errno 2] No such file/directory") /\
  log env_no_mount LogLevel_ERROR ["No MicroSD card inserted."] world0 =
    (Ok tt,
     mkWorld ∅
       [EPrint "[ERROR] - [120000]: No MicroSD card inserted.";
        EOpen "/sd/error.log" false;
        EPrint "Could not open file /sd/error.log: File not found."]
       2).
Proof.
  assert (H1 : ["No MicroSD card inserted."] <> @nil string) by discriminate.
  assert (H2 : known_level LogLevel_ERROR) by (by repeat right).
  assert (H3 : spec_log_file LogLevel_ERROR = Some ERRPATH) by reflexivity.
  assert (H4 : open_fault env_no_mount (S (now world0)) ERRPATH
               = Some (mkExn FileNotFoundError "[Errno 2] No such file/directory"))
    by reflexivity.
  split; [exact H1|]. split; [exact H2|]. split; [exact H3|]. split; [exact H4|].
  rewrite (proj1 (log_file_failure_is_console_only env_no_mount LogLevel_ERROR _ world0 ERRPATH
                    _ H1 H2 H3) H4).
  vm_compute. reflexivity.
Defined.

(** ** The sensors and the encoder *)

Section Fields.

Variable env : Env.

Lemma Bno08xData_fields w fields w' :
  Bno08xData_get_data env w = (Ok fields, w') ->
  exists x y z, fields = [("accel_x", x); ("accel_y", y); ("accel_z", z)].
Proof.
  intros H. unfold Bno08xData_get_data, driver_read in H. plumb_in H.
  destruct (bno_acceleration env (now w)) as [[[[x y] z]|]|e]; [| | done].
  - injection H as <- _. by exists x, y, z.
  - destruct (returns_log env LogLevel_ERROR
                ["Could not get acceleration data from bno08x."]
                (mkWorld (fs w) (trace w) (S (now w)))) as ([] & w1 & E).
    rewrite E in H. injection H as <- _. by eexists _, _, _.
Qed.

Lemma DPS310Data_fields w fields w' :
  DPS310Data_get_data env w = (Ok fields, w') ->
  exists p t, fields = [("pressure", p); ("temp", t)].
Proof.
  intros H. unfold DPS310Data_get_data, driver_read in H. plumb_in H.
  destruct (dps_pressure env (now w)) as [p|]; [| done].
  destruct (dps_temperature env (S (now w))) as [t|]; [| done].
  injection H as <- _. by exists p, t.
Qed.

End Fields.

(** X6. Every line the encoder returns for the accelerometer has the three
    fields accel_x, accel_y, accel_z in this order (readings or fallback
    alike) after the name bno08x, and every line for the pressure sensor the
    two fields pressure, temp after the name dps310: the shape of a line does
    not depend on what the drivers deliver. *)
Theorem encoded_lines_have_fixed_fields env ts w r w' :
  to_influx_line env (mkSensorData SensorType_BNO08X (Bno08xData env) ts) w = (Ok r, w') ->
  (exists x y z,
     r = Some (influx_line "bno08x" [("accel_x", x); ("accel_y", y); ("accel_z", z)] ts)) /\
  (forall ts2 w2 r2 w2',
     to_influx_line env (mkSensorData SensorType_DPS310 (DPS310Data env) ts2) w2
       = (Ok r2, w2') ->
     exists p t, r2 = Some (influx_line "dps310" [("pressure", p); ("temp", t)] ts2)).
Proof.
  intros H. split.
  - unfold to_influx_line, bind in H. cbn [sensor_type data timestamp get_data Bno08xData] in H.
    change (SensorType_get_name env SensorType_BNO08X w) with (Ok "bno08x", w) in H.
    cbv beta iota in H.
    destruct (Bno08xData_get_data env w) as [[fields|e] w1] eqn:E; [| done].
    destruct (Bno08xData_fields env _ _ _ E) as (x & y & z & ->).
    injection H as <- _. by exists x, y, z.
  - intros ts2 w2 r2 w2' H2.
    unfold to_influx_line, bind in H2.
    cbn [sensor_type data timestamp get_data DPS310Data] in H2.
    change (SensorType_get_name env SensorType_DPS310 w2) with (Ok "dps310", w2) in H2.
    cbv beta iota in H2.
    destruct (DPS310Data_get_data env w2) as [[fields|e] w1] eqn:E; [| done].
    destruct (DPS310Data_fields env _ _ _ E) as (p & t & ->).
    injection H2 as <- _. by exists p, t.
Qed.

Lemma encoded_lines_have_fixed_fields_witness :
  to_influx_line env_no_mount (mkSensorData SensorType_BNO08X (Bno08xData env_no_mount) 7)
    world0
    = (Ok (Some "bno08x accel_x=0,accel_y=0,accel_z=0 7"),
       snd (Bno08xData_get_data env_no_mount world0)) /\
  exists x y z,
    Some "bno08x accel_x=0,accel_y=0,accel_z=0 7"
      = Some (influx_line "bno08x" [("accel_x", x); ("accel_y", y); ("accel_z", z)] 7).
Proof.
  assert (H : to_influx_line env_no_mount
                (mkSensorData SensorType_BNO08X (Bno08xData env_no_mount) 7) world0
              = (Ok (Some "bno08x accel_x=0,accel_y=0,accel_z=0 7"),
                 snd (Bno08xData_get_data env_no_mount world0)))
    by (vm_compute; reflexivity).
  split; [exact H|].
  exact (proj1 (encoded_lines_have_fixed_fields env_no_mount 7 world0 _ _ H)).
Defined.

(** X7. One append reads the sensor twice, with one timestamp.  The line
    stored in the data file carries the first pressure and temperature
    readings; the line quoted in the Debug record "Appending ..." carries the
    second ones, taken after the file was opened; both carry the timestamp
    taken before the first read. *)
Theorem dps310_is_read_twice_per_append env w p1 t1 p2 t2 :
  dps_pressure env (1 + now w) = Ok p1 ->
  dps_temperature env (2 + now w) = Ok t1 ->
  open_fault env (3 + now w) DATAPATH = None ->
  dps_pressure env (4 + now w) = Ok p2 ->
  dps_temperature env (5 + now w) = Ok t2 ->
  write_fault env (7 + now w) DATAPATH = None ->
  let ts := monotonic_ms env (now w) in
  let stored := influx_line "dps310" [("pressure", p1); ("temp", t1)] ts in
  let quoted := influx_line "dps310" [("pressure", p2); ("temp", t2)] ts in
  let note := log_line "DEBUG" (monotonic_ms env (6 + now w))
                ("Appending '" +:+ quoted +:+ "' to " +:+ DATAPATH) in
  handle_dps310 env w =
    (Ok tt,
     mkWorld (<[DATAPATH := default "" (fs w !! DATAPATH) +:+ stored +:+ CRLF]> (fs w))
       (trace w ++ EOpen DATAPATH true :: EPrint note :: uart_echo env note
          ++ [EWrite DATAPATH (stored +:+ CRLF) true; EClose DATAPATH])
       (8 + now w)).
Proof.
  intros Hp1 Ht1 Ho Hp2 Ht2 Hw ts stored quoted note. subst ts stored quoted note.
  unfold handle_dps310, _handle_sensor, data2datafile, log_appending, to_influx_line,
    with_open_append, open_append, file_write, file_close, time_monotonic_ms,
    DPS310Data, DPS310Data_get_data, driver_read.
  cbn [sensor_type data timestamp get_data].
  change (SensorType_get_name env SensorType_DPS310) with (@ret string "dps310").
  plumb. cbn [Nat.add] in *. rewrite Hp1, Ht1.
  assert (Htr : forall l, truthy (Some (influx_line "dps310" l (monotonic_ms env (now w)))) = true).
  { intros l. reflexivity. }
  rewrite Htr. plumb. rewrite Ho. plumb. rewrite Hp2, Ht2.
  rewrite log_debug by done. plumb. rewrite Hw. plumb.
  cbn [str_opt]. flat. rewrite append_touch. reflexivity.
Qed.

Lemma dps310_is_read_twice_per_append_witness :
  dps_pressure env_drifting (1 + now world0) = Ok (PyFlt (mkFloat 101325 2)) /\
  dps_temperature env_drifting (2 + now world0) = Ok (PyFlt (mkFloat 215 1)) /\
  open_fault env_drifting (3 + now world0) DATAPATH = None /\
  dps_pressure env_drifting (4 + now world0) = Ok (PyFlt (mkFloat 101330 2)) /\
  dps_temperature env_drifting (5 + now world0) = Ok (PyFlt (mkFloat 215 1)) /\
  write_fault env_drifting (7 + now world0) DATAPATH = None /\
  handle_dps310 env_drifting world0 =
    (Ok tt,
     mkWorld {[ "/sd/data.txt" := "dps310 pressure=1013.25,temp=21.5 120000" +:+ CRLF ]}
       [EOpen "/sd/data.txt" true;
        EPrint "[DEBUG] - [120006]: Appending 'dps310 pressure=1013.3,temp=21.5 120000' to /sd/data.txt";
        EWrite "/sd/data.txt" ("dps310 pressure=1013.25,temp=21.5 120000" +:+ CRLF) true;
        EClose "/sd/data.txt"]
       8).
Proof.
  assert (H1 : dps_pressure env_drifting (1 + now world0) = Ok (PyFlt (mkFloat 101325 2)))
    by reflexivity.
  assert (H2 : dps_temperature env_drifting (2 + now world0) = Ok (PyFlt (mkFloat 215 1)))
    by reflexivity.
  assert (H3 : open_fault env_drifting (3 + now world0) DATAPATH = None) by reflexivity.
  assert (H4 : dps_pressure env_drifting (4 + now world0) = Ok (PyFlt (mkFloat 101330 2)))
    by reflexivity.
  assert (H5 : dps_temperature env_drifting (5 + now world0) = Ok (PyFlt (mkFloat 215 1)))
    by reflexivity.
  assert (H6 : write_fault env_drifting (7 + now world0) DATAPATH = None) by reflexivity.
  split; [exact H1|]. split; [exact H2|]. split; [exact H3|]. split; [exact H4|].
  split; [exact H5|]. split; [exact H6|].
  rewrite (dps310_is_read_twice_per_append env_drifting world0 _ _ _ _ H1 H2 H3 H4 H5 H6).
  vm_compute. reflexivity.
Defined.

(** X8. A sensor type that is neither of the two is not rejected: the name
    lookup logs "Sensor type N is unknown." at Error and answers "unknown",
    and the encoder returns a line under that measurement name. *)
Theorem unknown_sensor_type_is_encoded env sd w :
  sensor_type sd <> SensorType_BNO08X ->
  sensor_type sd <> SensorType_DPS310 ->
  let line := log_line "ERROR" (monotonic_ms env (now w))
                ("Sensor type " +:+ pretty (sensor_type sd) +:+ " is unknown.") in
  exists ok rest w1,
    SensorType_get_name env (sensor_type sd) w = (Ok "unknown", w1) /\
    trace w1 = trace w ++ EPrint line :: uart_echo env line ++ EOpen ERRPATH ok :: rest /\
    (forall fields w2,
       get_data (data sd) w1 = (Ok fields, w2) ->
       to_influx_line env sd w =
         (Ok (Some (influx_line "unknown" fields (timestamp sd))), w2)).
Proof.
  intros H0 H1 line. apply Z.eqb_neq in H0, H1.
  destruct (log_events env LogLevel_ERROR
              ["Sensor type " +:+ pretty (sensor_type sd) +:+ " is unknown."] w ERRPATH)
    as (ok & rest & w1 & E & T & _); [done | by repeat right | done |].
  assert (SensorType_get_name env (sensor_type sd) w = (Ok "unknown", w1)) as En.
  { unfold SensorType_get_name. rewrite H0, H1. unfold bind. by rewrite E. }
  exists ok, rest, w1. split; [exact En|]. split; [exact T|].
  intros fields w2 Hd. unfold to_influx_line. unfold bind. by rewrite En, Hd.
Qed.

Lemma unknown_sensor_type_is_encoded_witness :
  sensor_type (mkSensorData 9 no_fields 5) <> SensorType_BNO08X /\
  sensor_type (mkSensorData 9 no_fields 5) <> SensorType_DPS310 /\
  exists ok rest w1,
    SensorType_get_name env_ok (sensor_type (mkSensorData 9 no_fields 5)) world0
      = (Ok "unknown", w1) /\
    trace w1 = trace world0
      ++ EPrint (log_line "ERROR" (monotonic_ms env_ok (now world0))
                   ("Sensor type " +:+ pretty (sensor_type (mkSensorData 9 no_fields 5))
                      +:+ " is unknown."))
      :: uart_echo env_ok
           (log_line "ERROR" (monotonic_ms env_ok (now world0))
              ("Sensor type " +:+ pretty (sensor_type (mkSensorData 9 no_fields 5))
                 +:+ " is unknown."))
      ++ EOpen ERRPATH ok :: rest /\
    (forall fields w2,
       get_data (data (mkSensorData 9 no_fields 5)) w1 = (Ok fields, w2) ->
       to_influx_line env_ok (mkSensorData 9 no_fields 5) world0 =
         (Ok (Some (influx_line "unknown" fields (timestamp (mkSensorData 9 no_fields 5)))),
          w2)).
Proof.
  assert (H1 : sensor_type (mkSensorData 9 no_fields 5) <> SensorType_BNO08X) by discriminate.
  assert (H2 : sensor_type (mkSensorData 9 no_fields 5) <> SensorType_DPS310) by discriminate.
  split; [exact H1|]. split; [exact H2|].
  exact (unknown_sensor_type_is_encoded env_ok (mkSensorData 9 no_fields 5) world0 H1 H2).
Defined.

(** ** Files over the loop *)

Section LoopFiles.

Variable env : Env.

Lemma keeps_SensorType_get_name S sensor_type :
  In ERRPATH S -> keeps_outside S (SensorType_get_name env sensor_type).
Proof.
  intros HS. unfold SensorType_get_name. repeat case_match; try apply keeps_ret.
  apply keeps_bind; [| intros; apply keeps_ret].
  eapply keeps_weaken; [| apply keeps_log]. by intros q [<-|[]].
Qed.

Lemma keeps_Bno08xData_get_data S :
  In ERRPATH S -> keeps_outside S (Bno08xData_get_data env).
Proof.
  intros HS. unfold Bno08xData_get_data, driver_read.
  apply keeps_bind; [repeat keeps_step | intros [[[x y] z]|]]; [apply keeps_ret|].
  apply keeps_bind; [| intros; apply keeps_ret].
  eapply keeps_weaken; [| apply keeps_log]. by intros q [<-|[]].
Qed.

Lemma keeps_DPS310Data_get_data S : keeps_outside S (DPS310Data_get_data env).
Proof. unfold DPS310Data_get_data, driver_read. repeat keeps_step. Qed.

Lemma keeps__handle_sensor sensor_type sensor :
  keeps_outside known_files (get_data sensor) ->
  keeps_outside known_files (_handle_sensor env sensor_type sensor).
Proof.
  intros Hs.
  unfold _handle_sensor, time_monotonic_ms.
  apply keeps_bind; [repeat keeps_step | intros ts].
  assert (keeps_outside known_files
            (to_influx_line env (mkSensorData sensor_type sensor ts))) as He.
  { unfold to_influx_line. apply keeps_bind.
    - apply keeps_SensorType_get_name. simpl. auto.
    - intros. apply keeps_bind; [done | intros; apply keeps_ret]. }
  unfold data2datafile, log_appending, with_open_append.
  apply keeps_bind; [done | intros line].
  case_match; [| apply keeps_ret].
  apply keeps_bind; [apply keeps_open_append; simpl; auto | intros _].
  apply keeps_finally_close.
  apply keeps_bind.
  - apply keeps_bind; [done | intros; apply keeps_log_known_files].
  - intros _. apply keeps_file_write. simpl. auto.
Qed.

Lemma keeps_remove_one path :
  In path known_files -> keeps_outside known_files (remove_one env path).
Proof.
  intros Hp. unfold remove_one. apply keeps_try_catch.
  - apply keeps_bind; [apply keeps_log_known_files | intros _].
    by apply keeps_os_remove.
  - intros e. case_match; try apply keeps_raise. apply keeps_log_known_files.
Qed.

Lemma keeps_delete_all : keeps_outside known_files (delete_all env).
Proof.
  unfold delete_all.
  apply keeps_bind; [apply keeps_log_known_files | intros _].
  apply keeps_bind; [| intros _; apply keeps_log_known_files].
  apply keeps_for_each. intros p Hp. by apply keeps_remove_one.
Qed.

Lemma keeps_loop : keeps_outside known_files (loop env).
Proof.
  unfold loop, handle_sd, pin_value.
  apply keeps_bind.
  - apply keeps_bind; [repeat keeps_step | intros cd].
    apply keeps_bind; [case_match; [apply keeps_log_known_files | apply keeps_ret] | intros _].
    apply keeps_bind; [repeat keeps_step | intros del].
    case_match; [apply keeps_delete_all | apply keeps_ret].
  - intros _. apply keeps_bind; [| intros _].
    + apply keeps__handle_sensor. apply keeps_DPS310Data_get_data.
    + apply keeps__handle_sensor. apply keeps_Bno08xData_get_data. simpl. auto.
Qed.

End LoopFiles.

(** X9. The loop works on three files only.  Whatever the pins, the sensors
    and the card do, any number of runs of [loop] leaves every file other
    than the run log, the error log and the data file exactly as it was:
    never created, changed or removed. *)
Theorem loop_touches_known_files_only env n w path :
  ~ In path [LOGPATH; ERRPATH; DATAPATH] ->
  fs (Nat.iter n (fun w0 => snd (loop env w0)) w) !! path = fs w !! path.
Proof.
  intros Hp. induction n as [|n IH]; [done|].
  cbn [Nat.iter]. rewrite <- IH. by apply keeps_loop.
Qed.

Lemma loop_touches_known_files_only_witness :
  ~ In "/sd/flight-plan.txt" [LOGPATH; ERRPATH; DATAPATH] /\
  fs (Nat.iter 3 (fun w0 => snd (loop env_del_held w0))
        (mkWorld {[ "/sd/flight-plan.txt" := "apogee 3000 m" ]} [] 0)) !! "/sd/flight-plan.txt"
    = fs (mkWorld {[ "/sd/flight-plan.txt" := "apogee 3000 m" ]} [] 0) !! "/sd/flight-plan.txt".
Proof.
  assert (H : ~ In "/sd/flight-plan.txt" [LOGPATH; ERRPATH; DATAPATH])
    by (intros [H|[H|[H|[]]]]; discriminate H).
  split; [exact H|].
  exact (loop_touches_known_files_only env_del_held 3 _ _ H).
Defined.

Section LoopGrows.

Variable env : Env.
Hypothesis del_low : forall n, del_pin env n = false.

Lemma grows__handle_sensor sensor_type sensor :
  grows (get_data sensor) -> grows (_handle_sensor env sensor_type sensor).
Proof.
  intros Hs. unfold _handle_sensor, time_monotonic_ms.
  apply grows_bind; [repeat grows_step | intros ts].
  assert (grows (to_influx_line env (mkSensorData sensor_type sensor ts))) as He.
  { unfold to_influx_line, SensorType_get_name. apply grows_bind.
    - repeat case_match; try apply grows_ret.
      apply grows_bind; [apply grows_log | intros; apply grows_ret].
    - intros. apply grows_bind; [done | intros; apply grows_ret]. }
  unfold data2datafile, log_appending, with_open_append.
  apply grows_bind; [done | intros line].
  case_match; [| apply grows_ret].
  apply grows_bind; [apply grows_open_append | intros _].
  apply grows_finally_close.
  apply grows_bind.
  - apply grows_bind; [done | intros; apply grows_log].
  - intros _. apply grows_file_write.
Qed.

Lemma grows_handle_sd : grows (handle_sd env).
Proof.
  intros w p old H. unfold handle_sd, pin_value. plumb.
  assert (forall w0 old0, fs w0 !! p = Some old0 ->
            exists suf,
              fs (snd ((if del_pin env (now w0) then delete_all env else ret tt)
                         (mkWorld (fs w0) (trace w0) (S (now w0))))) !! p
                = Some (old0 +:+ suf)) as Hdel.
  { intros w0 old0 H0. rewrite del_low. exists "". by rewrite str_app_nil_r. }
  destruct (cd_pin env (now w)); cbn [negb]; plumb.
  - apply (Hdel (mkWorld (fs w) (trace w) (S (now w)))). exact H.
  - destruct (grows_log env LogLevel_ERROR ["No MicroSD card inserted."]
                (mkWorld (fs w) (trace w) (S (now w))) p old H) as (s1 & H1).
    destruct (returns_log env LogLevel_ERROR ["No MicroSD card inserted."]
                (mkWorld (fs w) (trace w) (S (now w)))) as ([] & w1 & E).
    rewrite E in *. cbn [snd] in H1. plumb.
    destruct (Hdel w1 _ H1) as (s2 & H2).
    exists (s1 +:+ s2). rewrite <- str_app_assoc. exact H2.
Qed.

Lemma grows_loop : grows (loop env).
Proof.
  unfold loop. apply grows_bind; [apply grows_handle_sd | intros _].
  apply grows_bind; [| intros _].
  - apply grows__handle_sensor. unfold DPS310Data, get_data, DPS310Data_get_data, driver_read.
    repeat grows_step.
  - apply grows__handle_sensor. unfold Bno08xData, get_data, Bno08xData_get_data, driver_read.
    apply grows_bind; [repeat grows_step | intros [[[x y] z]|]]; [apply grows_ret|].
    apply grows_bind; [apply grows_log | intros; apply grows_ret].
Qed.

End LoopGrows.

(** X10. While the delete signal is not asserted the loop only appends.
    Whatever the sensors and the card do, after any number of runs of [loop]
    a file that existed still exists and starts with what it held: nothing
    is truncated, overwritten or removed. *)
Theorem loop_only_appends env n w path old :
  (forall k, del_pin env k = false) ->
  fs w !! path = Some old ->
  exists suffix,
    fs (Nat.iter n (fun w0 => snd (loop env w0)) w) !! path = Some (old +:+ suffix).
Proof.
  intros Hd H. induction n as [|n IH].
  - exists "". by rewrite str_app_nil_r.
  - destruct IH as (s1 & H1). cbn [Nat.iter].
    destruct (grows_loop env Hd _ _ _ H1) as (s2 & H2).
    exists (s1 +:+ s2). rewrite <- str_app_assoc. exact H2.
Qed.

Lemma loop_only_appends_witness :
  (forall k, del_pin env_ok k = false) /\
  fs (mkWorld {[ DATAPATH := "dps310 pressure=1000.0,temp=20.0 5" +:+ CRLF ]} [] 0) !! DATAPATH
    = Some ("dps310 pressure=1000.0,temp=20.0 5" +:+ CRLF) /\
  exists suffix,
    fs (Nat.iter 2 (fun w0 => snd (loop env_ok w0))
          (mkWorld {[ DATAPATH := "dps310 pressure=1000.0,temp=20.0 5" +:+ CRLF ]} [] 0))
       !! DATAPATH
      = Some (("dps310 pressure=1000.0,temp=20.0 5" +:+ CRLF) +:+ suffix).
Proof.
  assert (H1 : forall k, del_pin env_ok k = false) by reflexivity.
  assert (H2 : fs (mkWorld {[ DATAPATH := "dps310 pressure=1000.0,temp=20.0 5" +:+ CRLF ]} [] 0)
                 !! DATAPATH
               = Some ("dps310 pressure=1000.0,temp=20.0 5" +:+ CRLF)) by reflexivity.
  split; [exact H1|]. split; [exact H2|].
  exact (loop_only_appends env_ok 2 _ DATAPATH _ H1 H2).
Defined.

(** ** More on the bulk deletion *)

Section RemovalFaults.

Variable env : Env.

Lemma remove_one_ok path w :
  (forall n, remove_fault env n path = None) ->
  exists w' new,
    remove_one env path w = (Ok tt, w') /\
    trace w' = trace w ++ new /\
    removals new = [path].
Proof.
  intros Hr. unfold remove_one, try_catch. unfold bind at 1.
  rewrite log_debug by done. unfold os_remove. plumb. rewrite Hr. plumb.
  destruct (fs w !! path) as [old|]; plumb.
  - eexists _, _. split; [reflexivity|]. split; [flat; reflexivity|]. by tr_simpl.
  - match goal with |- context [log env LogLevel_WARN ?m ?w0] =>
      destruct (log_events env LogLevel_WARN m w0 LOGPATH)
        as (ok & rest & w' & E & T & F & R & _); [done | by right; right; left | done |]
    end.
    rewrite E. eexists _, _. split; [reflexivity|].
    rewrite T. cbn [trace]. split; [flat; reflexivity|].
    tr_simpl. by rewrite R.
Qed.

Lemma remove_one_io_error path w e :
  (forall n, remove_fault env n path = Some e) ->
  exn_class e <> FileNotFoundError ->
  exists w' new,
    remove_one env path w = (Raise e, w') /\
    trace w' = trace w ++ new /\
    removals new = [path] /\
    fs w' = fs w.
Proof.
  intros Hr Hc. unfold remove_one, try_catch. unfold bind at 1.
  rewrite log_debug by done. unfold os_remove. plumb. rewrite Hr. plumb.
  destruct (exn_class e) eqn:Ec; [done| | |].
  all: plumb; eexists _, _; split; [reflexivity|]; split; [flat; reflexivity|].
  all: split; [by tr_simpl | reflexivity].
Qed.

End RemovalFaults.

(** X11. An I/O error in the bulk deletion is not absorbed like a missing
    file.  When the removal of one of the three files raises an exception
    other than [FileNotFoundError], the deletion ends there and raises it:
    the removals attempted are those of the files up to and including that
    one, in the order of the list; the files after it are never attempted. *)
Theorem delete_all_stops_at_io_error env w i bad e :
  delete_files !! i = Some bad ->
  (forall n, remove_fault env n bad = Some e) ->
  (forall n q, q <> bad -> remove_fault env n q = None) ->
  exn_class e <> FileNotFoundError ->
  exists w' new,
    delete_all env w = (Raise e, w') /\
    trace w' = trace w ++ new /\
    removals new = take (S i) delete_files.
Proof.
  intros Hi Hbad Hok Hc.
  destruct (log_events env LogLevel_INFO ["MICROSD_DEL pressed. Deleting all files."] w LOGPATH)
    as (ok1 & r1 & w1 & E1 & T1 & F1 & R1 & _); [done | by right; left | done |].
  unfold delete_all, delete_files, for_each in *.
  rewrite (bind_ok _ _ _ _ _ E1).
  destruct i as [|[|[|i]]]; simpl in Hi; [| | | done]; injection Hi as <-.
  - destruct (remove_one_io_error env LOGPATH w1 e Hbad Hc) as (w2 & n2 & E2 & T2 & R2 & _).
    unfold bind. rewrite E2. eexists _, _. split; [reflexivity|].
    rewrite T2, T1. split; [flat; reflexivity|]. tr_simpl. by rewrite R1, R2.
  - destruct (remove_one_ok env LOGPATH w1) as (w2 & n2 & E2 & T2 & R2);
      [intros; by apply Hok|].
    destruct (remove_one_io_error env ERRPATH w2 e Hbad Hc) as (w3 & n3 & E3 & T3 & R3 & _).
    unfold bind. rewrite E2, E3. eexists _, _. split; [reflexivity|].
    rewrite T3, T2, T1. split; [flat; reflexivity|]. tr_simpl. by rewrite R1, R2, R3.
  - destruct (remove_one_ok env LOGPATH w1) as (w2 & n2 & E2 & T2 & R2);
      [intros; by apply Hok|].
    destruct (remove_one_ok env ERRPATH w2) as (w3 & n3 & E3 & T3 & R3);
      [intros; by apply Hok|].
    destruct (remove_one_io_error env DATAPATH w3 e Hbad Hc) as (w4 & n4 & E4 & T4 & R4 & _).
    unfold bind. rewrite E2, E3, E4. eexists _, _. split; [reflexivity|].
    rewrite T4, T3, T2, T1. split; [flat; reflexivity|]. tr_simpl.
    by rewrite R1, R2, R3, R4.
Qed.

Lemma delete_all_stops_at_io_error_witness :
  delete_files !! 1%nat = Some ERRPATH /\
  (forall n, remove_fault env_remove_fault n ERRPATH = Some io_error) /\
  (forall n q, q <> ERRPATH -> remove_fault env_remove_fault n q = None) /\
  exn_class io_error <> FileNotFoundError /\
  exists w' new,
    delete_all env_remove_fault world0 = (Raise io_error, w') /\
    trace w' = trace world0 ++ new /\
    removals new = take 2 delete_files.
Proof.
  assert (H1 : delete_files !! 1%nat = Some ERRPATH) by reflexivity.
  assert (H2 : forall n, remove_fault env_remove_fault n ERRPATH = Some io_error)
    by reflexivity.
  assert (H3 : forall n q, q <> ERRPATH -> remove_fault env_remove_fault n q = None).
  { intros n q Hq. cbn [remove_fault env_remove_fault].
    destruct (String.eqb_spec q ERRPATH); [done | reflexivity]. }
  assert (H4 : exn_class io_error <> FileNotFoundError) by discriminate.
  split; [exact H1|]. split; [exact H2|]. split; [exact H3|]. split; [exact H4|].
  exact (delete_all_stops_at_io_error env_remove_fault world0 1 ERRPATH io_error H1 H2 H3 H4).
Defined.

Section CleanCard.

Variable env : Env.
Hypothesis open_ok : forall n p, open_fault env n p = None.
Hypothesis write_ok : forall n p, write_fault env n p = None.
Hypothesis remove_ok : forall n p, remove_fault env n p = None.

(** On a working card a routed record lands at the end of its file. *)
Lemma log_lands level message w path :
  message <> [] ->
  known_level level ->
  spec_log_file level = Some path ->
  exists ts w',
    log env level message w = (Ok tt, w') /\
    fs w' = <[path := default "" (fs w !! path)
                +:+ log_line (spec_level_name level) ts (String.concat "" message)
                +:+ CRLF]> (fs w).
Proof.
  intros Hm Hl Hf. destruct message as [|m ms]; [done|].
  unfold log_line.
  destruct Hl as [-> | [-> | [-> | ->]]]; [done| | |];
    injection Hf as <-;
    cbv [spec_level_name Z.eqb Pos.eqb LogLevel_DEBUG LogLevel_INFO LogLevel_WARN LogLevel_ERROR];
    run; destruct (uart_present env); run; rewrite open_ok; run; rewrite write_ok; run.
  all: do 2 eexists; split; [reflexivity|]; cbn [fs]; by rewrite append_touch.
Qed.

Lemma remove_one_run_log w :
  fs w !! LOGPATH <> None ->
  exists w',
    remove_one env LOGPATH w = (Ok tt, w') /\
    fs w' !! LOGPATH = None /\
    (forall q, q <> LOGPATH -> fs w' !! q = fs w !! q).
Proof.
  intros Hp. unfold remove_one, try_catch. unfold bind at 1.
  rewrite log_debug by done. unfold os_remove. plumb. rewrite remove_ok. plumb.
  destruct (fs w !! LOGPATH) as [old|]; [|done]. plumb.
  eexists. split; [reflexivity|]. cbn [fs]. split; [by rewrite lookup_delete_eq|].
  intros q Hq. by rewrite lookup_delete_ne.
Qed.

Lemma remove_one_other path w :
  path <> LOGPATH ->
  exists ts w',
    remove_one env path w = (Ok tt, w') /\
    fs w' !! path = None /\
    default "" (fs w' !! LOGPATH) =
      default "" (fs w !! LOGPATH) +:+ notice_if_missing (fs w !! path) path ts /\
    (forall q, q <> path -> q <> LOGPATH -> fs w' !! q = fs w !! q).
Proof.
  intros Hp. unfold remove_one, try_catch. unfold bind at 1.
  rewrite log_debug by done. unfold os_remove. plumb. rewrite remove_ok. plumb.
  destruct (fs w !! path) as [old|] eqn:Ef; plumb.
  - exists 0. eexists. split; [reflexivity|]. cbn [fs notice_if_missing].
    split; [by rewrite lookup_delete_eq|].
    split; [by rewrite lookup_delete_ne, str_app_nil_r|].
    intros q Hq _. by rewrite lookup_delete_ne.
  - match goal with |- context [log env LogLevel_WARN ?m ?w0] =>
      destruct (log_lands LogLevel_WARN m w0 LOGPATH)
        as (ts & w' & E & F); [done | by right; right; left | done |]
    end.
    rewrite E. exists ts. eexists. split; [reflexivity|].
    rewrite F. cbn [fs notice_if_missing spec_level_name String.concat].
    split; [by rewrite lookup_insert_ne|].
    split; [by rewrite lookup_insert_eq|].
    intros q _ Hq. by rewrite lookup_insert_ne.
Qed.

End CleanCard.

(** X12. The bulk deletion on a working card starts the run log afresh.
    Its opening record has just been appended to the run log, so that file
    is always found and removed, with whatever it held.  Afterwards the
    error log and the data file are gone, and the run log holds, in this
    order, one notice for each of these two that was missing and the closing
    record, and nothing else. *)
Theorem delete_all_restarts_run_log env w :
  (forall n p, open_fault env n p = None) ->
  (forall n p, write_fault env n p = None) ->
  (forall n p, remove_fault env n p = None) ->
  exists t1 t2 t3 w',
    delete_all env w = (Ok tt, w') /\
    fs w' !! ERRPATH = None /\
    fs w' !! DATAPATH = None /\
    fs w' !! LOGPATH =
      Some ((notice_if_missing (fs w !! ERRPATH) ERRPATH t1
               +:+ notice_if_missing (fs w !! DATAPATH) DATAPATH t2)
              +:+ log_line "INFO" t3 "File deletion completed." +:+ CRLF).
Proof.
  intros Ho Hw Hr.
  destruct (log_lands env Ho Hw LogLevel_INFO ["MICROSD_DEL pressed. Deleting all files."]
              w LOGPATH) as (t0 & w1 & E1 & F1); [done | by right; left | done |].
  destruct (remove_one_run_log env Hr w1) as (w2 & E2 & L2 & O2).
  { by rewrite F1, lookup_insert_eq. }
  destruct (remove_one_other env Ho Hw Hr ERRPATH w2) as (t1 & w3 & E3 & P3 & L3 & O3); [done|].
  destruct (remove_one_other env Ho Hw Hr DATAPATH w3) as (t2 & w4 & E4 & P4 & L4 & O4); [done|].
  destruct (log_lands env Ho Hw LogLevel_INFO ["File deletion completed."] w4 LOGPATH)
    as (t3 & w5 & E5 & F5); [done | by right; left | done |].
  exists t1, t2, t3, w5. unfold delete_all, delete_files, for_each.
  rewrite (bind_ok _ _ _ _ _ E1).
  assert (((remove_one env LOGPATH;; remove_one env ERRPATH;; remove_one env DATAPATH;; ret tt) w1)
          = (Ok tt, w4)) as Eloop.
  { rewrite (bind_ok _ _ _ _ _ E2), (bind_ok _ _ _ _ _ E3), (bind_ok _ _ _ _ _ E4).
    reflexivity. }
  rewrite (bind_ok _ _ _ _ _ Eloop). split; [exact E5|].
  rewrite F5. cbn [spec_level_name String.concat].
  split; [| split].
  - rewrite lookup_insert_ne by done. rewrite (O4 ERRPATH) by done. exact P3.
  - rewrite lookup_insert_ne by done. exact P4.
  - rewrite lookup_insert_eq. f_equal.
    rewrite L4, L3, L2. cbn [default from_option id].
    rewrite (O3 DATAPATH), (O2 DATAPATH), (O2 ERRPATH) by done.
    rewrite F1, !lookup_insert_ne by done.
    reflexivity.
Qed.

Lemma delete_all_restarts_run_log_witness :
  (forall n p, open_fault env_ok n p = None) /\
  (forall n p, write_fault env_ok n p = None) /\
  (forall n p, remove_fault env_ok n p = None) /\
  exists t1 t2 t3 w',
    delete_all env_ok world0 = (Ok tt, w') /\
    fs w' !! ERRPATH = None /\
    fs w' !! DATAPATH = None /\
    fs w' !! LOGPATH =
      Some ((notice_if_missing (fs world0 !! ERRPATH) ERRPATH t1
               +:+ notice_if_missing (fs world0 !! DATAPATH) DATAPATH t2)
              +:+ log_line "INFO" t3 "File deletion completed." +:+ CRLF).
Proof.
  assert (H1 : forall n p, open_fault env_ok n p = None) by reflexivity.
  assert (H2 : forall n p, write_fault env_ok n p = None) by reflexivity.
  assert (H3 : forall n p, remove_fault env_ok n p = None) by reflexivity.
  split; [exact H1|]. split; [exact H2|]. split; [exact H3|].
  exact (delete_all_restarts_run_log env_ok world0 H1 H2 H3).
Defined.

(** ** The data file over a run *)

Lemma concat_empty_sep_cons (x : string) (xs : list string) :
  String.concat "" (x :: xs) = x +:+ String.concat "" xs.
Proof. destruct xs; cbn [String.concat]; [by rewrite str_app_nil_r | reflexivity]. Qed.

Lemma concat_empty_sep_app (xs ys : list string) :
  String.concat "" (xs ++ ys) = String.concat "" xs +:+ String.concat "" ys.
Proof.
  induction xs as [|x xs IH]; [reflexivity|].
  change ((x :: xs) ++ ys) with (x :: (xs ++ ys)).
  by rewrite !concat_empty_sep_cons, IH, str_app_assoc.
Qed.

Section NominalLoop.

Variable env : Env.
Hypothesis cd_high : forall k, cd_pin env k = true.
Hypothesis del_low : forall k, del_pin env k = false.
Hypothesis pressure_ok : forall k, exists v, dps_pressure env k = Ok v.
Hypothesis temperature_ok : forall k, exists v, dps_temperature env k = Ok v.
Hypothesis acceleration_ok :
  forall k, exists x y z, bno_acceleration env k = Ok (Some (x, y, z)).
Hypothesis open_ok : forall k p, open_fault env k p = None.
Hypothesis write_ok : forall k p, write_fault env k p = None.

(** One nominal run of [loop] appends the pressure line and the
    accelerometer line. *)
Lemma loop_appends_two_lines w :
  exists f1 t1 f2 t2 new w',
    loop env w = (Ok tt, w') /\
    trace w' = trace w ++ new /\
    written DATAPATH new =
      [influx_line "dps310" f1 t1 +:+ CRLF; influx_line "bno08x" f2 t2 +:+ CRLF] /\
    fs w' !! DATAPATH =
      Some ((default "" (fs w !! DATAPATH) +:+ influx_line "dps310" f1 t1 +:+ CRLF)
              +:+ influx_line "bno08x" f2 t2 +:+ CRLF).
Proof.
  pose proof (handle_sd_nominal env del_low w (cd_high _)) as E1.
  set (w1 := bump (bump w)) in *.
  destruct (_handle_sensor_appends env open_ok write_ok SensorType_DPS310 (DPS310Data env)
              "dps310" w1 (to_influx_line_dps env pressure_ok temperature_ok))
    as (f1 & t1 & n1 & w2 & E2 & F2 & T2 & W2).
  destruct (_handle_sensor_appends env open_ok write_ok SensorType_BNO08X (Bno08xData env)
              "bno08x" w2 (to_influx_line_bno env acceleration_ok))
    as (f2 & t2 & n2 & w3 & E3 & F3 & T3 & W3).
  exists f1, t1, f2, t2, (n1 ++ n2), w3.
  split; [| split; [| split]].
  - unfold loop. rewrite (bind_ok _ _ _ _ _ E1).
    change (handle_dps310 env) with (_handle_sensor env SensorType_DPS310 (DPS310Data env)).
    rewrite (bind_ok _ _ _ _ _ E2).
    change (handle_bno08x env) with (_handle_sensor env SensorType_BNO08X (Bno08xData env)).
    exact E3.
  - rewrite T3, T2. subst w1. cbn [bump trace]. by rewrite app_assoc.
  - rewrite written_app, W2, W3. reflexivity.
  - rewrite F3, lookup_insert_eq, F2, lookup_insert_eq. reflexivity.
Qed.

End NominalLoop.

(** X13. Nominal runs of [loop] (card present, delete signal low, both
    sensors answering, the card taking every open and write): [n] runs in a
    row return normally and write [2 * n] records to the data file, each an
    encoded line followed by CRLF, alternating pressure and accelerometer;
    the data file then holds what it held before followed by exactly these
    records in the order written.  (This is about [loop] alone: what a
    request served between two runs does to the card is not part of it.) *)
Theorem nominal_loops_fill_data_file env n w :
  (forall k, cd_pin env k = true) ->
  (forall k, del_pin env k = false) ->
  (forall k, exists v, dps_pressure env k = Ok v) ->
  (forall k, exists v, dps_temperature env k = Ok v) ->
  (forall k, exists x y z, bno_acceleration env k = Ok (Some (x, y, z))) ->
  (forall k p, open_fault env k p = None) ->
  (forall k p, write_fault env k p = None) ->
  exists records new w',
    loop_runs env n w = (Ok tt, w') /\
    trace w' = trace w ++ new /\
    written DATAPATH new = records /\
    length records = (2 * n)%nat /\
    (forall i r, records !! i = Some r ->
       exists fields ts,
         r = influx_line (if Nat.even i then "dps310" else "bno08x") fields ts +:+ CRLF) /\
    default "" (fs w' !! DATAPATH) =
      default "" (fs w !! DATAPATH) +:+ String.concat "" records.
Proof.
  intros Hcd Hdel Hp Ht Ha Ho Hw. revert w.
  induction n as [|n IH]; intros w.
  - exists [], [], w. cbn [loop_runs]. split; [reflexivity|].
    split; [by rewrite app_nil_r|]. split; [reflexivity|]. split; [reflexivity|].
    split; [intros i r H; destruct i; discriminate|].
    by rewrite str_app_nil_r.
  - destruct (loop_appends_two_lines env Hcd Hdel Hp Ht Ha Ho Hw w)
      as (f1 & t1 & f2 & t2 & new1 & w1 & E1 & T1 & W1 & F1).
    destruct (IH w1) as (recs & new2 & w2 & E2 & T2 & W2 & L2 & R2 & F2).
    exists ([influx_line "dps310" f1 t1 +:+ CRLF; influx_line "bno08x" f2 t2 +:+ CRLF] ++ recs),
      (new1 ++ new2), w2.
    cbn [loop_runs]. rewrite (bind_ok _ _ _ _ _ E1).
    split; [exact E2|]. split; [by rewrite T2, T1, app_assoc|].
    split; [by rewrite written_app, W1, W2|].
    split; [cbn [length app]; lia|].
    split.
    + intros [|[|i]] r Hi; cbn in Hi.
      * injection Hi as <-. by exists f1, t1.
      * injection Hi as <-. by exists f2, t2.
      * destruct (R2 i r Hi) as (fl & ts & ->). exists fl, ts.
        change (Nat.even (S (S i))) with (Nat.even i). reflexivity.
    + rewrite F2, F1. cbn [default from_option id app].
      rewrite !concat_empty_sep_cons, !str_app_assoc. reflexivity.
Qed.

Lemma nominal_loops_fill_data_file_witness :
  (forall k, cd_pin env_ok k = true) /\
  (forall k, del_pin env_ok k = false) /\
  (forall k, exists v, dps_pressure env_ok k = Ok v) /\
  (forall k, exists v, dps_temperature env_ok k = Ok v) /\
  (forall k, exists x y z, bno_acceleration env_ok k = Ok (Some (x, y, z))) /\
  (forall k p, open_fault env_ok k p = None) /\
  (forall k p, write_fault env_ok k p = None) /\
  exists records new w',
    loop_runs env_ok 3 world0 = (Ok tt, w') /\
    trace w' = trace world0 ++ new /\
    written DATAPATH new = records /\
    length records = (2 * 3)%nat /\
    (forall i r, records !! i = Some r ->
       exists fields ts,
         r = influx_line (if Nat.even i then "dps310" else "bno08x") fields ts +:+ CRLF) /\
    default "" (fs w' !! DATAPATH) =
      default "" (fs world0 !! DATAPATH) +:+ String.concat "" records.
Proof.
  assert (H1 : forall k, cd_pin env_ok k = true) by reflexivity.
  assert (H2 : forall k, del_pin env_ok k = false) by reflexivity.
  assert (H4 : forall k, exists v, dps_pressure env_ok k = Ok v) by (intros; eexists; reflexivity).
  assert (H5 : forall k, exists v, dps_temperature env_ok k = Ok v)
    by (intros; eexists; reflexivity).
  assert (H6 : forall k, exists x y z, bno_acceleration env_ok k = Ok (Some (x, y, z)))
    by (intros; do 3 eexists; reflexivity).
  assert (H7 : forall k p, open_fault env_ok k p = None) by reflexivity.
  assert (H8 : forall k p, write_fault env_ok k p = None) by reflexivity.
  split; [exact H1|]. split; [exact H2|]. split; [exact H4|].
  split; [exact H5|]. split; [exact H6|]. split; [exact H7|]. split; [exact H8|].
  exact (nominal_loops_fill_data_file env_ok 3 world0 H1 H2 H4 H5 H6 H7 H8).
Defined.

(** * The web interface *)

(** The plumbing of the handler monad. *)
Ltac hplumb :=
  cbv [hbind hret hraise htry hfinally on_card on_wire
       connection_send connection_close file_close_session file_read file_close
       bind ret raise emit step get_fs put_fs];
  cbn [wire card fs trace now fst snd exn_class exn_text].

Lemma str_take_drop (n : nat) (s : string) : str_take n s +:+ str_drop n s = s.
Proof.
  revert s. induction n as [|n IH]; intros [|c r]; try reflexivity.
  cbn [str_take str_drop]. by rewrite str_app_cons, IH.
Qed.

Lemma str_take_length (n : nat) (s : string) :
  (String.length (str_take n s) <= n)%nat.
Proof.
  revert s. induction n as [|n IH]; intros [|c r]; cbn [str_take String.length]; try lia.
  specialize (IH r). lia.
Qed.

Lemma str_drop_length (n : nat) (s : string) :
  str_take n s <> "" -> (String.length (str_drop n s) < String.length s)%nat.
Proof.
  revert s. induction n as [|n IH]; intros [|c r]; cbn [str_take str_drop String.length];
    try done.
  intros _. destruct n as [|n]; [destruct r; cbn; lia|].
  destruct r as [|c' r']; [cbn; lia|].
  assert (str_take (S n) (String c' r') <> "") as Hne by done.
  specialize (IH _ Hne). lia.
Qed.

Lemma str_take_empty (n : nat) (s : string) :
  str_take (S n) s = "" -> s = "".
Proof. destruct s; [done | discriminate]. Qed.

Lemma str_drop_length_eq (n : nat) (s : string) :
  String.length (str_drop n s) = (String.length s - n)%nat.
Proof.
  revert s. induction n as [|n IH]; intros [|c r]; cbn [str_drop String.length]; try lia.
  rewrite IH. lia.
Qed.

Lemma str_take_add (a b : nat) (s : string) :
  str_take (a + b) s = str_take a s +:+ str_take b (str_drop a s).
Proof.
  revert s. induction a as [|a IH]; intros s.
  - destruct s; reflexivity.
  - destruct s as [|c r]; [by destruct b|].
    change (S a + b)%nat with (S (a + b)). cbn [str_take str_drop].
    by rewrite str_app_cons, IH.
Qed.

Section WebLaws.

Variable env : Env.
Variable net : Net.

(** A record at Info on a working card. *)
Lemma log_info_writes text w :
  open_fault env (S (now w)) LOGPATH = None ->
  write_fault env (S (S (now w))) LOGPATH = None ->
  log env LogLevel_INFO [text] w =
    (Ok tt,
     let line := log_line "INFO" (monotonic_ms env (now w)) text in
     mkWorld (<[LOGPATH := default "" (fs w !! LOGPATH) +:+ line +:+ CRLF]> (fs w))
       (trace w ++ EPrint line :: uart_echo env line
          ++ [EOpen LOGPATH true; EWrite LOGPATH (line +:+ CRLF) true; EClose LOGPATH])
       (S (S (S (now w))))).
Proof.
  intros Ho Hw. cbv zeta. unfold uart_echo, log_line. run.
  destruct (uart_present env); run; rewrite Ho; run; rewrite Hw; run; flat.
  all: by rewrite append_touch.
Qed.

End WebLaws.

(** X14. The deletion route closes the connection exactly once, as its last
    act, whatever fails on the card or on the connection.  What it sends
    before that is settled by [os.remove] and the connection.  When
    [os.remove] raises, the one thing sent is the 500 response that quotes
    that exception.  When [os.remove] returns, the 200 response is sent; if
    it is delivered nothing else is sent, and only if it is not, a second
    send follows: the 500 response that quotes the exception of the failed
    send.  In every case the handler returns normally exactly when its last
    send was delivered, and raises otherwise. *)
Theorem handle_file_delete_closes_once env net filename s :
  exists r s' sends,
    handle_file_delete env net filename s = (r, s') /\
    wire s' = wire s ++ sends ++ [NClose] /\
    ((exists e delivered,
        fst (os_remove env (_SD_ROOT +:+ "/" +:+ filename) (card s)) = Raise e /\
        sends = [NSend (delete_error_response filename e) delivered] /\
        ends_as r delivered) \/
     (fst (os_remove env (_SD_ROOT +:+ "/" +:+ filename) (card s)) = Ok tt /\
      sends = [NSend (delete_ok_response filename) true] /\
      r = Ok tt) \/
     (exists k e delivered,
        fst (os_remove env (_SD_ROOT +:+ "/" +:+ filename) (card s)) = Ok tt /\
        send_fault net k = Some e /\
        sends = [NSend (delete_ok_response filename) false;
                 NSend (delete_error_response filename e) delivered] /\
        ends_as r delivered)).
Proof.
  unfold handle_file_delete, delete_ok_response, delete_error_response.
  set (path := _SD_ROOT +:+ "/" +:+ filename).
  cbv [hfinally htry]. unfold hbind at 1. unfold on_card at 1.
  destruct (os_remove env path (card s)) as [[[]|e] w1].
  - unfold hbind at 1. unfold on_card at 1.
    destruct (returns_log env LogLevel_INFO ["File " +:+ path +:+ " deleted."] w1)
      as ([] & w2 & E2).
    cbn [card wire]. rewrite E2. hplumb.
    destruct (send_fault net (now w2)) as [e|] eqn:Es; hplumb.
    + destruct (send_fault net (S (now w2))) as [e'|]; hplumb.
      all: eexists _, _, [_; _]; split; [reflexivity|]; cbn [wire]; split; [by flat|].
      all: right; right; exists (now w2), e; eexists; split; [reflexivity|].
      all: split; [exact Es|]; split; reflexivity.
    + eexists _, _, [_]. split; [reflexivity|]. cbn [wire]. split; [by flat|].
      right; left. by repeat split.
  - hplumb.
    destruct (send_fault net (now w1)) as [e'|]; hplumb.
    all: eexists _, _, [_]; split; [reflexivity|]; cbn [wire]; split; [by flat|].
    all: left; exists e; eexists; split; [reflexivity|]; split; reflexivity.
Qed.

Lemma sd_path_inj (a b : string) :
  _SD_ROOT +:+ "/" +:+ a = _SD_ROOT +:+ "/" +:+ b -> a = b.
Proof. unfold _SD_ROOT. rewrite !str_app_cons. intros H. by simplify_eq. Qed.

(** X15. A deletion request for a file that is there, on a working card and
    connection: the file is removed, the removal is recorded in the run log
    at Info, the client gets the 200 response and the connection is closed.
    The record is written after the removal, so a request to delete the run
    log leaves a run log that holds exactly the record of its own deletion;
    any other file is gone afterwards. *)
Theorem handle_file_delete_removes_then_records env net filename s old :
  let path := _SD_ROOT +:+ "/" +:+ filename in
  let w := card s in
  let line := log_line "INFO" (monotonic_ms env (S (now w))) ("File " +:+ path +:+ " deleted.") in
  fs w !! path = Some old ->
  remove_fault env (now w) path = None ->
  open_fault env (S (S (now w))) LOGPATH = None ->
  write_fault env (S (S (S (now w)))) LOGPATH = None ->
  send_fault net (S (S (S (S (now w))))) = None ->
  exists s',
    handle_file_delete env net filename s = (Ok tt, s') /\
    wire s' =
      wire s ++ [NSend (ok_response ("File '" +:+ filename +:+ "' deleted successfully.")) true;
                 NClose] /\
    fs (card s') =
      <[LOGPATH := default "" (delete path (fs w) !! LOGPATH) +:+ line +:+ CRLF]>
        (delete path (fs w)) /\
    removals (trace (card s')) = removals (trace w) ++ [path] /\
    (filename = _LOG_FILE -> fs (card s') !! LOGPATH = Some (line +:+ CRLF)) /\
    (filename <> _LOG_FILE -> fs (card s') !! path = None).
Proof.
  intros path w line Hf Hr Ho Hw Hs. subst w.
  unfold handle_file_delete. fold path. unfold os_remove. hplumb.
  rewrite Hr. hplumb. rewrite Hf. hplumb.
  rewrite log_info_writes by assumption. hplumb. rewrite Hs. hplumb.
  eexists. split; [reflexivity|]. cbn [wire card fs trace].
  split; [by flat|]. split; [reflexivity|]. split; [| split].
  - rewrite !removals_app. cbn [removals app].
    rewrite ?removals_app, ?removals_uart_echo. cbn [removals app].
    by rewrite ?app_nil_r.
  - intros ->. change (_SD_ROOT +:+ "/" +:+ _LOG_FILE) with LOGPATH in *.
    by rewrite lookup_insert_eq, lookup_delete_eq.
  - intros Hne. rewrite lookup_insert_ne, lookup_delete_eq; [done|].
    intros Heq. apply Hne. symmetry. by apply sd_path_inj.
Qed.

Lemma handle_file_delete_removes_then_records_witness :
  fs (card session_old_log) !! (_SD_ROOT +:+ "/" +:+ _LOG_FILE) = Some "old records" /\
  remove_fault env_ok (now (card session_old_log)) (_SD_ROOT +:+ "/" +:+ _LOG_FILE) = None /\
  open_fault env_ok (S (S (now (card session_old_log)))) LOGPATH = None /\
  write_fault env_ok (S (S (S (now (card session_old_log))))) LOGPATH = None /\
  send_fault net_ok (S (S (S (S (now (card session_old_log)))))) = None /\
  exists s',
    handle_file_delete env_ok net_ok _LOG_FILE session_old_log = (Ok tt, s') /\
    fs (card s') !! LOGPATH = Some ("[INFO] - [120001]: File /sd/run.log deleted." +:+ CRLF).
Proof.
  set (s := session_old_log).
  assert (H1 : fs (card s) !! (_SD_ROOT +:+ "/" +:+ _LOG_FILE) = Some "old records")
    by reflexivity.
  assert (H2 : remove_fault env_ok (now (card s)) (_SD_ROOT +:+ "/" +:+ _LOG_FILE) = None)
    by reflexivity.
  assert (H3 : open_fault env_ok (S (S (now (card s)))) LOGPATH = None) by reflexivity.
  assert (H4 : write_fault env_ok (S (S (S (now (card s))))) LOGPATH = None) by reflexivity.
  assert (H5 : send_fault net_ok (S (S (S (S (now (card s)))))) = None) by reflexivity.
  split; [exact H1|]. split; [exact H2|]. split; [exact H3|]. split; [exact H4|].
  split; [exact H5|].
  destruct (handle_file_delete_removes_then_records env_ok net_ok _LOG_FILE s "old records"
              H1 H2 H3 H4 H5) as (s' & E & _ & _ & _ & Hlog & _).
  exists s'. split; [exact E|]. exact (Hlog eq_refl).
Defined.

(** X16. A deletion request whose [os.remove] raises, as it does for a file
    that is not there: nothing is logged, the card is left as [os.remove]
    left it, and the client gets the 500 response that quotes the file name
    and the text of the exception that was raised; the connection is closed
    and the handler returns normally.  For a file that is not there the
    exception is the [FileNotFoundError] of the runtime, so the response
    quotes the runtime's text for the path, and nothing on the card
    changes. *)
Theorem handle_file_delete_missing_file env net filename s :
  (forall e w1,
     os_remove env (_SD_ROOT +:+ "/" +:+ filename) (card s) = (Raise e, w1) ->
     send_fault net (now w1) = None ->
     handle_file_delete env net filename s =
       (Ok tt,
        mkSession
          (wire s ++
             [NSend (error_response ("Error deleting file '" +:+ filename +:+ "': "
                                       +:+ exn_text e)) true;
              NClose])
          (bump w1))) /\
  (fs (card s) !! (_SD_ROOT +:+ "/" +:+ filename) = None ->
   remove_fault env (now (card s)) (_SD_ROOT +:+ "/" +:+ filename) = None ->
   send_fault net (S (now (card s))) = None ->
   handle_file_delete env net filename s =
     (Ok tt,
      mkSession
        (wire s ++
           [NSend (error_response
                     ("Error deleting file '" +:+ filename +:+ "': "
                        +:+ enoent_text env (_SD_ROOT +:+ "/" +:+ filename))) true;
            NClose])
        (mkWorld (fs (card s))
           (trace (card s) ++ [ERemove (_SD_ROOT +:+ "/" +:+ filename) false])
           (S (S (now (card s))))))).
Proof.
  set (path := _SD_ROOT +:+ "/" +:+ filename).
  assert (forall e w1,
     os_remove env path (card s) = (Raise e, w1) ->
     send_fault net (now w1) = None ->
     handle_file_delete env net filename s =
       (Ok tt,
        mkSession
          (wire s ++
             [NSend (error_response ("Error deleting file '" +:+ filename +:+ "': "
                                       +:+ exn_text e)) true;
              NClose])
          (bump w1))) as Hgen.
  { intros e w1 Hrm Hs. unfold handle_file_delete. fold path.
    cbv [hfinally htry]. unfold hbind at 1. unfold on_card at 1. rewrite Hrm.
    hplumb. rewrite Hs. hplumb. unfold bump. by flat. }
  split; [exact Hgen|].
  intros Hf Hr Hs.
  rewrite (Hgen (mkExn FileNotFoundError (enoent_text env path))
             (mkWorld (fs (card s)) (trace (card s) ++ [ERemove path false])
                (S (now (card s))))); [reflexivity | | exact Hs].
  unfold os_remove. plumb. rewrite Hr. plumb. rewrite Hf. plumb. reflexivity.
Qed.

Lemma handle_file_delete_missing_file_witness :
  fs (card (session0 ∅)) !! (_SD_ROOT +:+ "/" +:+ "flight7.txt") = None /\
  remove_fault env_ok (now (card (session0 ∅))) (_SD_ROOT +:+ "/" +:+ "flight7.txt") = None /\
  send_fault net_ok (S (now (card (session0 ∅)))) = None /\
  handle_file_delete env_ok net_ok "flight7.txt" (session0 ∅) =
    (Ok tt,
     mkSession
       [NSend (error_response
                 ("Error deleting file 'flight7.txt': "
                    +:+ enoent_text env_ok "/sd/flight7.txt")) true;
        NClose]
       (mkWorld ∅ [ERemove "/sd/flight7.txt" false] 2)).
Proof.
  set (s := session0 ∅).
  assert (H1 : fs (card s) !! (_SD_ROOT +:+ "/" +:+ "flight7.txt") = None) by reflexivity.
  assert (H2 : remove_fault env_ok (now (card s)) (_SD_ROOT +:+ "/" +:+ "flight7.txt") = None)
    by reflexivity.
  assert (H3 : send_fault net_ok (S (now (card s))) = None) by reflexivity.
  split; [exact H1|]. split; [exact H2|]. split; [exact H3|].
  exact (proj2 (handle_file_delete_missing_file env_ok net_ok "flight7.txt" s) H1 H2 H3).
Defined.

(** X17. When the success response of a deletion cannot be sent, the
    exception lands in the handler's own [except] clause: the client is then
    sent the 500 response "Error deleting file ..." with the text of the
    send error, although the file has been removed and the removal has been
    recorded in the run log. *)
Theorem handle_file_delete_reports_send_failure_as_deletion_error env net filename s old e :
  let path := _SD_ROOT +:+ "/" +:+ filename in
  let w := card s in
  let line := log_line "INFO" (monotonic_ms env (S (now w))) ("File " +:+ path +:+ " deleted.") in
  fs w !! path = Some old ->
  remove_fault env (now w) path = None ->
  open_fault env (S (S (now w))) LOGPATH = None ->
  write_fault env (S (S (S (now w)))) LOGPATH = None ->
  send_fault net (S (S (S (S (now w))))) = Some e ->
  exists r s' ok,
    handle_file_delete env net filename s = (r, s') /\
    wire s' =
      wire s ++
        [NSend (ok_response ("File '" +:+ filename +:+ "' deleted successfully.")) false;
         NSend (error_response ("Error deleting file '" +:+ filename +:+ "': " +:+ exn_text e)) ok;
         NClose] /\
    fs (card s') =
      <[LOGPATH := default "" (delete path (fs w) !! LOGPATH) +:+ line +:+ CRLF]>
        (delete path (fs w)) /\
    removal_log (trace (card s')) = removal_log (trace w) ++ [(path, true)].
Proof.
  intros path w line Hf Hr Ho Hw Hs. subst w.
  unfold handle_file_delete. fold path. unfold os_remove. hplumb.
  rewrite Hr. hplumb. rewrite Hf. hplumb.
  rewrite log_info_writes by assumption. hplumb. rewrite Hs. hplumb.
  assert (forall l1 l2, removal_log (l1 ++ l2) = removal_log l1 ++ removal_log l2) as Happ.
  { induction l1 as [|[] l1 IH]; intros l2; cbn [removal_log app]; by rewrite ?IH. }
  assert (forall l, removal_log (uart_echo env l) = []) as Hu.
  { intros l. unfold uart_echo. by destruct (uart_present env). }
  destruct (send_fault net (S (S (S (S (S (now (card s)))))))) as [e'|]; hplumb.
  all: eexists _, _, _; split; [reflexivity|]; cbn [wire card fs trace].
  all: split; [by flat|]; split; [reflexivity|].
  all: rewrite !Happ; cbn [removal_log app]; rewrite ?Happ, ?Hu; cbn [removal_log app].
  all: by rewrite ?app_nil_r.
Qed.

Lemma handle_file_delete_reports_send_failure_as_deletion_error_witness :
  fs (card session_data) !! (_SD_ROOT +:+ "/" +:+ _DATA_FILE)
    = Some ("dps310 pressure=1013.25,temp=21.5 4711" +:+ CRLF) /\
  remove_fault env_ok (now (card session_data)) (_SD_ROOT +:+ "/" +:+ _DATA_FILE) = None /\
  open_fault env_ok (S (S (now (card session_data)))) LOGPATH = None /\
  write_fault env_ok (S (S (S (now (card session_data))))) LOGPATH = None /\
  send_fault (net_first_send_fails 4) (S (S (S (S (now (card session_data)))))) = Some io_error /\
  exists r s' ok,
    handle_file_delete env_ok (net_first_send_fails 4) _DATA_FILE session_data = (r, s') /\
    wire s' =
      wire session_data ++
        [NSend (ok_response ("File '" +:+ _DATA_FILE +:+ "' deleted successfully.")) false;
         NSend (error_response ("Error deleting file '" +:+ _DATA_FILE +:+ "': "
                                  +:+ exn_text io_error)) ok;
         NClose] /\
    fs (card s') !! DATAPATH = None.
Proof.
  set (s := session_data). set (net := net_first_send_fails 4).
  assert (H1 : fs (card s) !! (_SD_ROOT +:+ "/" +:+ _DATA_FILE)
               = Some ("dps310 pressure=1013.25,temp=21.5 4711" +:+ CRLF)) by reflexivity.
  assert (H2 : remove_fault env_ok (now (card s)) (_SD_ROOT +:+ "/" +:+ _DATA_FILE) = None)
    by reflexivity.
  assert (H3 : open_fault env_ok (S (S (now (card s)))) LOGPATH = None) by reflexivity.
  assert (H4 : write_fault env_ok (S (S (S (now (card s))))) LOGPATH = None) by reflexivity.
  assert (H5 : send_fault net (S (S (S (S (now (card s)))))) = Some io_error) by reflexivity.
  split; [exact H1|]. split; [exact H2|]. split; [exact H3|]. split; [exact H4|].
  split; [exact H5|].
  destruct (handle_file_delete_reports_send_failure_as_deletion_error
              env_ok net _DATA_FILE s _ io_error H1 H2 H3 H4 H5)
    as (r & s' & ok & E & Wi & F & _).
  exists r, s', ok. split; [exact E|]. split; [exact Wi|].
  rewrite F. reflexivity.
Defined.

(** ** Streaming a file *)

Section Streaming.

Variable env : Env.
Variable net : Net.

(** The loop never needs more rounds than the file has bytes, plus the one
    that reads the empty chunk: any larger bound gives the same run. *)
Lemma stream_loop_fuel fuel fuel' rest s :
  (String.length rest < fuel)%nat ->
  (String.length rest < fuel')%nat ->
  stream_loop net fuel rest s = stream_loop net fuel' rest s.
Proof.
  revert fuel' rest s. induction fuel as [|k IH]; intros [|k'] rest s Hlt Hlt'; try lia.
  cbn [stream_loop]. hplumb.
  destruct (read_fault net (now (card s))) as [e|]; [reflexivity|].
  destruct (str_take 512 rest) as [|c chunk] eqn:Ec; [reflexivity|]. hplumb.
  destruct (send_fault net (S (now (card s)))) as [e|]; [reflexivity|]. hplumb.
  assert (String.length (str_drop 512 rest) < String.length rest)%nat as Hd.
  { apply str_drop_length. by rewrite Ec. }
  apply IH; lia.
Qed.

(** Whatever fails, the loop only sends, and leaves the card as it is. *)
Lemma stream_loop_quiet fuel rest s :
  exists r s' new,
    stream_loop net fuel rest s = (r, s') /\
    wire s' = wire s ++ new /\
    forallb no_close new = true /\
    fs (card s') = fs (card s) /\
    trace (card s') = trace (card s).
Proof.
  revert rest s. induction fuel as [|k IH]; intros rest s.
  - exists (Ok tt), s, []. by rewrite app_nil_r.
  - cbn [stream_loop]. hplumb.
    destruct (read_fault net (now (card s))) as [e|].
    { eexists _, _, []. split; [reflexivity|]. cbn [wire card fs trace].
      by rewrite app_nil_r. }
    destruct (str_take 512 rest) as [|c chunk].
    { eexists _, _, []. split; [reflexivity|]. cbn [wire card fs trace].
      by rewrite app_nil_r. }
    hplumb. destruct (send_fault net (S (now (card s)))) as [e|]; hplumb.
    { eexists _, _, [_]. split; [reflexivity|]. by cbn [wire card fs trace]. }
    match goal with |- context [stream_loop net k ?r ?s0] =>
      destruct (IH r s0) as (r1 & s1 & new & E & Wi & Nc & F & T)
    end.
    rewrite E. exists r1, s1, (NSend (String c chunk) true :: new).
    split; [reflexivity|]. rewrite Wi, F, T. cbn [wire card fs trace].
    split; [by flat|]. by cbn [forallb no_close is_close negb andb].
Qed.

Hypothesis read_ok : forall n, read_fault net n = None.
Hypothesis send_ok : forall n, send_fault net n = None.

(** On a working card and connection the loop sends the file in order, in
    chunks, and stops at the end of the file. *)
Lemma stream_loop_sends_all fuel rest s :
  (String.length rest < fuel)%nat ->
  exists chunks,
    stream_loop net fuel rest s =
      (Ok tt,
       mkSession (wire s ++ map delivered chunks)
         (mkWorld (fs (card s)) (trace (card s))
            (2 * length chunks + 1 + now (card s)))) /\
    String.concat "" chunks = rest /\
    Forall is_chunk chunks.
Proof.
  revert rest s. induction fuel as [|k IH]; intros rest s Hlt; [lia|].
  cbn [stream_loop]. hplumb. rewrite read_ok.
  destruct (str_take 512 rest) as [|c chunk] eqn:Ec.
  - apply str_take_empty in Ec as ->. exists []. cbn [map length].
    rewrite app_nil_r. by split.
  - hplumb. rewrite send_ok. hplumb.
    assert (String.length (str_drop 512 rest) < String.length rest)%nat as Hd.
    { apply str_drop_length. by rewrite Ec. }
    match goal with |- context [stream_loop net k ?r ?s0] =>
      destruct (IH r s0) as (chunks & E & C & Fa); [lia|]
    end.
    rewrite E. exists (String c chunk :: chunks). cbn [wire card fs trace now map length].
    split; [| split].
    + f_equal. f_equal; [by flat | f_equal; lia].
    + rewrite concat_empty_sep_cons, C, <- Ec. apply str_take_drop.
    + constructor; [|done]. split; [done|]. rewrite <- Ec. apply str_take_length.
Qed.

End Streaming.

(** X18. A download of a file that is there, on a working card and
    connection: the client is sent the 200 header that names the file, then
    the contents in order as chunks of at most 512 bytes, none empty, whose
    concatenation is the file; the connection is then closed.  The file is
    opened once and closed, and the card holds what it held. *)
Theorem handle_file_stream_sends_the_file env net file_name s content :
  fs (card s) !! (_SD_ROOT +:+ "/" +:+ file_name) = Some content ->
  open_fault env (now (card s)) (_SD_ROOT +:+ "/" +:+ file_name) = None ->
  (forall n, read_fault net n = None) ->
  (forall n, send_fault net n = None) ->
  exists chunks s',
    handle_file_stream env net file_name s = (Ok tt, s') /\
    wire s' = wire s ++ delivered (stream_header file_name) :: map delivered chunks ++ [NClose] /\
    String.concat "" chunks = content /\
    Forall is_chunk chunks /\
    fs (card s') = fs (card s) /\
    trace (card s') =
      trace (card s) ++ [EOpen (_SD_ROOT +:+ "/" +:+ file_name) true;
                         EClose (_SD_ROOT +:+ "/" +:+ file_name)].
Proof.
  intros Hf Ho Hr Hs. unfold handle_file_stream, open_read.
  set (path := _SD_ROOT +:+ "/" +:+ file_name) in *.
  hplumb. rewrite Ho. hplumb. rewrite Hf. hplumb. rewrite Hs. hplumb.
  match goal with |- context [stream_loop net ?k content ?s0] =>
    destruct (stream_loop_sends_all net Hr Hs k content s0) as (chunks & E & C & Fa); [lia|]
  end.
  rewrite E. exists chunks. eexists. split; [reflexivity|].
  cbn [wire card fs trace]. split; [by flat|]. split; [done|]. split; [done|].
  split; [done|]. by flat.
Qed.

Lemma handle_file_stream_sends_the_file_witness :
  fs (card session_data) !! (_SD_ROOT +:+ "/" +:+ _DATA_FILE)
    = Some ("dps310 pressure=1013.25,temp=21.5 4711" +:+ CRLF) /\
  open_fault env_ok (now (card session_data)) (_SD_ROOT +:+ "/" +:+ _DATA_FILE) = None /\
  (forall n, read_fault net_ok n = None) /\
  (forall n, send_fault net_ok n = None) /\
  exists chunks s',
    handle_file_stream env_ok net_ok _DATA_FILE session_data = (Ok tt, s') /\
    wire s' = wire session_data
                ++ delivered (stream_header _DATA_FILE) :: map delivered chunks ++ [NClose] /\
    String.concat "" chunks = "dps310 pressure=1013.25,temp=21.5 4711" +:+ CRLF.
Proof.
  assert (H1 : fs (card session_data) !! (_SD_ROOT +:+ "/" +:+ _DATA_FILE)
               = Some ("dps310 pressure=1013.25,temp=21.5 4711" +:+ CRLF)) by reflexivity.
  assert (H2 : open_fault env_ok (now (card session_data)) (_SD_ROOT +:+ "/" +:+ _DATA_FILE)
               = None) by reflexivity.
  assert (H3 : forall n, read_fault net_ok n = None) by reflexivity.
  assert (H4 : forall n, send_fault net_ok n = None) by reflexivity.
  split; [exact H1|]. split; [exact H2|]. split; [exact H3|]. split; [exact H4|].
  destruct (handle_file_stream_sends_the_file env_ok net_ok _DATA_FILE session_data _
              H1 H2 H3 H4) as (chunks & s' & E & Wi & C & _).
  exists chunks, s'. split; [exact E|]. split; [exact Wi|]. exact C.
Defined.

Section StreamFaults.

Variable env : Env.
Variable net : Net.

Lemma open_read_wire path s r s1 :
  open_read env path s = (r, s1) -> wire s1 = wire s.
Proof.
  unfold open_read. hplumb.
  destruct (open_fault env (now (card s)) path) as [e|]; hplumb.
  { by intros [= <- <-]. }
  destruct (fs (card s) !! path); hplumb; by intros [= <- <-].
Qed.

Hypothesis send_ok : forall n, send_fault net n = None.

(** A read that fails after [k] chunks: these have been sent, and the loop
    ends with the exception of the read. *)
Lemma stream_loop_fails_at k e fuel rest s :
  (k < fuel)%nat ->
  (forall j, (j < k)%nat -> read_fault net (2 * j + now (card s)) = None) ->
  read_fault net (2 * k + now (card s)) = Some e ->
  (512 * k < String.length rest + 512)%nat ->
  exists chunks,
    stream_loop net fuel rest s =
      (Raise e,
       mkSession (wire s ++ map delivered chunks)
         (mkWorld (fs (card s)) (trace (card s)) (2 * k + 1 + now (card s)))) /\
    length chunks = k /\
    String.concat "" chunks = str_take (512 * k) rest /\
    Forall is_chunk chunks.
Proof.
  revert fuel rest s. induction k as [|k IH]; intros [|fuel] rest s Hlt Hok Hbad Hlen; try lia.
  - cbn [stream_loop]. hplumb.
    replace (2 * 0 + now (card s))%nat with (now (card s)) in Hbad by lia.
    rewrite Hbad. exists []. cbn [map length]. rewrite app_nil_r.
    split; [reflexivity|]. split; [reflexivity|]. split; [|constructor].
    by destruct rest.
  - cbn [stream_loop]. hplumb.
    pose proof (Hok 0%nat ltac:(lia)) as H0.
    replace (2 * 0 + now (card s))%nat with (now (card s)) in H0 by lia.
    rewrite H0.
    destruct (str_take 512 rest) as [|c chunk] eqn:Ec.
    { apply str_take_empty in Ec as ->. cbn [String.length] in Hlen. lia. }
    hplumb. rewrite send_ok. hplumb.
    pose proof (str_drop_length_eq 512 rest) as Hd.
    match goal with |- context [stream_loop net fuel ?r ?s0] =>
      destruct (IH fuel r s0) as (chunks & E & L & C & Fa)
    end.
    + lia.
    + intros j Hj. cbn [card now].
      replace (2 * j + S (S (now (card s))))%nat with (2 * S j + now (card s))%nat by lia.
      apply Hok. lia.
    + cbn [card now].
      replace (2 * k + S (S (now (card s))))%nat with (2 * S k + now (card s))%nat by lia.
      exact Hbad.
    + lia.
    + rewrite E. exists (String c chunk :: chunks). cbn [wire card fs trace now map length].
      split; [| split; [| split]].
      * f_equal. f_equal; [by flat | f_equal; lia].
      * by rewrite L.
      * rewrite concat_empty_sep_cons, C, <- Ec.
        replace (512 * S k)%nat with (512 + 512 * k)%nat by lia.
        by rewrite str_take_add.
      * constructor; [|done]. split; [done|]. rewrite <- Ec. apply str_take_length.
Qed.

End StreamFaults.

(** X19. A download whose open fails, as it does for a file that is not
    there: no 200 header is sent, the client gets the 500 response that
    quotes the text of the exception that was raised, the connection is
    closed and the handler returns normally.  For a file that is not there
    the exception is the [FileNotFoundError] of the runtime, so the response
    quotes the runtime's text for the path; the open does not create the
    file. *)
Theorem handle_file_stream_missing_file env net file_name s :
  (forall e s1,
     open_read env (_SD_ROOT +:+ "/" +:+ file_name) s = (Raise e, s1) ->
     send_fault net (now (card s1)) = None ->
     handle_file_stream env net file_name s =
       (Ok tt,
        mkSession
          (wire s ++ [delivered (error_response ("Error: " +:+ exn_text e)); NClose])
          (bump (card s1)))) /\
  (fs (card s) !! (_SD_ROOT +:+ "/" +:+ file_name) = None ->
   open_fault env (now (card s)) (_SD_ROOT +:+ "/" +:+ file_name) = None ->
   send_fault net (S (now (card s))) = None ->
   handle_file_stream env net file_name s =
     (Ok tt,
      mkSession
        (wire s ++
           [delivered (error_response
                         ("Error: " +:+ enoent_text env (_SD_ROOT +:+ "/" +:+ file_name)));
            NClose])
        (mkWorld (fs (card s))
           (trace (card s) ++ [EOpen (_SD_ROOT +:+ "/" +:+ file_name) false])
           (S (S (now (card s))))))).
Proof.
  set (path := _SD_ROOT +:+ "/" +:+ file_name).
  assert (forall e s1,
     open_read env path s = (Raise e, s1) ->
     send_fault net (now (card s1)) = None ->
     handle_file_stream env net file_name s =
       (Ok tt,
        mkSession
          (wire s ++ [delivered (error_response ("Error: " +:+ exn_text e)); NClose])
          (bump (card s1)))) as Hgen.
  { intros e s1 Hop Hs. unfold handle_file_stream. fold path.
    cbv [hfinally htry]. unfold hbind at 1. rewrite Hop.
    hplumb. rewrite Hs. hplumb. rewrite (open_read_wire env path s _ s1 Hop).
    unfold bump, delivered. by flat. }
  split; [exact Hgen|].
  intros Hf Ho Hs.
  rewrite (Hgen (mkExn FileNotFoundError (enoent_text env path))
             (mkSession (wire s)
                (mkWorld (fs (card s)) (trace (card s) ++ [EOpen path false])
                   (S (now (card s)))))); [reflexivity | | exact Hs].
  unfold open_read. hplumb. rewrite Ho. hplumb. rewrite Hf. hplumb. reflexivity.
Qed.

Lemma handle_file_stream_missing_file_witness :
  fs (card (session0 ∅)) !! (_SD_ROOT +:+ "/" +:+ "flight7.txt") = None /\
  open_fault env_ok (now (card (session0 ∅))) (_SD_ROOT +:+ "/" +:+ "flight7.txt") = None /\
  send_fault net_ok (S (now (card (session0 ∅)))) = None /\
  handle_file_stream env_ok net_ok "flight7.txt" (session0 ∅) =
    (Ok tt,
     mkSession
       [delivered (error_response ("Error: " +:+ enoent_text env_ok "/sd/flight7.txt"));
        NClose]
       (mkWorld ∅ [EOpen "/sd/flight7.txt" false] 2)).
Proof.
  set (s := session0 ∅).
  assert (H1 : fs (card s) !! (_SD_ROOT +:+ "/" +:+ "flight7.txt") = None) by reflexivity.
  assert (H2 : open_fault env_ok (now (card s)) (_SD_ROOT +:+ "/" +:+ "flight7.txt") = None)
    by reflexivity.
  assert (H3 : send_fault net_ok (S (now (card s))) = None) by reflexivity.
  split; [exact H1|]. split; [exact H2|]. split; [exact H3|].
  exact (proj2 (handle_file_stream_missing_file env_ok net_ok "flight7.txt" s) H1 H2 H3).
Defined.

(** X20. When a read fails after the 200 header has gone out, the handler
    still sends its 500 response.  If the read that fails is the one after
    [k] chunks, the client has received the header and these [k] chunks, the
    first [512 * k] bytes of the file, and then receives a second status
    line on the same connection: the 500 response that quotes the exception
    of the read.  The file is opened once and closed, the connection is
    closed, and the handler returns normally. *)
Theorem handle_file_stream_error_after_header env net file_name s content e k :
  fs (card s) !! (_SD_ROOT +:+ "/" +:+ file_name) = Some content ->
  open_fault env (now (card s)) (_SD_ROOT +:+ "/" +:+ file_name) = None ->
  (forall n, send_fault net n = None) ->
  (forall j, (j < k)%nat -> read_fault net (2 + 2 * j + now (card s)) = None) ->
  read_fault net (2 + 2 * k + now (card s)) = Some e ->
  (512 * k < String.length content + 512)%nat ->
  exists chunks,
    handle_file_stream env net file_name s =
      (Ok tt,
       mkSession
         (wire s ++ delivered (stream_header file_name) :: map delivered chunks
            ++ [delivered (error_response ("Error: " +:+ exn_text e)); NClose])
         (mkWorld (fs (card s))
            (trace (card s) ++ [EOpen (_SD_ROOT +:+ "/" +:+ file_name) true;
                                EClose (_SD_ROOT +:+ "/" +:+ file_name)])
            (4 + 2 * k + now (card s)))) /\
    length chunks = k /\
    String.concat "" chunks = str_take (512 * k) content /\
    Forall is_chunk chunks.
Proof.
  intros Hf Ho Hs Hok Hbad Hlen. unfold handle_file_stream, open_read.
  set (path := _SD_ROOT +:+ "/" +:+ file_name) in *.
  hplumb. rewrite Ho. hplumb. rewrite Hf. hplumb. rewrite Hs. hplumb.
  match goal with |- context [stream_loop net ?fuel content ?s0] =>
    destruct (stream_loop_fails_at net Hs k e fuel content s0) as (chunks & E & L & C & Fa)
  end.
  - pose proof (Nat.mul_le_mono_r 1 512 k ltac:(lia)). lia.
  - intros j Hj. cbn [card now].
    replace (2 * j + S (S (now (card s))))%nat with (2 + 2 * j + now (card s))%nat by lia.
    by apply Hok.
  - cbn [card now].
    replace (2 * k + S (S (now (card s))))%nat with (2 + 2 * k + now (card s))%nat by lia.
    exact Hbad.
  - exact Hlen.
  - rewrite E. hplumb. rewrite Hs. hplumb. exists chunks.
    split; [| by repeat split].
    f_equal. f_equal; [unfold delivered; by flat |]. f_equal; [by flat | lia].
Qed.

Lemma handle_file_stream_error_after_header_witness :
  fs (card session_data) !! (_SD_ROOT +:+ "/" +:+ _DATA_FILE)
    = Some ("dps310 pressure=1013.25,temp=21.5 4711" +:+ CRLF) /\
  open_fault env_ok (now (card session_data)) (_SD_ROOT +:+ "/" +:+ _DATA_FILE) = None /\
  (forall n, send_fault (net_read_fails_at 4) n = None) /\
  (forall j, (j < 1)%nat ->
     read_fault (net_read_fails_at 4) (2 + 2 * j + now (card session_data)) = None) /\
  read_fault (net_read_fails_at 4) (2 + 2 * 1 + now (card session_data)) = Some io_error /\
  (512 * 1 < String.length ("dps310 pressure=1013.25,temp=21.5 4711" +:+ CRLF) + 512)%nat /\
  exists chunks,
    handle_file_stream env_ok (net_read_fails_at 4) _DATA_FILE session_data =
      (Ok tt,
       mkSession
         (wire session_data ++ delivered (stream_header _DATA_FILE) :: map delivered chunks
            ++ [delivered (error_response ("Error: " +:+ exn_text io_error)); NClose])
         (mkWorld (fs (card session_data))
            (trace (card session_data) ++ [EOpen (_SD_ROOT +:+ "/" +:+ _DATA_FILE) true;
                                           EClose (_SD_ROOT +:+ "/" +:+ _DATA_FILE)])
            (4 + 2 * 1 + now (card session_data)))) /\
    length chunks = 1%nat.
Proof.
  set (s := session_data). set (net := net_read_fails_at 4).
  assert (H1 : fs (card s) !! (_SD_ROOT +:+ "/" +:+ _DATA_FILE)
               = Some ("dps310 pressure=1013.25,temp=21.5 4711" +:+ CRLF)) by reflexivity.
  assert (H2 : open_fault env_ok (now (card s)) (_SD_ROOT +:+ "/" +:+ _DATA_FILE) = None)
    by reflexivity.
  assert (H3 : forall n, send_fault net n = None) by reflexivity.
  assert (H4 : forall j, (j < 1)%nat -> read_fault net (2 + 2 * j + now (card s)) = None).
  { intros j Hj. assert (j = 0%nat) as -> by lia. reflexivity. }
  assert (H5 : read_fault net (2 + 2 * 1 + now (card s)) = Some io_error) by reflexivity.
  assert (H6 : (512 * 1 < String.length ("dps310 pressure=1013.25,temp=21.5 4711" +:+ CRLF)
                          + 512)%nat) by (vm_compute; lia).
  split; [exact H1|]. split; [exact H2|]. split; [exact H3|]. split; [exact H4|].
  split; [exact H5|]. split; [exact H6|].
  destruct (handle_file_stream_error_after_header env_ok net _DATA_FILE s _ io_error 1
              H1 H2 H3 H4 H5 H6) as (chunks & E & L & _).
  exists chunks. split; [exact E | exact L].
Defined.

Section Downloads.

Variable env : Env.
Variable net : Net.

(** Whatever fails, [handle_file_stream] leaves the files alone and closes
    the connection as its last act. *)
Lemma handle_file_stream_quiet file_name s :
  exists r s' new,
    handle_file_stream env net file_name s = (r, s') /\
    fs (card s') = fs (card s) /\
    wire s' = wire s ++ new ++ [NClose] /\
    forallb no_close new = true.
Proof.
  unfold handle_file_stream, open_read.
  set (path := _SD_ROOT +:+ "/" +:+ file_name).
  hplumb.
  destruct (open_fault env (now (card s)) path) as [e|]; hplumb.
  { destruct (send_fault net (S (now (card s)))) as [e'|]; hplumb.
    all: eexists _, _, [_]; split; [reflexivity|]; cbn [wire card fs].
    all: split; [done|]; split; [by flat | done]. }
  destruct (fs (card s) !! path) as [content|]; hplumb.
  2: { destruct (send_fault net (S (now (card s)))) as [e'|]; hplumb.
       all: eexists _, _, [_]; split; [reflexivity|]; cbn [wire card fs].
       all: split; [done|]; split; [by flat | done]. }
  destruct (send_fault net (S (now (card s)))) as [e|]; hplumb.
  { destruct (send_fault net (S (S (now (card s))))) as [e'|]; hplumb.
    all: eexists _, _, [_; _]; split; [reflexivity|]; cbn [wire card fs].
    all: split; [done|]; split; [by flat | done]. }
  match goal with |- context [stream_loop net ?k content ?s0] =>
    destruct (stream_loop_quiet net k content s0) as (r1 & s1 & new & E & Wi & Nc & F & T)
  end.
  rewrite E. cbn [wire card fs trace] in Wi, F, T.
  destruct r1 as [[]|e]; hplumb.
  - exists (Ok tt). eexists. exists (NSend (stream_header file_name) true :: new).
    split; [reflexivity|]. cbn [wire card fs]. rewrite Wi, F.
    split; [done|]. split; [by flat|]. by cbn [forallb no_close is_close negb andb].
  - destruct (send_fault net (now (card s1))) as [e'|]; hplumb.
    all: eexists _, _, (NSend (stream_header file_name) true :: new ++ [_]).
    all: split; [reflexivity|]; cbn [wire card fs]; rewrite Wi, F.
    all: split; [done|]; split; [by flat|].
    all: cbn [forallb no_close is_close negb andb]; rewrite forallb_app, Nc; done.
Qed.

End Downloads.

(** X21. A download request never changes a file on the card, whatever
    fails: the request is logged at Debug only, the file is opened for
    reading, and nothing is written or removed.  And whatever fails, the
    last thing the handler does to the connection is to close it, once. *)
Theorem download_file_changes_no_file env net filename s :
  exists r s' new,
    download_file env net filename s = (r, s') /\
    fs (card s') = fs (card s) /\
    wire s' = wire s ++ new ++ [NClose] /\
    forallb no_close new = true.
Proof.
  unfold download_file. unfold hbind at 1. unfold on_card at 1.
  rewrite log_debug by done.
  match goal with |- context [handle_file_stream env net filename ?s0] =>
    destruct (handle_file_stream_quiet env net filename s0) as (r & s' & new & E & F & Wi & Nc)
  end.
  rewrite E. exists r, s', new. by cbn [wire card fs] in *.
Qed.

(** * The directory listing *)

Lemma written_prints path l : forallb is_print l = true -> written path l = [].
Proof.
  induction l as [|[] l IH]; cbn [forallb is_print written andb]; try done.
Qed.

Section ListingLaws.

Variable env : Env.
Variable listdir : string -> Outcome (list string).
Variable stat : string -> Outcome (Z * Z).
Variable str_round2 : Z -> Z -> string.

Lemma emits__print_directory depth path tabs :
  emits is_print (_print_directory env listdir stat str_round2 depth path tabs false).
Proof.
  revert path tabs. induction depth as [|d IH]; intros path tabs; cbn [_print_directory].
  all: apply emits_bind; [apply emits_pure | intros files].
  all: apply emits_for_each; intros file.
  all: destruct (String.eqb file "?"); [apply emits_ret|].
  all: apply emits_bind; [apply emits_pure | intros stats].
  all: apply emits_bind; [by apply emits_emit | intros _].
  all: destruct (negb (Z.land (fst stats) 16384 =? 0)); try apply emits_ret.
  apply IH.
Qed.

Lemma keeps__print_directory depth path tabs :
  keeps_outside [] (_print_directory env listdir stat str_round2 depth path tabs false).
Proof.
  revert path tabs. induction depth as [|d IH]; intros path tabs; cbn [_print_directory].
  all: apply keeps_bind; [apply keeps_pure | intros files].
  all: apply keeps_for_each; intros file _.
  all: destruct (String.eqb file "?"); [apply keeps_ret|].
  all: apply keeps_bind; [apply keeps_pure | intros stats].
  all: apply keeps_bind; [apply keeps_emit | intros _].
  all: destruct (negb (Z.land (fst stats) 16384 =? 0)); try apply keeps_ret.
  apply IH.
Qed.

Lemma for_each_ext {A} (l : list A) (f g : A -> M unit) w :
  (forall x w0, In x l -> f x w0 = g x w0) -> for_each l f w = for_each l g w.
Proof.
  revert w. induction l as [|x l IH]; intros w Hfg; [reflexivity|].
  cbn [for_each]. unfold bind. rewrite (Hfg x w) by (by left).
  destruct (g x w) as [[[]|e] w1]; [|reflexivity].
  apply IH. intros y w0 Hy. apply Hfg. by right.
Qed.

(** A bound that covers the directories below [path] is as good as any
    larger one: the walk ends by itself. *)
Lemma _print_directory_depth depth depth' path tabs use_logger w :
  within_depth listdir stat depth path ->
  (depth <= depth')%nat ->
  _print_directory env listdir stat str_round2 depth' path tabs use_logger w
  = _print_directory env listdir stat str_round2 depth path tabs use_logger w.
Proof.
  revert depth' path tabs use_logger w.
  induction depth as [|d IH]; intros [|d'] path tabs use_logger w Hd Hle; try lia;
    try reflexivity.
  all: cbn [_print_directory within_depth] in *.
  all: unfold bind at 1 3; unfold os_listdir at 1 2.
  all: destruct (listdir path) as [files|e]; [|reflexivity].
  all: apply for_each_ext; intros file w0 Hin.
  all: destruct (String.eqb_spec file "?") as [|Hq]; [reflexivity|].
  all: unfold bind at 1 3; unfold os_stat at 1 2.
  all: specialize (Hd file Hin Hq).
  all: destruct (stat (path +:+ "/" +:+ file)) as [stats|e]; [|reflexivity].
  all: unfold bind.
  all: match goal with |- context [(if ?u then ?a else ?b) ?w1] =>
         destruct ((if u then a else b) w1) as [[[]|e] w2]; [|reflexivity]
       end.
  all: destruct (Z.eqb_spec (Z.land (fst stats) 16384) 0) as [|Hdir]; cbn [negb];
    [reflexivity|].
  - destruct (Hd Hdir).
  - apply IH; [by apply Hd | lia].
Qed.

End ListingLaws.

(** X22. The listing as [init_microsd] calls it, without the logger: it
    prints and does nothing else.  Whatever the card holds and whatever
    [os.listdir] and [os.stat] answer, every event is a console line, no file
    is opened, written or removed, and the files are what they were. *)
Theorem _print_directory_prints_only env listdir stat str_round2 depth path tabs w :
  exists new,
    trace (snd (_print_directory env listdir stat str_round2 depth path tabs false w))
      = trace w ++ new /\
    forallb is_print new = true /\
    fs (snd (_print_directory env listdir stat str_round2 depth path tabs false w)) = fs w.
Proof.
  destruct (emits__print_directory env listdir stat str_round2 depth path tabs w)
    as (new & E & F).
  exists new. split; [exact E|]. split; [exact F|].
  apply map_eq. intros q.
  apply (keeps__print_directory env listdir stat str_round2 depth path tabs w q).
  intros H. destruct H.
Qed.

Lemma bind_run {A B} (m : M A) (k : A -> M B) w :
  bind m k w = match m w with (Ok a, w') => k a w' | (Raise e, w') => (Raise e, w') end.
Proof. reflexivity. Qed.

Section ListingLogged.

Variable env : Env.
Variable stat : string -> Outcome (Z * Z).
Variable str_round2 : Z -> Z -> string.
Variable descend : string -> M unit.
Variable path : string.
Variable tabs : nat.

Hypothesis open_ok : forall n p, open_fault env n p = None.
Hypothesis write_ok : forall n p, write_fault env n p = None.
Hypothesis descend_prints : forall p, emits is_print (descend p).

(** One round of the loop for an entry that is logged: at most one record
    goes to the run log, the one of this entry. *)
Lemma logged_entry file w :
  let round :=
    stats <- os_stat stat (path +:+ "/" +:+ file);;
    log env LogLevel_INFO
      [entry_line str_round2 tabs file (negb (Z.land (fst stats) 16384 =? 0)) (snd stats)];;
    if negb (Z.land (fst stats) 16384 =? 0) then descend (path +:+ "/" +:+ file) else ret tt in
  exists new,
    trace (snd (round w)) = trace w ++ new /\
    ((written LOGPATH new = [] /\ fst (round w) <> Ok tt) \/
     exists rec,
       entry_record stat str_round2 path tabs rec file /\ written LOGPATH new = [rec]).
Proof.
  intros round. subst round. rewrite bind_run. unfold os_stat.
  destruct (stat (path +:+ "/" +:+ file)) as [stats|e] eqn:Est.
  2: { exists []. cbn [snd fst]. rewrite app_nil_r. split; [done|]. by left. }
  rewrite bind_run, log_info_writes by done. cbv zeta.
  set (isdir := negb (Z.land (fst stats) 16384 =? 0)).
  set (line := log_line "INFO" (monotonic_ms env (now w))
                 (entry_line str_round2 tabs file isdir (snd stats))).
  assert (forall tail, written LOGPATH
            (EPrint line :: uart_echo env line
               ++ EOpen LOGPATH true :: EWrite LOGPATH (line +:+ CRLF) true :: EClose LOGPATH
               :: tail)
          = (line +:+ CRLF) :: written LOGPATH tail) as Hw.
  { intros tail. cbn [written]. rewrite written_app, written_uart_echo. reflexivity. }
  assert (entry_record stat str_round2 path tabs (line +:+ CRLF) file) as Hrec.
  { exists (monotonic_ms env (now w)), stats. by split. }
  destruct isdir.
  - match goal with |- context [descend ?p ?w0] =>
      destruct (descend_prints p w0) as (new & E & F)
    end.
    cbn [trace] in E. eexists. rewrite E. split; [by flat|].
    right. exists (line +:+ CRLF). split; [exact Hrec|].
    rewrite Hw. by rewrite (written_prints _ _ F).
  - cbn [ret snd trace]. eexists. split; [by flat|].
    right. exists (line +:+ CRLF). split; [exact Hrec|].
    rewrite Hw. reflexivity.
Qed.

(** The loop over a listing: the records follow the entries one to one, in
    order, up to where the loop got. *)
Lemma logged_entries files w :
  let body := fun file =>
    if String.eqb file "?" then ret tt
    else
      stats <- os_stat stat (path +:+ "/" +:+ file);;
      log env LogLevel_INFO
        [entry_line str_round2 tabs file (negb (Z.land (fst stats) 16384 =? 0)) (snd stats)];;
      if negb (Z.land (fst stats) 16384 =? 0) then descend (path +:+ "/" +:+ file) else ret tt in
  exists new logged rest,
    trace (snd (for_each files body w)) = trace w ++ new /\
    listed files = logged ++ rest /\
    Forall2 (entry_record stat str_round2 path tabs) (written LOGPATH new) logged /\
    (fst (for_each files body w) = Ok tt -> rest = []).
Proof.
  intros body. revert w. induction files as [|file files IH]; intros w.
  { exists [], [], []. cbn [for_each ret snd fst]. rewrite app_nil_r.
    split; [done|]. split; [done|]. split; [constructor | done]. }
  cbn [for_each]. unfold listed in *.
  destruct (String.eqb_spec file "?") as [->|Hq].
  - rewrite filter_cons_False by (intros H; by apply H).
    rewrite bind_run.
    assert (body "?" = ret tt) as -> by reflexivity.
    cbn [ret]. exact (IH w).
  - rewrite filter_cons_True by done.
    rewrite bind_run.
    assert (body file = (stats <- os_stat stat (path +:+ "/" +:+ file);;
      log env LogLevel_INFO
        [entry_line str_round2 tabs file (negb (Z.land (fst stats) 16384 =? 0)) (snd stats)];;
      if negb (Z.land (fst stats) 16384 =? 0) then descend (path +:+ "/" +:+ file) else ret tt))
      as ->.
    { unfold body. by destruct (String.eqb_spec file "?"). }
    destruct (logged_entry file w) as (new1 & E1 & H1). cbv zeta in E1, H1.
    match type of E1 with trace (snd (?m w)) = _ => destruct (m w) as [[[]|e] w1] end;
      cbn [snd fst] in *.
    + destruct (IH w1) as (new2 & logged & rest & E2 & L & Fa & Hok).
      destruct H1 as [[W1 Hne] | (rec & Hrec & W1)]; [done|].
      exists (new1 ++ new2), (file :: logged), rest.
      rewrite E2, E1, app_assoc. split; [done|].
      rewrite L, written_app, W1. cbn [app].
      split; [done|]. split; [by constructor | exact Hok].
    + destruct H1 as [[W1 Hne] | (rec & Hrec & W1)].
      * exists new1, [], (file :: filter (fun f => f <> "?") files).
        rewrite W1. split; [done|]. split; [done|]. split; [constructor | done].
      * exists new1, [file], (filter (fun f => f <> "?") files).
        rewrite W1. split; [done|]. split; [done|].
        split; [by repeat constructor | done].
Qed.

End ListingLogged.

(** X23. The listing with the logger on logs the entries of the directory it
    was called for and nothing below them: the recursive call does not pass
    the flag on, so the entries of subdirectories are printed only.  On a
    working card the records the listing writes to the run log follow the
    entries of the directory itself that are not ["?"], one record per entry
    and in the order of the listing, each the Info line of its entry at the
    indentation of the call; they cover the entries up to where the listing
    got, and all of them when it returns normally, however many entries lie
    below. *)
Theorem _print_directory_logs_top_level_only
    env listdir stat str_round2 depth path tabs files w :
  listdir path = Ok files ->
  (forall n p, open_fault env n p = None) ->
  (forall n p, write_fault env n p = None) ->
  exists new logged rest,
    trace (snd (_print_directory env listdir stat str_round2 depth path tabs true w))
      = trace w ++ new /\
    listed files = logged ++ rest /\
    Forall2 (entry_record stat str_round2 path tabs) (written LOGPATH new) logged /\
    (fst (_print_directory env listdir stat str_round2 depth path tabs true w) = Ok tt ->
     rest = []).
Proof.
  intros Hl Ho Hw.
  destruct depth as [|d]; cbn [_print_directory]; rewrite bind_run; unfold os_listdir;
    rewrite Hl.
  - apply (logged_entries env stat str_round2 (fun _ => ret tt) path tabs Ho Hw).
    intros p. apply emits_ret.
  - apply (logged_entries env stat str_round2
             (fun p => _print_directory env listdir stat str_round2 d p (S tabs) false)
             path tabs Ho Hw).
    intros p. apply emits__print_directory.
Qed.

Lemma _print_directory_logs_top_level_only_witness :
  listdir_demo "/sd" = Ok ["?"; "data.txt"; "logs"] /\
  (forall n p, open_fault env_ok n p = None) /\
  (forall n p, write_fault env_ok n p = None) /\
  exists new,
    trace (snd (_print_directory env_ok listdir_demo stat_demo str_round2_demo 2 "/sd" 0 true
                  world0))
      = trace world0 ++ new /\
    Forall2 (entry_record stat_demo str_round2_demo "/sd" 0) (written LOGPATH new)
      ["data.txt"; "logs"].
Proof.
  assert (H1 : listdir_demo "/sd" = Ok ["?"; "data.txt"; "logs"]) by reflexivity.
  assert (H2 : forall n p, open_fault env_ok n p = None) by reflexivity.
  assert (H3 : forall n p, write_fault env_ok n p = None) by reflexivity.
  split; [exact H1|]. split; [exact H2|]. split; [exact H3|].
  destruct (_print_directory_logs_top_level_only env_ok listdir_demo stat_demo
              str_round2_demo 2 "/sd" 0 _ world0 H1 H2 H3) as (new & logged & rest & E & L & Fa & Hok).
  exists new. split; [exact E|].
  assert (rest = []) as -> by (apply Hok; vm_compute; reflexivity).
  rewrite app_nil_r in L. rewrite <- L in Fa. exact Fa.
Defined.
